(** * Trading research pipeline: scan, score, trade idea, report, journal

    A shallow embedding of [trading-research/enhanced_researcher.py].

    Modelling conventions.
    - A Python [float] is an exact rational ([Q]); NaN and the infinities
      are handled where the source tests for them and are otherwise not
      represented.  Comparisons with the thresholds of the source
      (1.5, 2, 5, 10, 30, 35, 50, 65, 70, 80) are exact on [Q].
    - A Python [dict] with a fixed set of keys is a record; a key that may
      hold [None], or that is added to the dict later, is an [option] field.
    - An exception is a value of [result]; [try/except] is a match on it.
    - The market-data provider (yfinance), the clock, [datetime.strptime],
      [numpy.sqrt] and the order [numpy.argsort] gives to equal keys are not
      part of the repository: they are parameters.
    - [round(x, ndigits)] is exact round-half-even on the rational.  On a
      binary double the source may take the other neighbour of a decimal
      tie; a statement about a stored, rounded value therefore says
      [rounded_to]: a whole number of units less than one unit away. *)

From Stdlib Require Import ZArith QArith Qround Qabs Qminmax List String Bool Lia.
From Stdlib Require Import Permutation Sorted.
Import ListNotations.

Local Open Scope Q_scope.

(** ** Python primitives *)

Module Py.

Inductive exn : Type :=
| TypeError
| ValueError
| IndexError
| ProviderError.

Inductive result (A : Type) : Type :=
| OK (a : A)
| Raise (e : exn).
Arguments OK {A} a.
Arguments Raise {A} e.

Definition bind {A B} (r : result A) (k : A -> result B) : result B :=
  match r with
  | OK a => k a
  | Raise e => Raise e
  end.

(** [x < y], [x >= y] on floats, as booleans. *)
Definition Qltb (x y : Q) : bool := negb (Qle_bool y x).
Definition Qgeb (x y : Q) : bool := Qle_bool y x.
Definition Qgtb (x y : Q) : bool := negb (Qle_bool x y).

(** Truthiness of a nullable number: [None] and [0] are both falsy. *)
Definition truthy_num (x : option Q) : bool :=
  match x with
  | Some v => negb (Qeq_bool v 0)
  | None => false
  end.

Definition truthy_int (x : option Z) : bool :=
  match x with
  | Some v => negb (v =? 0)%Z
  | None => false
  end.

(** [x > y] where [x] may be [None]: Python 3 raises [TypeError]. *)
Definition gt_nullable (x : option Q) (y : Q) : result bool :=
  match x with
  | Some v => OK (Qgtb v y)
  | None => Raise TypeError
  end.

Definition lt_nullable (x : option Q) (y : Q) : result bool :=
  match x with
  | Some v => OK (Qltb v y)
  | None => Raise TypeError
  end.

(** Round half to even, as [round] does on an exactly representable
    value. *)
Definition round_half_even (x : Q) : Z :=
  let f := Qfloor x in
  let r := x - inject_Z f in
  if Qltb r (1 # 2) then f
  else if Qltb (1 # 2) r then (f + 1)%Z
  else if Z.even f then f else (f + 1)%Z.

(** [round(x, ndigits)], taken on the rational: away from a decimal tie it
    is the value the source stores. *)
Definition round (x : Q) (ndigits : nat) : Q :=
  let scale := inject_Z (10 ^ Z.of_nat ndigits) in
  inject_Z (round_half_even (x * scale)) / scale.

(** [l[:n]] for a possibly negative [n]. *)
Definition slice_to {A} (l : list A) (n : Z) : list A :=
  if (0 <=? n)%Z then firstn (Z.to_nat n) l
  else firstn (List.length l - Z.to_nat (- n)) l.

(** [l.iloc[-(k+1)]]: the element [k] places before the end. *)
Definition iloc_from_end {A} (l : list A) (k : nat) : result A :=
  match nth_error (rev l) k with
  | Some x => OK x
  | None => Raise IndexError
  end.

(** [l.tail(n)]: the last [n] elements (all of them when fewer). *)
Definition tail {A} (n : nat) (l : list A) : list A :=
  skipn (List.length l - n) l.

(** [int(x)]: truncation towards zero. *)
Definition int (x : Q) : Z := Z.quot (Qnum x) (Z.pos (Qden x)).

Definition sum (l : list Q) : Q := fold_left Qplus l 0.

(** [l.mean()]. *)
Definition mean (l : list Q) : Q := sum l / inject_Z (Z.of_nat (List.length l)).

(** [l.min()] and [l.max()] of a column; [0] stands for the NaN of an
    empty column. *)
Definition minimum (l : list Q) : Q :=
  match l with
  | [] => 0
  | x :: rest => fold_left Qmin rest x
  end.

Definition maximum (l : list Q) : Q :=
  match l with
  | [] => 0
  | x :: rest => fold_left Qmax rest x
  end.

(** [s[:n]] on a string, [n >= 0]. *)
Definition str_prefix (n : nat) (s : string) : string :=
  String.substring 0 (Nat.min n (String.length s)) s.

End Py.

Import Py.

Notation "x <- r ;; k" := (bind r (fun x => k))
  (at level 61, r at next level, right associativity).

(** ** Data model *)

Inductive Trend : Type := bullish | bearish | neutral.

Inductive Direction : Type := CALL | PUT | STRADDLE.

(** A strike suggestion (the dict built at lines 677-684 and 691-698). *)
Record Suggestion : Type := mkSuggestion {
  sg_strike : Q;
  sg_premium : Q;
  sg_iv : Q;
  sg_volume : Z;
  sg_oi : Z;
  sg_break_even : Q
}.

(** The dict returned by [get_options_data]. *)
Record OptionsSnapshot : Type := mkOptions {
  expiration : string;
  dte : Z;
  iv_avg : Q;
  expected_move_pct : Q;
  expected_move_dollars : Q;
  call_suggestion : option Suggestion;
  put_suggestion : option Suggestion;
  atm_call_price : option Q;
  atm_put_price : option Q
}.

(** The ["summary"] key of a sentiment dict: missing, [null], or a text. *)
Inductive SummaryField : Type :=
| SummaryMissing
| SummaryNull
| SummaryText (s : string).

Record Sentiment : Type := mkSentiment {
  s_score : Q;
  s_summary : SummaryField;
  s_confidence : string
}.

Record NewsItem : Type := mkNews {
  n_title : string;
  n_publisher : string;
  n_link : string
}.

(** The reason strings of [score_opportunity], by format and arguments:
    - [EarningsImminent d]: lightning, [Earnings in {d}d];
    - [EarningsThisWeek d]: calendar, [Earnings in {d}d];
    - [EarningsToday]: [Earnings today];
    - [VolumeReason v]: [Volume {v:.1f}x];
    - [RocketMove m], [UpMove m], [DownMove m]: rocket, rising chart and
      falling chart, with [{abs(m):.1f}% move];
    - [Overbought r], [Oversold r]: [... RSI {r:.0f}];
    - [HighIV v], [LowIV v]: [... IV {v:.0f}%];
    - [AffordableOptions];
    - [AIStrong pos text]: green or red dot, [AI: {text}];
    - [AISentimentReason pos]: green or red dot, [AI sentiment]. *)
Inductive Reason : Type :=
| EarningsImminent (d : Z)
| EarningsThisWeek (d : Z)
| EarningsToday
| VolumeReason (v : Q)
| RocketMove (m : Q)
| UpMove (m : Q)
| DownMove (m : Q)
| Overbought (r : Q)
| Oversold (r : Q)
| HighIV (v : Q)
| LowIV (v : Q)
| AffordableOptions
| AIStrong (positive : bool) (text : string)
| AISentimentReason (positive : bool).

(** The dict returned by [calculate_entry_exit]. *)
Record EntryExit : Type := mkEntryExit {
  ee_direction : Direction;
  stock_entry : Q;
  stock_target : Q;
  stock_stop : Q;
  option_entry : string;
  option_target : string;
  option_stop : string
}.

(** The expiry text of a trade idea, by format and arguments. *)
Inductive Expiry : Type :=
| ThroughEarnings (earnings_date : option string)
| OptionsExpiry (exp : string) (days : Z)
| OneToTwoWeeks.

(** The dict returned by [generate_trade_idea]. *)
Record TradeIdea : Type := mkTradeIdea {
  ti_direction : Direction;
  ti_bias : Trend;
  ti_expiry : Expiry;
  ti_reasons : list Reason;
  ti_entry_exit : EntryExit;
  ti_suggested_option : option Suggestion
}.

(** The per-ticker dict [data].  The first fifteen keys are set by
    [get_stock_data]; ["discovery"], ["score"], ["reasons"] and
    ["trade_idea"] are added by [run_research] and are absent ([None])
    until then. *)
Record Data : Type := mkData {
  ticker : string;
  price : Q;
  change_pct : Q;
  volume : Z;
  vol_surge : Q;
  momentum_5d : Q;
  rsi : option Q;
  trend : Trend;
  support : Q;
  resistance : Q;
  earnings_date : option string;
  days_to_earnings : option Z;
  options : option OptionsSnapshot;
  news : list NewsItem;
  ai_sentiment : Sentiment;
  discovery : option string;
  score : option Q;
  reasons : option (list Reason);
  trade_idea : option TradeIdea
}.

(** The configuration dict; a missing key is [None] and each reader
    supplies its own default, as [config.get(key, default)] does. *)
Record Config : Type := mkConfig {
  max_stock_price : option Q;
  max_option_premium : option Q;
  min_score : option Q;
  use_ai_sentiment : option bool;
  ai_top_n : option Z;
  force_ai_all : option bool
}.

Definition get {A} (field : option A) (default : A) : A :=
  match field with
  | Some v => v
  | None => default
  end.

(** ** Scorer ([score_opportunity], lines 892-970) *)

(** The running pair [(score, reasons)]; [add] is [score += points]
    followed by [reasons.append(reason)]. *)
Definition tally : Type := (Q * list Reason)%type.

Definition add (st : tally) (points : Q) (reason : Reason) : tally :=
  (fst st + points, snd st ++ [reason]).

(** [ai_sent.get('summary', 'Strong signal')[:30]]: subscripting [None]
    raises. *)
Definition summary_text (s : Sentiment) : result string :=
  match s_summary s with
  | SummaryMissing => OK (str_prefix 30 "Strong signal")
  | SummaryNull => Raise TypeError
  | SummaryText t => OK (str_prefix 30 t)
  end.

(** The six rule blocks of the function body, in source order; each maps
    the running pair to the next one. *)

(* Earnings catalyst *)
Definition earnings_catalyst (data : Data) (st : tally) : tally :=
  match days_to_earnings data with
  | Some d =>
      if ((1 <=? d) && (d <=? 3))%Z then add st 3 (EarningsImminent d)
      else if ((4 <=? d) && (d <=? 7))%Z then add st 2 (EarningsThisWeek d)
      else if (d =? 0)%Z then add st 1 EarningsToday
      else st
  | None => st
  end.

(* Volume surge *)
Definition volume_surge (data : Data) (st : tally) : tally :=
  let vs := vol_surge data in
  if Qgeb vs 2 then add st 2 (VolumeReason vs)
  else if Qgeb vs 1.5 then add st 1 (VolumeReason vs)
  else st.

(* Momentum *)
Definition momentum_rule (data : Data) (st : tally) : tally :=
  let momentum := momentum_5d data in
  if Qgeb (Qabs momentum) 10 then
    add st 2 (if Qgtb momentum 0 then RocketMove (Qabs momentum)
              else DownMove (Qabs momentum))
  else if Qgeb (Qabs momentum) 5 then
    add st 1 (if Qgtb momentum 0 then UpMove (Qabs momentum)
              else DownMove (Qabs momentum))
  else st.

(* RSI extremes: [if rsi:] is false for None and for 0.0 *)
Definition rsi_extremes (data : Data) (st : tally) : tally :=
  if truthy_num (rsi data) then
    let r := get (rsi data) 0 in
    if Qgeb r 70 then add st 1 (Overbought r)
    else if Qle_bool r 30 then add st 1.5 (Oversold r)
    else st
  else st.

(* Options IV, and the bonus for affordable options *)
Definition options_iv (data : Data) (st : tally) : tally :=
  match options data with
  | Some o =>
      let iv := iv_avg o in
      let st :=
        if Qgeb iv 80 then add st 1 (HighIV iv)
        else if Qle_bool iv 30 && Qgtb iv 0 then add st 1.5 (LowIV iv)
        else st in
      match call_suggestion o, put_suggestion o with
      | None, None => st
      | _, _ => add st 0.5 AffordableOptions
      end
  | None => st
  end.

(* AI Sentiment *)
Definition ai_sentiment_rule (data : Data) (st : tally) : result tally :=
  let ai_sent := ai_sentiment data in
  let ai_score := s_score ai_sent in
  if Qgeb (Qabs ai_score) 3 then
    text <- summary_text ai_sent ;;
    OK (add st 1.5 (AIStrong (Qgtb ai_score 0) text))
  else if Qgeb (Qabs ai_score) 2 then
    OK (add st 1 (AISentimentReason (Qgtb ai_score 0)))
  else OK st.

Definition score_opportunity (data : Data) (config : Config)
  : result (Q * list Reason) :=
  let st : tally := (0, []) in
  let st := earnings_catalyst data st in
  let st := volume_surge data st in
  let st := momentum_rule data st in
  let st := rsi_extremes data st in
  let st := options_iv data st in
  ai_sentiment_rule data st.

(** ** Entry and exit levels ([calculate_entry_exit], lines 717-760) *)

Definition calculate_entry_exit (data : Data) (opts : option OptionsSnapshot)
  : result EntryExit :=
  let price := price data in
  (* data.get("rsi", 50): the key is present, so a null RSI stays None *)
  let rsi := rsi data in
  let expected_move :=
    match opts with
    | Some o => expected_move_pct o
    | None => 5
    end in
  (* Determine direction *)
  let direction :=
    match trade_idea data with
    | Some idea => ti_direction idea
    | None => CALL
    end in
  levels <-
    match direction with
    | CALL =>
        above <- gt_nullable rsi 50 ;;
        let entry_pct := if above : bool then - 1.5 else - 0.5 in
        let exit_pct := expected_move * 0.7 in
        let stop_pct := - expected_move * 0.5 in
        OK (round (price * (1 + entry_pct / 100)) 2,
            round (price * (1 + exit_pct / 100)) 2,
            round (price * (1 + stop_pct / 100)) 2)
    | PUT =>
        below <- lt_nullable rsi 50 ;;
        let entry_pct := if below : bool then 1.5 else 0.5 in
        let exit_pct := - expected_move * 0.7 in
        let stop_pct := expected_move * 0.5 in
        OK (round (price * (1 + entry_pct / 100)) 2,
            round (price * (1 + exit_pct / 100)) 2,
            round (price * (1 + stop_pct / 100)) 2)
    | STRADDLE =>
        OK (price,
            round (price * (1 + expected_move / 100)) 2,
            round (price * (1 - expected_move / 200)) 2)
    end ;;
  let '(entry_price, target_price, stop_price) := levels in
  OK {| ee_direction := direction;
        stock_entry := entry_price;
        stock_target := target_price;
        stock_stop := stop_price;
        option_entry := "At or below suggested premium";
        option_target := "50-100% gain on premium";
        option_stop := "50% loss on premium" |}.

(** ** Trade-idea generator ([generate_trade_idea], lines 973-1027) *)

(** The two counters [(bullish_signals, bearish_signals)]. *)
Definition votes : Type := (nat * nat)%type.

Definition vote_bullish (v : votes) : votes := (S (fst v), snd v).
Definition vote_bearish (v : votes) : votes := (fst v, S (snd v)).

Definition count_votes (data : Data) : votes :=
  let momentum := momentum_5d data in
  let rsi := rsi data in
  let ai_score := s_score (ai_sentiment data) in
  let v : votes := (0%nat, 0%nat) in
  let v :=
    if Qgtb momentum 3 then vote_bullish v
    else if Qltb momentum (- 3) then vote_bearish v
    else v in
  let v :=
    match trend data with
    | bullish => vote_bullish v
    | bearish => vote_bearish v
    | neutral => v
    end in
  let v :=
    if Qgtb ai_score 0 then vote_bullish v
    else if Qltb ai_score 0 then vote_bearish v
    else v in
  let v :=
    if truthy_num rsi && Qltb (get rsi 0) 35 then vote_bullish v
    else if truthy_num rsi && Qgtb (get rsi 0) 65 then vote_bearish v
    else v in
  v.

Definition direction_of_votes (v : votes) : Direction * Trend :=
  let '(bullish_signals, bearish_signals) := v in
  if (bearish_signals <? bullish_signals)%nat then (CALL, bullish)
  else if (bullish_signals <? bearish_signals)%nat then (PUT, bearish)
  else (STRADDLE, neutral).

Definition nonempty (s : string) : bool :=
  match s with
  | EmptyString => false
  | String _ _ => true
  end.

Definition generate_trade_idea (data : Data) (score : Q)
    (reasons : list Reason) : result TradeIdea :=
  (* Determine direction *)
  let '(direction, bias) := direction_of_votes (count_votes data) in
  (* Expiration suggestion *)
  let opts := options data in
  let expiry :=
    match days_to_earnings data with
    | Some d =>
        if (truthy_int (Some d) && (1 <=? d) && (d <=? 7))%Z
        then Some (ThroughEarnings (earnings_date data))
        else None
    | None => None
    end in
  let expiry :=
    match expiry with
    | Some e => e
    | None =>
        match opts with
        | Some o =>
            if nonempty (expiration o)
            then OptionsExpiry (expiration o) (dte o)
            else OneToTwoWeeks
        | None => OneToTwoWeeks
        end
    end in
  (* Get entry/exit *)
  entry_exit <- calculate_entry_exit data opts ;;
  OK {| ti_direction := direction;
        ti_bias := bias;
        ti_expiry := expiry;
        ti_reasons := reasons;
        ti_entry_exit := entry_exit;
        ti_suggested_option :=
          match opts with
          | Some o =>
              match direction with
              | CALL => call_suggestion o
              | _ => put_suggestion o
              end
          | None => None
          end |}.

(** ** Signal extractor *)

(** *** RSI ([calculate_rsi], lines 877-889) *)

(** [prices.diff()] without its leading NaN. *)
Fixpoint diff (prices : list Q) : list Q :=
  match prices with
  | a :: (b :: _) as rest => (b - a) :: diff rest
  | _ => []
  end.

(** The leading NaN of [delta] fails both [delta > 0] and [delta < 0] and is
    replaced by [0]; with [period + 1] prices or more it lies outside the
    last window, so the last rolling mean is the mean of the last [period]
    differences. *)
Definition calculate_rsi (prices : list Q) (period : nat) : option Q :=
  if (List.length prices <? period + 1)%nat then None
  else
    let delta := diff prices in
    let gain := mean (tail period (map (fun d => if Qgtb d 0 then d else 0) delta)) in
    let loss := mean (tail period (map (fun d => - (if Qltb d 0 then d else 0)) delta)) in
    (* rs = gain / loss; rsi = 100 - (100 / (1 + rs)) *)
    if Qeq_bool loss 0 then
      if Qeq_bool gain 0 then None   (* 0/0 is NaN: [pd.isna] *)
      else Some 100                  (* rs is +inf *)
    else Some (100 - 100 / (1 + gain / loss)).

(** *** The provider's objects *)

(** One row of [stock.history]. *)
Record Bar : Type := mkBar {
  Close : Q;
  High : Q;
  Low : Q;
  Volume : Q
}.

(** One row of a calls or puts table; a NaN volume or open interest is
    [None]. *)
Record OptionRow : Type := mkRow {
  strike : Q;
  lastPrice : Q;
  impliedVolatility : Q;
  row_volume : option Q;
  openInterest : option Q
}.

Record Chain : Type := mkChain {
  calls : list OptionRow;
  puts : list OptionRow
}.

(** What [yf.Ticker(ticker)] answers during one run.  [calendar_earnings]
    is the outcome of the best-effort lookup of lines 807-824: the pair
    [(earnings_date, days_to_earnings)], each [None] when the lookup fails
    before setting it.  [stock_news] lists the title, publisher and link
    extracted from each item of [stock.news]. *)
Record Stock : Type := mkStock {
  history : result (list Bar);
  calendar_earnings : option string * option Z;
  option_dates : result (list string);
  option_chain : string -> result Chain;
  stock_news : list NewsItem
}.

(** *** Options snapshot ([get_options_data], lines 611-714) *)

(** Stable insertion sort of rows by strike, for [sort_values('strike')]. *)
Fixpoint insert_by_strike (ascending : bool) (r : OptionRow)
    (rows : list OptionRow) : list OptionRow :=
  match rows with
  | [] => [r]
  | x :: rest =>
      if (if ascending then Qltb (strike r) (strike x)
          else Qltb (strike x) (strike r))
      then r :: x :: rest
      else x :: insert_by_strike ascending r rest
  end.

Definition sort_by_strike (ascending : bool) (rows : list OptionRow)
  : list OptionRow :=
  fold_left (fun sorted r => insert_by_strike ascending r sorted) rows [].

(** [rows.iloc[(rows['strike'] - atm).abs().argsort()[:1]]]: a row whose
    strike is nearest to [atm].  [argsort] sorts with numpy's default kind,
    which is not stable: of several rows equally near, the one it puts first
    is numpy's choice.  [nearest_rows] lists the rows at the smallest
    distance, in table order; [tie], applied to the distances, tells which
    of them comes first (the first listed when [tie] is out of range). *)
Definition distances (atm : Q) (rows : list OptionRow) : list Q :=
  map (fun r => Qabs (strike r - atm)) rows.

Definition nearest_rows (atm : Q) (rows : list OptionRow) : list OptionRow :=
  filter
    (fun r => Qle_bool (Qabs (strike r - atm)) (minimum (distances atm rows)))
    rows.

Definition nearest_strike (tie : list Q -> nat) (atm : Q)
    (rows : list OptionRow) : option OptionRow :=
  let nearest := nearest_rows atm rows in
  match nth_error nearest (tie (distances atm rows)) with
  | Some r => Some r
  | None => hd_error nearest
  end.

Definition int_or_zero (x : option Q) : Z :=
  match x with
  | Some v => int v
  | None => 0%Z
  end.

Definition truthy_str (s : option string) : bool :=
  match s with
  | Some t => nonempty t
  | None => false
  end.

Section Pipeline.

(** [datetime.date.today()] as a day number, and
    [datetime.strptime(s, "%Y-%m-%d").date()] as the day number of a
    well-formed date ([None] where it raises [ValueError]). *)
Variable today : Z.
Variable strptime : string -> option Z.

(** [numpy.sqrt]. *)
Variable np_sqrt : Q -> Q.

(** The choice [numpy.argsort] makes among equal keys: the rank, among the
    positions of the smallest keys, of the one it puts first. *)
Variable argsort_tie : list Q -> nat.

(** The market-data provider. *)
Variable yf_Ticker : string -> Stock.

Definition parse_date (s : string) : result Z :=
  match strptime s with
  | Some d => OK d
  | None => Raise ValueError
  end.

(** The loop of lines 623-631 over [options_dates[:5]], on the pair
    [(nearest_exp, weekly_exp)]. *)
Fixpoint scan_expirations (dates : list string)
    (found : option string * option string)
  : result (option string * option string) :=
  match dates with
  | [] => OK found
  | exp_str :: rest =>
      exp_date <- parse_date exp_str ;;
      let days_out := (exp_date - today)%Z in
      let '(nearest_exp, weekly_exp) := found in
      let found :=
        if (1 <=? days_out)%Z then
          let nearest_exp :=
            match nearest_exp with
            | None => Some exp_str
            | Some _ => nearest_exp
            end in
          let weekly_exp :=
            match weekly_exp with
            | None =>
                if ((5 <=? days_out) && (days_out <=? 10))%Z
                then Some exp_str else None
            | Some _ => weekly_exp
            end in
          (nearest_exp, weekly_exp)
        else (nearest_exp, weekly_exp) in
      scan_expirations rest found
  end.

Definition make_suggestion (is_call : bool) (best : OptionRow) : Suggestion :=
  {| sg_strike := strike best;
     sg_premium := round (lastPrice best) 2;
     sg_iv := round (impliedVolatility best * 100) 1;
     sg_volume := int_or_zero (row_volume best);
     sg_oi := int_or_zero (openInterest best);
     sg_break_even :=
       if is_call then round (strike best + lastPrice best) 2
       else round (strike best - lastPrice best) 2 |}.

(** The body of the [try] block. *)
Definition options_data_body (stock : Stock) (price : Q) (config : Config)
  : result (option OptionsSnapshot) :=
  options_dates <- option_dates stock ;;
  match options_dates with
  | [] => OK None
  | _ =>
      (* Find nearest expiration (weekly or next) *)
      found <- scan_expirations (firstn 5 options_dates) (None, None) ;;
      let '(nearest_exp, weekly_exp) := found in
      let target := if truthy_str weekly_exp then weekly_exp else nearest_exp in
      match target with
      | None => OK None
      | Some target_exp =>
          if negb (nonempty target_exp) then OK None
          else
            chain <- option_chain stock target_exp ;;
            let calls := calls chain in
            let puts := puts chain in
            match calls, puts with
            | [], _ | _, [] => OK None
            | _, _ =>
                (* Find ATM options *)
                let atm_strike := inject_Z (round_half_even price) in
                let call_atm := nearest_strike argsort_tie atm_strike calls in
                let put_atm := nearest_strike argsort_tie atm_strike puts in
                (* Calculate IV and expected move *)
                let call_iv :=
                  match call_atm with
                  | Some r => impliedVolatility r
                  | None => 0
                  end in
                let put_iv :=
                  match put_atm with
                  | Some r => impliedVolatility r
                  | None => 0
                  end in
                let avg_iv := (call_iv + put_iv) / 2 in
                exp_date <- parse_date target_exp ;;
                let dte := (exp_date - today)%Z in
                let expected_move_pct :=
                  avg_iv * np_sqrt (inject_Z dte / 365) * 100 in
                let expected_move_dollars :=
                  price * (expected_move_pct / 100) in
                (* Find affordable options under max premium *)
                let max_premium := get (max_option_premium config) 2 in
                let affordable_calls :=
                  sort_by_strike true
                    (filter (fun r => Qle_bool (lastPrice r) max_premium) calls) in
                let affordable_puts :=
                  sort_by_strike false
                    (filter (fun r => Qle_bool (lastPrice r) max_premium) puts) in
                (* Suggest best entries *)
                let call_suggestion :=
                  match filter (fun r => Qgeb (strike r) price) affordable_calls with
                  | best_call :: _ => Some (make_suggestion true best_call)
                  | [] => None
                  end in
                let put_suggestion :=
                  match filter (fun r => Qle_bool (strike r) price) affordable_puts with
                  | best_put :: _ => Some (make_suggestion false best_put)
                  | [] => None
                  end in
                OK (Some
                  {| expiration := target_exp;
                     dte := dte;
                     iv_avg := round (avg_iv * 100) 1;
                     expected_move_pct := round expected_move_pct 1;
                     expected_move_dollars := round expected_move_dollars 2;
                     call_suggestion := call_suggestion;
                     put_suggestion := put_suggestion;
                     atm_call_price :=
                       option_map (fun r => round (lastPrice r) 2) call_atm;
                     atm_put_price :=
                       option_map (fun r => round (lastPrice r) 2) put_atm |})
            end
      end
  end.

(** [except Exception: return None]. *)
Definition get_options_data (stock : Stock) (price : Q) (config : Config)
  : option OptionsSnapshot :=
  match options_data_body stock price config with
  | OK snapshot => snapshot
  | Raise _ => None
  end.

(** *** Per-ticker fetch ([get_stock_data], lines 763-874) *)

Definition default_sentiment : Sentiment :=
  {| s_score := 0; s_summary := SummaryNull; s_confidence := "pending" |}.

(** The body of the [try] block. *)
Definition stock_data_body (ticker : string) (config : Config)
  : result (option Data) :=
  let stock := yf_Ticker ticker in
  (* Get price history *)
  hist <- history stock ;;
  if (List.length hist <? 5)%nat then OK None
  else
    current <- iloc_from_end hist 0 ;;
    prev <- (if (1 <? List.length hist)%nat then iloc_from_end hist 1
             else OK current) ;;
    let price := Close current in
    (* Apply price filter *)
    if Qgtb price (get (max_stock_price config) 50) then OK None
    else
      let change_pct := ((price - Close prev) / Close prev) * 100 in
      (* Volume analysis *)
      let avg_volume := mean (map Volume hist) in
      let vol_surge :=
        if Qgtb avg_volume 0 then Volume current / avg_volume else 1 in
      (* Momentum *)
      momentum_5d <-
        (if (5 <=? List.length hist)%nat then
           bar <- iloc_from_end hist 4 ;;
           let price_5d_ago := Close bar in
           OK (((price - price_5d_ago) / price_5d_ago) * 100)
         else OK 0) ;;
      (* RSI *)
      let rsi := calculate_rsi (map Close hist) 14 in
      (* Trend *)
      let sma_10 := mean (tail 10 (map Close hist)) in
      let sma_20 :=
        if (20 <=? List.length hist)%nat
        then mean (tail 20 (map Close hist)) else sma_10 in
      let trend :=
        if Qgtb price sma_10 && Qgtb sma_10 sma_20 then bullish
        else if Qltb price sma_10 && Qltb sma_10 sma_20 then bearish
        else neutral in
      (* Support/Resistance levels *)
      let recent_low := minimum (tail 10 (map Low hist)) in
      let recent_high := maximum (tail 10 (map High hist)) in
      (* Earnings date *)
      let '(earnings_date, days_to_earnings) := calendar_earnings stock in
      (* Get options data *)
      let options_data := get_options_data stock price config in
      (* Get news *)
      let news_items :=
        filter (fun n => nonempty (n_title n)) (firstn 5 (stock_news stock)) in
      OK (Some
        {| ticker := ticker;
           price := round price 2;
           change_pct := round change_pct 2;
           volume := int (Volume current);
           vol_surge := round vol_surge 2;
           momentum_5d := round momentum_5d 2;
           rsi := if truthy_num rsi then Some (round (get rsi 0) 1) else None;
           trend := trend;
           support := round recent_low 2;
           resistance := round recent_high 2;
           earnings_date := earnings_date;
           days_to_earnings := days_to_earnings;
           options := options_data;
           news := firstn 3 news_items;
           ai_sentiment := default_sentiment;
           discovery := None;
           score := None;
           reasons := None;
           trade_idea := None |}).

(** [except Exception: return None]. *)
Definition get_stock_data (ticker : string) (config : Config) : option Data :=
  match stock_data_body ticker config with
  | OK data => data
  | Raise _ => None
  end.

(** ** Concurrent scan orchestrator ([run_research], lines 1074-1109) *)

(** Assignments to keys of the dict [data]. *)
Definition set_discovery (data : Data) (info : string) : Data :=
  mkData (ticker data) (price data) (change_pct data) (volume data)
    (vol_surge data) (momentum_5d data) (rsi data) (trend data)
    (support data) (resistance data) (earnings_date data)
    (days_to_earnings data) (options data) (news data) (ai_sentiment data)
    (Some info) (score data) (reasons data) (trade_idea data).

Definition set_score (data : Data) (s : Q) (rs : list Reason) : Data :=
  mkData (ticker data) (price data) (change_pct data) (volume data)
    (vol_surge data) (momentum_5d data) (rsi data) (trend data)
    (support data) (resistance data) (earnings_date data)
    (days_to_earnings data) (options data) (news data) (ai_sentiment data)
    (discovery data) (Some s) (Some rs) (trade_idea data).

Definition set_trade_idea (data : Data) (idea : TradeIdea) : Data :=
  mkData (ticker data) (price data) (change_pct data) (volume data)
    (vol_surge data) (momentum_5d data) (rsi data) (trend data)
    (support data) (resistance data) (earnings_date data)
    (days_to_earnings data) (options data) (news data) (ai_sentiment data)
    (discovery data) (score data) (reasons data) (Some idea).

Definition set_ai_sentiment (data : Data) (ai : Sentiment) : Data :=
  mkData (ticker data) (price data) (change_pct data) (volume data)
    (vol_surge data) (momentum_5d data) (rsi data) (trend data)
    (support data) (resistance data) (earnings_date data)
    (days_to_earnings data) (options data) (news data) ai
    (discovery data) (score data) (reasons data) (trade_idea data).

(** [x['score']] and [x['reasons']] of an element of [results]; both keys
    are set before the element is appended (lines 1097-1100). *)
Definition score_of (x : Data) : Q := get (score x) 0.
Definition reasons_of (x : Data) : list Reason := get (reasons x) [].

(** [ticker_discovery.get_discovered_info], an optional module. *)
Variable get_discovered_info : string -> option string.

(** The order in which [as_completed] yields the futures of a batch: some
    permutation of the batch, chosen by the scheduler. *)
Variable completion : list string -> list string.

(** The body of the loop over completed futures, lines 1086-1102: the
    [try] block, whose exception leaves [results] as it was. *)
Definition process_future (config : Config) (results : list Data)
    (ticker : string) : list Data :=
  let attempt :=
    match get_stock_data ticker config with
    | Some data =>
        (* Add discovery info if available *)
        let data :=
          match get_discovered_info ticker with
          | Some info => if nonempty info then set_discovery data info else data
          | None => data
          end in
        scored <- score_opportunity data config ;;
        let '(score, reasons) := scored in
        if Qgeb score (get (min_score config) 0) then
          let data := set_score data score reasons in
          idea <- generate_trade_idea data score reasons ;;
          OK (results ++ [set_trade_idea data idea])
        else OK results
    | None => OK results
    end in
  match attempt with
  | OK results => results
  | Raise _ => results
  end.

(** [universe[i:i+batch_size]] for [i] in steps of [batch_size]. *)
Fixpoint batches (fuel : nat) (batch_size : nat) (universe : list string)
  : list (list string) :=
  match fuel, universe with
  | S fuel, _ :: _ =>
      firstn batch_size universe
      :: batches fuel batch_size (skipn batch_size universe)
  | _, _ => []
  end.

Definition scan (config : Config) (universe : list string) : list Data :=
  fold_left
    (fun results batch =>
       fold_left (process_future config) (completion batch) results)
    (batches (List.length universe) 5 universe) [].

(** [results.sort(key=lambda x: x['score'], reverse=True)]: a stable sort,
    highest score first. *)
Fixpoint insert_by_score (x : Data) (sorted : list Data) : list Data :=
  match sorted with
  | [] => [x]
  | y :: rest =>
      if Qltb (score_of y) (score_of x) then x :: y :: rest
      else y :: insert_by_score x rest
  end.

Definition sort_by_score (results : list Data) : list Data :=
  fold_left (fun sorted x => insert_by_score x sorted) results [].

(** ** Sentiment enrichment stage (lines 1111-1139) *)

(** Whether [OPENAI_KEY] is set, and the outcome of the provider call of
    [get_ai_sentiment] (lines 211-348): the JSON object answered, or
    [None] when every request style failed. *)
Variable openai_key : bool.
Variable ai_provider : string -> list string -> option Sentiment.

Definition get_ai_sentiment (ticker : string) (headlines : list string)
    (config : Config) (force : bool) : Sentiment :=
  match negb openai_key, headlines with
  | true, _ | _, [] =>
      {| s_score := 0; s_summary := SummaryNull; s_confidence := "low" |}
  | _, _ =>
      (* Skip AI unless forced (top picks only) *)
      if negb force && negb (get (force_ai_all config) false) then
        {| s_score := 0; s_summary := SummaryNull; s_confidence := "skipped" |}
      else
        match ai_provider ticker (firstn 5 headlines) with
        | Some obj => obj
        | None =>
            {| s_score := 0; s_summary := SummaryNull; s_confidence := "low" |}
        end
  end.

(** The body of the loop of lines 1115-1136 for one of the top results.
    Nothing catches an exception here: it ends the run. *)
Definition enrich (config : Config) (r : Data) : result Data :=
  let headlines :=
    map n_title (filter (fun n => nonempty (n_title n)) (news r)) in
  match headlines with
  | [] => OK r
  | _ =>
      let ai := get_ai_sentiment (ticker r) headlines config true in
      let r := set_ai_sentiment r ai in
      (* Adjust score based on AI sentiment *)
      let ai_score := s_score ai in
      r <- (if Qgeb (Qabs ai_score) 3 then
              text <- summary_text ai ;;
              OK (set_score r (score_of r + 1.5)
                    (reasons_of r ++ [AIStrong (Qgtb ai_score 0) text]))
            else if Qgeb (Qabs ai_score) 2 then
              OK (set_score r (score_of r + 1)
                    (reasons_of r ++ [AISentimentReason (Qgtb ai_score 0)]))
            else OK r) ;;
      (* Re-generate trade idea with AI info *)
      idea <- generate_trade_idea r (score_of r) (reasons_of r) ;;
      OK (set_trade_idea r idea)
  end.

Fixpoint map_result {A B} (f : A -> result B) (l : list A) : result (list B) :=
  match l with
  | [] => OK []
  | x :: rest =>
      y <- f x ;;
      ys <- map_result f rest ;;
      OK (y :: ys)
  end.

(** The dicts of [results[:top_n_for_ai]] are updated in place; the other
    elements of [results] are untouched. *)
Definition enrich_top (config : Config) (results : list Data)
  : result (list Data) :=
  let top := slice_to results (get (ai_top_n config) 5%Z) in
  enriched <- map_result (enrich config) top ;;
  OK (enriched ++ skipn (List.length top) results).

(** ** Report assembler (lines 1141-1191) *)

(** [==] on the values held by [data], field by field; floats compare by
    value.  Reason and expiry strings compare by format and arguments. *)
Definition option_eqb {A} (eqb : A -> A -> bool) (x y : option A) : bool :=
  match x, y with
  | Some a, Some b => eqb a b
  | None, None => true
  | _, _ => false
  end.

Fixpoint list_eqb {A} (eqb : A -> A -> bool) (l1 l2 : list A) : bool :=
  match l1, l2 with
  | [], [] => true
  | a :: r1, b :: r2 => eqb a b && list_eqb eqb r1 r2
  | _, _ => false
  end.

Definition trend_eqb (a b : Trend) : bool :=
  match a, b with
  | bullish, bullish | bearish, bearish | neutral, neutral => true
  | _, _ => false
  end.

Definition direction_eqb (a b : Direction) : bool :=
  match a, b with
  | CALL, CALL | PUT, PUT | STRADDLE, STRADDLE => true
  | _, _ => false
  end.

Definition suggestion_eqb (a b : Suggestion) : bool :=
  Qeq_bool (sg_strike a) (sg_strike b)
  && Qeq_bool (sg_premium a) (sg_premium b)
  && Qeq_bool (sg_iv a) (sg_iv b)
  && (sg_volume a =? sg_volume b)%Z
  && (sg_oi a =? sg_oi b)%Z
  && Qeq_bool (sg_break_even a) (sg_break_even b).

Definition options_eqb (a b : OptionsSnapshot) : bool :=
  (expiration a =? expiration b)%string
  && (dte a =? dte b)%Z
  && Qeq_bool (iv_avg a) (iv_avg b)
  && Qeq_bool (expected_move_pct a) (expected_move_pct b)
  && Qeq_bool (expected_move_dollars a) (expected_move_dollars b)
  && option_eqb suggestion_eqb (call_suggestion a) (call_suggestion b)
  && option_eqb suggestion_eqb (put_suggestion a) (put_suggestion b)
  && option_eqb Qeq_bool (atm_call_price a) (atm_call_price b)
  && option_eqb Qeq_bool (atm_put_price a) (atm_put_price b).

Definition summary_eqb (a b : SummaryField) : bool :=
  match a, b with
  | SummaryMissing, SummaryMissing => true
  | SummaryNull, SummaryNull => true
  | SummaryText s, SummaryText t => (s =? t)%string
  | _, _ => false
  end.

Definition sentiment_eqb (a b : Sentiment) : bool :=
  Qeq_bool (s_score a) (s_score b)
  && summary_eqb (s_summary a) (s_summary b)
  && (s_confidence a =? s_confidence b)%string.

Definition news_eqb (a b : NewsItem) : bool :=
  (n_title a =? n_title b)%string
  && (n_publisher a =? n_publisher b)%string
  && (n_link a =? n_link b)%string.

Definition reason_eqb (a b : Reason) : bool :=
  match a, b with
  | EarningsImminent d, EarningsImminent e => (d =? e)%Z
  | EarningsThisWeek d, EarningsThisWeek e => (d =? e)%Z
  | EarningsToday, EarningsToday => true
  | VolumeReason v, VolumeReason w => Qeq_bool v w
  | RocketMove v, RocketMove w => Qeq_bool v w
  | UpMove v, UpMove w => Qeq_bool v w
  | DownMove v, DownMove w => Qeq_bool v w
  | Overbought v, Overbought w => Qeq_bool v w
  | Oversold v, Oversold w => Qeq_bool v w
  | HighIV v, HighIV w => Qeq_bool v w
  | LowIV v, LowIV w => Qeq_bool v w
  | AffordableOptions, AffordableOptions => true
  | AIStrong p s, AIStrong q t => Bool.eqb p q && (s =? t)%string
  | AISentimentReason p, AISentimentReason q => Bool.eqb p q
  | _, _ => false
  end.

Definition entry_exit_eqb (a b : EntryExit) : bool :=
  direction_eqb (ee_direction a) (ee_direction b)
  && Qeq_bool (stock_entry a) (stock_entry b)
  && Qeq_bool (stock_target a) (stock_target b)
  && Qeq_bool (stock_stop a) (stock_stop b)
  && (option_entry a =? option_entry b)%string
  && (option_target a =? option_target b)%string
  && (option_stop a =? option_stop b)%string.

Definition expiry_eqb (a b : Expiry) : bool :=
  match a, b with
  | ThroughEarnings d, ThroughEarnings e => option_eqb String.eqb d e
  | OptionsExpiry s m, OptionsExpiry t n => (s =? t)%string && (m =? n)%Z
  | OneToTwoWeeks, OneToTwoWeeks => true
  | _, _ => false
  end.

Definition trade_idea_eqb (a b : TradeIdea) : bool :=
  direction_eqb (ti_direction a) (ti_direction b)
  && trend_eqb (ti_bias a) (ti_bias b)
  && expiry_eqb (ti_expiry a) (ti_expiry b)
  && list_eqb reason_eqb (ti_reasons a) (ti_reasons b)
  && entry_exit_eqb (ti_entry_exit a) (ti_entry_exit b)
  && option_eqb suggestion_eqb (ti_suggested_option a) (ti_suggested_option b).

Definition data_eqb (a b : Data) : bool :=
  (ticker a =? ticker b)%string
  && Qeq_bool (price a) (price b)
  && Qeq_bool (change_pct a) (change_pct b)
  && (volume a =? volume b)%Z
  && Qeq_bool (vol_surge a) (vol_surge b)
  && Qeq_bool (momentum_5d a) (momentum_5d b)
  && option_eqb Qeq_bool (rsi a) (rsi b)
  && trend_eqb (trend a) (trend b)
  && Qeq_bool (support a) (support b)
  && Qeq_bool (resistance a) (resistance b)
  && option_eqb String.eqb (earnings_date a) (earnings_date b)
  && option_eqb Z.eqb (days_to_earnings a) (days_to_earnings b)
  && option_eqb options_eqb (options a) (options b)
  && list_eqb news_eqb (news a) (news b)
  && sentiment_eqb (ai_sentiment a) (ai_sentiment b)
  && option_eqb String.eqb (discovery a) (discovery b)
  && option_eqb Qeq_bool (score a) (score b)
  && option_eqb (list_eqb reason_eqb) (reasons a) (reasons b)
  && option_eqb trade_idea_eqb (trade_idea a) (trade_idea b).

(** [r in l] on a list of dicts. *)
Definition py_in (r : Data) (l : list Data) : bool := existsb (data_eqb r) l.

(** The three comprehensions of lines 1142-1144. *)
Definition earnings_plays (results : list Data) : list Data :=
  filter
    (fun r =>
       truthy_int (days_to_earnings r)
       && (0 <=? get (days_to_earnings r) 0)%Z
       && (get (days_to_earnings r) 0 <=? 7)%Z)
    results.

Definition momentum_plays (results : list Data) : list Data :=
  filter
    (fun r =>
       Qgeb (Qabs (momentum_5d r)) 5 && negb (py_in r (earnings_plays results)))
    results.

Definition oversold_plays (results : list Data) : list Data :=
  filter
    (fun r =>
       truthy_num (rsi r)
       && Qle_bool (get (rsi r) 0) 35
       && negb (py_in r (earnings_plays results)))
    results.

(** [day.strftime("%Y-%m-%d")] of a day number, and
    [datetime.datetime.now().isoformat()]. *)
Variable strftime : Z -> string.
Variable now : string.

(** A row handed to [build_earnings_calendar]: a result, or the
    placeholder [{"ticker": t, "earnings_date": None}] of a ticker without
    one. *)
Record CalendarInput : Type := mkCalendarInput {
  ci_ticker : string;
  ci_price : option Q;
  ci_score : option Q;
  ci_earnings_date : option string
}.

Record CalendarEarning : Type := mkCalendarEarning {
  ce_ticker : string;
  ce_price : option Q;
  ce_score : Q
}.

Record CalendarDay : Type := mkCalendarDay {
  cd_date : string;
  cd_is_today : bool;
  cd_earnings : list CalendarEarning
}.

Definition build_earnings_calendar (results : list CalendarInput)
  : list CalendarDay :=
  map
    (fun i =>
       let day_str := strftime (today + Z.of_nat i) in
       {| cd_date := day_str;
          cd_is_today := (i =? 0)%nat;
          cd_earnings :=
            map
              (fun r =>
                 {| ce_ticker := ci_ticker r;
                    ce_price := ci_price r;
                    ce_score := get (ci_score r) 0 |})
              (filter
                 (fun r => option_eqb String.eqb (ci_earnings_date r) (Some day_str))
                 results) |})
    (seq 0 7).

Record Summary : Type := mkSummary {
  total_scanned : nat;
  passed_filters : nat;
  opportunities_found : nat;
  earnings_upcoming : nat;
  oversold_count : nat
}.

Record Categories : Type := mkCategories {
  cat_earnings_plays : list Data;
  cat_momentum_plays : list Data;
  cat_oversold_plays : list Data
}.

(** The report document [output]. *)
Record Output : Type := mkOutput {
  generated_at : string;
  summary : Summary;
  top_picks : list Data;
  categories : Categories;
  earnings_calendar : list CalendarDay;
  all_results : list Data
}.

Definition calendar_inputs (universe : list string) (results : list Data)
  : list CalendarInput :=
  map
    (fun r =>
       {| ci_ticker := ticker r;
          ci_price := Some (price r);
          ci_score := score r;
          ci_earnings_date := earnings_date r |})
    (filter
       (fun r => match days_to_earnings r with Some _ => true | None => false end)
       results)
  ++ map
       (fun t =>
          {| ci_ticker := t;
             ci_price := None;
             ci_score := None;
             ci_earnings_date := None |})
       (filter
          (fun t => negb (existsb (String.eqb t) (map ticker results)))
          universe).

(** [run_research] from the loaded configuration and universe to the
    report document; an exception of the enrichment stage ends the run. *)
Definition run_research (config : Config) (universe : list string)
  : result Output :=
  let results := scan config universe in
  (* Sort by score *)
  let results := sort_by_score results in
  (* AI sentiment for the top picks only *)
  results <-
    (if openai_key && get (use_ai_sentiment config) true then
       enriched <- enrich_top config results ;;
       (* Re-sort after AI adjustments *)
       OK (sort_by_score enriched)
     else OK results) ;;
  (* Categorize *)
  let earnings := earnings_plays results in
  let momentum := momentum_plays results in
  let oversold := oversold_plays results in
  OK {| generated_at := now;
        summary :=
          {| total_scanned := List.length universe;
             passed_filters := List.length results;
             opportunities_found :=
               List.length (filter (fun r => Qgeb (score_of r) 4) results);
             earnings_upcoming := List.length earnings;
             oversold_count := List.length oversold |};
        top_picks := firstn 10 results;
        categories :=
          {| cat_earnings_plays := firstn 5 earnings;
             cat_momentum_plays := firstn 5 momentum;
             cat_oversold_plays := firstn 5 oversold |};
        earnings_calendar :=
          build_earnings_calendar (calendar_inputs universe results);
        all_results := results |}.

(** ** Journal persister ([append_research_journal], lines 535-608) *)

(** A condensed pick of a journal entry. *)
Record Pick : Type := mkPick {
  pk_ticker : string;
  pk_score : option Q;
  pk_direction : option Direction;
  pk_ai_summary : SummaryField
}.

(** An element of the journal document.  [je_created_at] is what
    [.get("created_at")] answers: [None] for an entry without the key.
    The title and the summary are kept as the numbers they are formatted
    from. *)
Record JournalEntry : Type := mkJournalEntry {
  je_created_at : option string;
  je_title : nat * nat * nat;
  je_summary : nat * nat;
  je_top_picks : list Pick;
  je_ai_journal : option string;
  je_model : option string
}.

Definition _build_basic_research_journal_entry (output : Output)
  : JournalEntry :=
  let created_at :=
    if nonempty (generated_at output) then generated_at output else now in
  let summary := summary output in
  let picks :=
    map
      (fun p =>
         {| pk_ticker := ticker p;
            pk_score := option_map (fun s => round s 1) (score p);
            pk_direction := option_map ti_direction (trade_idea p);
            pk_ai_summary := s_summary (ai_sentiment p) |})
      (firstn 5 (top_picks output)) in
  {| je_created_at := Some created_at;
     je_title :=
       (opportunities_found summary, earnings_upcoming summary,
        oversold_count summary);
     je_summary := (total_scanned summary, passed_filters summary);
     je_top_picks := picks;
     je_ai_journal := None;
     je_model := None |}.

(** The outcome of [_openai_generate_json] on the prompt built from the
    report: the narrative object, [None], or an exception.  [OPENAI_MODEL]
    and the integer held by [RESEARCH_JOURNAL_MAX_ENTRIES] ([None] when
    unset, empty or not an integer) come from the environment. *)
Variable journal_provider : Output -> result (option string).
Variable OPENAI_MODEL : string.
Variable RESEARCH_JOURNAL_MAX_ENTRIES : option Z.

(** Lines 539-594: the optional AI-authored note; it fails open. *)
Definition add_ai_journal (output : Output) (config : Config)
    (entry : JournalEntry) : JournalEntry :=
  if openai_key && get (use_ai_sentiment config) true then
    match journal_provider output with
    | OK (Some ai_journal) =>
        {| je_created_at := je_created_at entry;
           je_title := je_title entry;
           je_summary := je_summary entry;
           je_top_picks := je_top_picks entry;
           je_ai_journal := Some ai_journal;
           je_model := Some OPENAI_MODEL |}
    | OK None => entry
    | Raise _ => entry
    end
  else entry.

(** Lines 596-600: de-dupe on timestamp if re-run. *)
Definition dedupe (entries : list JournalEntry) (entry : JournalEntry)
  : list JournalEntry :=
  match entries with
  | first :: rest =>
      if option_eqb String.eqb (je_created_at first) (je_created_at entry)
      then entry :: rest
      else entry :: entries
  | [] => entry :: entries
  end.

Definition max_entries : Z := get RESEARCH_JOURNAL_MAX_ENTRIES 30%Z.

(** From the journal document read by [_load_json_list] to the one
    written by [_atomic_write_json]. *)
Definition append_research_journal (entries : list JournalEntry)
    (output : Output) (config : Config) : list JournalEntry :=
  let entry := _build_basic_research_journal_entry output in
  let entry := add_ai_journal output config entry in
  let entries := dedupe entries entry in
  slice_to entries max_entries.

End Pipeline.

(** * The rules as the specification words them *)

(** The seven contributions of section 4.2, in evaluation order. *)
Inductive RuleId : Type :=
| EarningsProximity
| VolumeSurge
| Momentum
| RsiExtreme
| ImpliedVolatility
| AffordableSuggestion
| SentimentRule.

(** The rule a reason string belongs to. *)
Definition rule_of_reason (r : Reason) : RuleId :=
  match r with
  | EarningsImminent _ | EarningsThisWeek _ | EarningsToday => EarningsProximity
  | VolumeReason _ => VolumeSurge
  | RocketMove _ | UpMove _ | DownMove _ => Momentum
  | Overbought _ | Oversold _ => RsiExtreme
  | HighIV _ | LowIV _ => ImpliedVolatility
  | AffordableOptions => AffordableSuggestion
  | AIStrong _ _ | AISentimentReason _ => SentimentRule
  end.

(** The triggered rules among [rules], each with its points. *)
Fixpoint triggered (rules : list (RuleId * option Q)) : list (RuleId * Q) :=
  match rules with
  | [] => []
  | (id, Some points) :: rest => (id, points) :: triggered rest
  | (_, None) :: rest => triggered rest
  end.

Definition total (contributions : list (RuleId * Q)) : Q :=
  Py.sum (map snd contributions).

Inductive Vote : Type := Bullish | Bearish | NoVote.

Definition count_bullish (vs : list Vote) : nat :=
  List.length (filter (fun v => match v with Bullish => true | _ => false end) vs).

Definition count_bearish (vs : list Vote) : nat :=
  List.length (filter (fun v => match v with Bearish => true | _ => false end) vs).

Definition direction_of (vs : list Vote) : Direction :=
  if (count_bearish vs <? count_bullish vs)%nat then CALL
  else if (count_bullish vs <? count_bearish vs)%nat then PUT
  else STRADDLE.

Module Spec.

(** Earnings proximity: +3 if 1-3 days out, +2 if 4-7 days out, +1 if
    exactly 0 days out, else +0. *)
Definition earnings_proximity (data : Data) : option Q :=
  match days_to_earnings data with
  | Some d =>
      if ((1 <=? d) && (d <=? 3))%Z then Some 3
      else if ((4 <=? d) && (d <=? 7))%Z then Some 2
      else if (d =? 0)%Z then Some 1
      else None
  | None => None
  end.

(** Volume surge: +2 if >= 2.0x, +1 if >= 1.5x. *)
Definition volume_surge (data : Data) : option Q :=
  if Qgeb (vol_surge data) 2 then Some 2
  else if Qgeb (vol_surge data) 1.5 then Some 1
  else None.

(** Momentum: +2 if |momentum_5d| >= 10%, +1 if >= 5%. *)
Definition momentum (data : Data) : option Q :=
  if Qgeb (Qabs (momentum_5d data)) 10 then Some 2
  else if Qgeb (Qabs (momentum_5d data)) 5 then Some 1
  else None.

(** RSI: +1 if >= 70, +1.5 if <= 30. *)
Definition rsi_extreme (data : Data) : option Q :=
  match rsi data with
  | Some r =>
      if Qgeb r 70 then Some 1
      else if Qle_bool r 30 then Some 1.5
      else None
  | None => None
  end.

(** Implied volatility: +1 if avg IV >= 80%, +1.5 if 0 < IV <= 30%. *)
Definition implied_volatility (data : Data) : option Q :=
  match options data with
  | Some o =>
      if Qgeb (iv_avg o) 80 then Some 1
      else if Qgtb (iv_avg o) 0 && Qle_bool (iv_avg o) 30 then Some 1.5
      else None
  | None => None
  end.

(** +0.5 if at least one affordable call or put suggestion exists. *)
Definition affordable_suggestion (data : Data) : option Q :=
  match options data with
  | Some o =>
      match call_suggestion o, put_suggestion o with
      | None, None => None
      | _, _ => Some 0.5
      end
  | None => None
  end.

(** Sentiment: +1.5 if |score| >= 3, +1 if >= 2. *)
Definition sentiment (data : Data) : option Q :=
  if Qgeb (Qabs (s_score (ai_sentiment data))) 3 then Some 1.5
  else if Qgeb (Qabs (s_score (ai_sentiment data))) 2 then Some 1
  else None.

Definition rules (data : Data) : list (RuleId * option Q) :=
  [ (EarningsProximity, earnings_proximity data);
    (VolumeSurge, volume_surge data);
    (Momentum, momentum data);
    (RsiExtreme, rsi_extreme data);
    (ImpliedVolatility, implied_volatility data);
    (AffordableSuggestion, affordable_suggestion data);
    (SentimentRule, sentiment data) ].

(** Section 4.6: earnings_plays (days_to_earnings in [0,7]),
    momentum_plays (|momentum| >= 5%, excluding earnings_plays),
    oversold_plays (RSI <= 35, excluding earnings_plays). *)
Definition in_earnings_plays (r : Data) : bool :=
  match days_to_earnings r with
  | Some d => ((0 <=? d) && (d <=? 7))%Z
  | None => false
  end.

Definition in_momentum_plays (r : Data) : bool :=
  Qgeb (Qabs (momentum_5d r)) 5 && negb (in_earnings_plays r).

Definition in_oversold_plays (r : Data) : bool :=
  match rsi r with
  | Some v => Qle_bool v 35 && negb (in_earnings_plays r)
  | None => false
  end.

(** Section 4.3: one vote each from momentum (> +3% / < -3%), trend
    classification, sentiment sign, and RSI extremes (RSI < 35 bullish,
    RSI > 65 bearish). *)
Definition momentum_vote (data : Data) : Vote :=
  if Qgtb (momentum_5d data) 3 then Bullish
  else if Qltb (momentum_5d data) (- 3) then Bearish
  else NoVote.

Definition trend_vote (data : Data) : Vote :=
  match trend data with
  | bullish => Bullish
  | bearish => Bearish
  | neutral => NoVote
  end.

Definition sentiment_vote (data : Data) : Vote :=
  if Qgtb (s_score (ai_sentiment data)) 0 then Bullish
  else if Qltb (s_score (ai_sentiment data)) 0 then Bearish
  else NoVote.

Definition rsi_vote (data : Data) : Vote :=
  match rsi data with
  | Some r =>
      if Qltb r 35 then Bullish
      else if Qgtb r 65 then Bearish
      else NoVote
  | None => NoVote
  end.

Definition votes (data : Data) : list Vote :=
  [momentum_vote data; trend_vote data; sentiment_vote data; rsi_vote data].

(** Section 4.3: for CALL, target = +70% of expected move, stop = -50% of
    expected move, entry = -1.5% (if RSI > 50) or -0.5% (else); PUT
    mirrors with sign flipped and bounce-buy entry; STRADDLE uses
    entry = price, target = +expected move, stop = -half expected move.
    The triple is (entry, target, stop). *)
Definition levels (direction : Direction) (price expected_move rsi : Q)
  : Q * Q * Q :=
  match direction with
  | CALL =>
      (price * (1 + (if Qgtb rsi 50 then - 1.5 else - 0.5) / 100),
       price * (1 + 0.7 * expected_move / 100),
       price * (1 - 0.5 * expected_move / 100))
  | PUT =>
      (price * (1 + (if Qltb rsi 50 then 1.5 else 0.5) / 100),
       price * (1 - 0.7 * expected_move / 100),
       price * (1 + 0.5 * expected_move / 100))
  | STRADDLE =>
      (price,
       price * (1 + expected_move / 100),
       price * (1 - (expected_move / 2) / 100))
  end.

End Spec.

(** What the source does where it departs from these words: [if rsi:] takes
    an RSI of exactly 0 for a missing one. *)
Definition rsi_extreme_nonzero (data : Data) : option Q :=
  if truthy_num (rsi data) then Spec.rsi_extreme data else None.

Definition rules_nonzero_rsi (data : Data) : list (RuleId * option Q) :=
  [ (EarningsProximity, Spec.earnings_proximity data);
    (VolumeSurge, Spec.volume_surge data);
    (Momentum, Spec.momentum data);
    (RsiExtreme, rsi_extreme_nonzero data);
    (ImpliedVolatility, Spec.implied_volatility data);
    (AffordableSuggestion, Spec.affordable_suggestion data);
    (SentimentRule, Spec.sentiment data) ].

Definition rsi_vote_nonzero (data : Data) : Vote :=
  if truthy_num (rsi data) then Spec.rsi_vote data else NoVote.

Definition votes_nonzero_rsi (data : Data) : list Vote :=
  [Spec.momentum_vote data; Spec.trend_vote data; Spec.sentiment_vote data;
   rsi_vote_nonzero data].

(** ** The chosen expiration and the rejection rule of section 4.1 *)

Section ChosenExpiration.

Variable today : Z.
Variable strptime : string -> option Z.

Definition days_out (exp_str : string) : option Z :=
  option_map (fun d => (d - today)%Z) (strptime exp_str).

Definition is_future (exp_str : string) : bool :=
  match days_out exp_str with
  | Some d => (1 <=? d)%Z
  | None => false
  end.

Definition is_weekly (exp_str : string) : bool :=
  match days_out exp_str with
  | Some d => ((1 <=? d) && (5 <=? d) && (d <=? 10))%Z
  | None => false
  end.

(** Target expiration = the 5-10-day-out date if present among the first
    5 listed expirations, else the nearest future expiration. *)
Definition chosen_expiration (dates : list string) : option string :=
  match find is_weekly (firstn 5 dates) with
  | Some weekly => Some weekly
  | None => find is_future (firstn 5 dates)
  end.

(** Reject if the chain is empty (no expirations, or no future expiration
    among the first 5) or the tables of the chosen expiration are
    [empty]. *)
Definition chain_rejected (empty : Chain -> Prop) (stock : Stock)
    (dates : list string) : Prop :=
  dates = []
  \/ chosen_expiration dates = None
  \/ exists target chain,
       chosen_expiration dates = Some target
       /\ option_chain stock target = OK chain
       /\ empty chain.

End ChosenExpiration.

(** Expected move in dollars = price x IV x sqrt(DTE / 365), and the same
    divided by the price, in percent. *)
Definition expected_move (sqrt : Q -> Q) (price avg_iv : Q) (days : Z) : Q :=
  price * avg_iv * sqrt (inject_Z days / 365).

Definition expected_move_percent (sqrt : Q -> Q) (avg_iv : Q) (days : Z) : Q :=
  avg_iv * sqrt (inject_Z days / 365) * 100.

(** [r] is a row of [rows] whose strike is nearest to [atm]: no row of
    [rows] has its strike nearer. *)
Definition nearest_to (atm : Q) (rows : list OptionRow) (r : OptionRow)
  : Prop :=
  In r rows
  /\ forall r', In r' rows -> Qabs (strike r - atm) <= Qabs (strike r' - atm).

(** [y] is [x] rounded to [ndigits] decimals, up or down: a whole number of
    units of the last decimal, less than one unit away from [x].  On a
    binary double the source's [round] may take either neighbour of a
    decimal tie. *)
Definition rounded_to (ndigits : nat) (x y : Q) : Prop :=
  (exists k : Z, y == inject_Z k / inject_Z (10 ^ Z.of_nat ndigits))
  /\ Qabs (y - x) < 1 / inject_Z (10 ^ Z.of_nat ndigits).

(** [x or y] on two nullable values, a non-null [x] being truthy. *)
Definition or_else {A} (x y : option A) : option A :=
  match x with
  | Some _ => x
  | None => y
  end.

(** The words of the specification: the call and put tables are both
    empty. *)
Definition both_empty (chain : Chain) : Prop :=
  calls chain = [] /\ puts chain = [].

(** The guard of the source, [calls.empty or puts.empty]. *)
Definition either_empty (chain : Chain) : Prop :=
  calls chain = [] \/ puts chain = [].

(** ** The journal as a log *)

(** [a] is at least as recent as [b]: ISO-8601 timestamps compare as
    strings; an entry without a timestamp counts as the oldest. *)
Definition newer_or_same (a b : JournalEntry) : Prop :=
  match je_created_at a, je_created_at b with
  | Some x, Some y => String.leb y x = true
  | _, None => True
  | None, Some _ => False
  end.

Definition newest_first (journal : list JournalEntry) : Prop :=
  Sorted newer_or_same journal.

(** The number of entries of the journal with the timestamp [t]. *)
Definition stamp_count (t : string) (journal : list JournalEntry) : nat :=
  List.length
    (filter (fun e => option_eqb String.eqb (je_created_at e) (Some t)) journal).

Definition head_stamp (journal : list JournalEntry) : option string :=
  match journal with
  | e :: _ => je_created_at e
  | [] => None
  end.

(** The entries kept behind a new entry stamped [t]. *)
Definition kept (entries : list JournalEntry) (t : string)
  : list JournalEntry :=
  match entries with
  | first :: rest =>
      if option_eqb String.eqb (je_created_at first) (Some t)
      then rest else entries
  | [] => []
  end.

Section Runs.

Variable openai_key : bool.
Variable now : string.
Variable journal_provider : Output -> result (option string).
Variable OPENAI_MODEL : string.
Variable RESEARCH_JOURNAL_MAX_ENTRIES : option Z.

(** The timestamp under which a report is journalled. *)
Definition stamp_of (output : Output) : string :=
  if nonempty (generated_at output) then generated_at output else now.

(** The entry a run offers to the journal. *)
Definition new_entry (output : Output) (config : Config) : JournalEntry :=
  add_ai_journal openai_key journal_provider OPENAI_MODEL output config
    (_build_basic_research_journal_entry now output).

(** The journal after a sequence of runs, oldest run first. *)
Definition persist_runs (journal : list JournalEntry)
    (runs : list (Output * Config)) : list JournalEntry :=
  fold_left
    (fun journal run =>
       append_research_journal openai_key now journal_provider OPENAI_MODEL
         RESEARCH_JOURNAL_MAX_ENTRIES journal (fst run) (snd run))
    runs journal.

(** No run is stamped earlier than the latest timestamp before it. *)
Fixpoint clock_monotone (latest : option string)
    (runs : list (Output * Config)) : Prop :=
  match runs with
  | [] => True
  | run :: rest =>
      match latest with
      | Some t => String.leb t (stamp_of (fst run)) = true
      | None => True
      end
      /\ clock_monotone (Some (stamp_of (fst run))) rest
  end.

End Runs.

(** * Auxiliary definitions for the statements *)

(** The running pair agrees with a list of triggered rules: the score is
    their sum and the reasons name them in order. *)
Definition follows (cs : list (RuleId * Q)) (st : tally) : Prop :=
  fst st = total cs /\ map rule_of_reason (snd st) = map fst cs.

Definition one (id : RuleId) (c : option Q) : list (RuleId * Q) :=
  triggered [(id, c)].

(** The test of the first comprehension: it is false for 0 days. *)
Definition soon (r : Data) : bool :=
  truthy_int (days_to_earnings r)
  && (0 <=? get (days_to_earnings r) 0)%Z
  && (get (days_to_earnings r) 0 <=? 7)%Z.

(** ** Concrete inputs *)

(** A signal with the given ticker, price, volume surge, momentum, RSI,
    trend and days to earnings; no options, no news, default sentiment. *)
Definition signal (t : string) (p vs m : Q) (r : option Q) (tr : Trend)
    (d : option Z) : Data :=
  mkData t p 0 1000 vs m r tr p p None d None [] default_sentiment
    None None None None.

(** [DEFAULT_CONFIG]. *)
Definition default_config : Config :=
  {| max_stock_price := Some 50;
     max_option_premium := Some 2;
     min_score := Some 2;
     use_ai_sentiment := Some true;
     ai_top_n := None;
     force_ai_all := None |}.

(** A falling stock: momentum -8%, bearish trend, RSI 60, price 20. *)
Definition falling_signal : Data :=
  signal "X" 20 1 (- 8) (Some 60) bearish None.

(** A quiet stock with too little history for an RSI. *)
Definition short_history_signal : Data :=
  signal "X" 20 1 0 None neutral None.

(** ** A concrete market *)

(** Day numbers: today is day 0 and ["2026-01-09"] is a week away. *)
Definition example_strptime (s : string) : option Z :=
  if (s =? "2026-01-09")%string then Some 7%Z
  else if (s =? "2026-02-20")%string then Some 49%Z
  else None.

Definition example_strftime (d : Z) : string :=
  if (d =? 7)%Z then "2026-01-09"%string else "2026-01-02"%string.

(** Among equally near rows, the first listed. *)
Definition first_listed (_ : list Q) : nat := 0%nat.

(** A rational square root, exact to eight decimal places. *)
Definition sqrt_approx (q : Q) : Q :=
  inject_Z (Z.sqrt (Qnum q * 10 ^ 16 / Z.pos (Qden q))) / inject_Z (10 ^ 8).

Definition flat_bar (close : Q) : Bar :=
  {| Close := close; High := close; Low := close; Volume := 1000 |}.

Definition quote (k last iv : Q) : OptionRow :=
  {| strike := k; lastPrice := last; impliedVolatility := iv;
     row_volume := Some 120; openInterest := None |}.

(** Five bars closing at 60, and no option chain. *)
Definition pricey_stock : Stock :=
  {| history := OK (map flat_bar [58; 59; 60; 61; 60]);
     calendar_earnings := (None, None);
     option_dates := OK [];
     option_chain := fun _ => Raise ProviderError;
     stock_news := [] |}.

(** Five bars closing at 10, with one call and one put at the strike 10,
    both at an implied volatility of 50%. *)
Definition liquid_stock : Stock :=
  {| history := OK (map flat_bar [10; 10; 10; 10; 10]);
     calendar_earnings := (None, None);
     option_dates := OK ["2026-01-09"%string; "2026-02-20"%string];
     option_chain :=
       fun _ => OK {| calls := [quote 10 0.5 0.5]; puts := [quote 10 0.4 0.5] |};
     stock_news := [] |}.

(** The same with an empty call table. *)
Definition one_sided_stock : Stock :=
  {| history := OK (map flat_bar [10; 10; 10; 10; 10]);
     calendar_earnings := (None, None);
     option_dates := OK ["2026-01-09"%string; "2026-02-20"%string];
     option_chain := fun _ => OK {| calls := []; puts := [quote 10 0.4 0.5] |};
     stock_news := [] |}.

Definition example_market (ticker : string) : Stock :=
  if (ticker =? "PRICEY")%string then pricey_stock
  else if (ticker =? "ONESIDED")%string then one_sided_stock
  else liquid_stock.

(** A result reporting earnings today, up 6% over five days, RSI 30. *)
Definition earnings_today_result : Data :=
  mkData "X" 20 0 1000 1 6 (Some 30) neutral 20 20 (Some "2026-01-02"%string)
    (Some 0%Z) None [] default_sentiment None (Some 3.5)
    (Some [EarningsToday; UpMove 6; Oversold 30]) None.

(** The pipeline on that market: today is day 0, no discovery module, the
    futures of a batch complete in submission order, no AI key. *)
Definition example_options :=
  get_options_data 0 example_strptime sqrt_approx first_listed.

Definition example_fetch :=
  get_stock_data 0 example_strptime sqrt_approx first_listed example_market.

Definition example_scan :=
  scan 0 example_strptime sqrt_approx first_listed example_market
    (fun _ => None) (fun batch => batch).

Definition example_run :=
  run_research 0 example_strptime sqrt_approx first_listed example_market
    (fun _ => None) (fun batch => batch) false (fun _ _ => None)
    example_strftime "2026-01-02T19:00:00".

(** ** Concrete journals *)

Definition blank_entry (t : string) : JournalEntry :=
  {| je_created_at := Some t;
     je_title := (0, 0, 0)%nat;
     je_summary := (0, 0)%nat;
     je_top_picks := [];
     je_ai_journal := None;
     je_model := None |}.

Definition report_at (t : string) : Output :=
  {| generated_at := t;
     summary := mkSummary 1 0 0 0 0;
     top_picks := [];
     categories := mkCategories [] [] [];
     earnings_calendar := [];
     all_results := [] |}.

(** No provider, the default maximum of 30 entries. *)
Definition example_append :=
  append_research_journal false "2026-01-09T19:00:00"
    (fun _ => Raise ProviderError) "gpt-4o-mini" None.

Definition example_persist_runs :=
  persist_runs false "2026-01-09T19:00:00"
    (fun _ => Raise ProviderError) "gpt-4o-mini" None.

(** * Definitions for the further properties *)

From Stdlib Require Import Lqa.

(** An element of [results] as [run_research] keeps it: scored at [min] or
    more, with its reasons and a trade idea, and with an RSI. *)
Definition scored (min : Q) (r : Data) : Prop :=
  exists s rs idea,
    score r = Some s /\ reasons r = Some rs /\ trade_idea r = Some idea
    /\ min <= s /\ rsi r <> None.

(** [a] scores at least as much as [b]. *)
Definition score_ge (a b : Data) : Prop := score_of b <= score_of a.

(** ** A market with reportable stocks *)

(** Sixteen bars: flat at 10, a dip to 9, then four rising closes up to 13;
    earnings in three days, two calls and two puts, one headline. *)
Definition rallying_stock : Stock :=
  {| history :=
       OK (map flat_bar
             [10; 10; 10; 10; 10; 10; 10; 10; 10; 10; 10; 9; 10; 11; 12; 13]);
     calendar_earnings := (Some "2026-01-05"%string, Some 3%Z);
     option_dates := OK ["2026-01-09"%string; "2026-02-20"%string];
     option_chain :=
       fun _ => OK {| calls := [quote 14 0.3 0.5; quote 13 0.5 0.5];
                      puts := [quote 12 0.2 0.5; quote 13 0.4 0.5] |};
     stock_news := [mkNews "Rally continues" "Wire" "https://example.com/r"] |}.

(** Sixteen bars: flat at 20, a rise to 21, then four falling closes down
    to 17; no option chain. *)
Definition sliding_stock : Stock :=
  {| history :=
       OK (map flat_bar
             [20; 20; 20; 20; 20; 20; 20; 20; 20; 20; 20; 21; 20; 19; 18; 17]);
     calendar_earnings := (None, None);
     option_dates := OK [];
     option_chain := fun _ => Raise ProviderError;
     stock_news := [] |}.

(** Sixteen bars that close lower every day, from 30 down to 15. *)
Definition sinking_stock : Stock :=
  {| history :=
       OK (map flat_bar
             [30; 29; 28; 27; 26; 25; 24; 23; 22; 21; 20; 19; 18; 17; 16; 15]);
     calendar_earnings := (None, None);
     option_dates := OK [];
     option_chain := fun _ => Raise ProviderError;
     stock_news := [] |}.

Definition busy_market (ticker : string) : Stock :=
  if (ticker =? "RALLY")%string then rallying_stock
  else if (ticker =? "SLIDE")%string then sliding_stock
  else if (ticker =? "SINK")%string then sinking_stock
  else example_market ticker.

Definition busy_universe : list string :=
  ["SLIDE"; "PRICEY"; "RALLY"; "LIQUID"; "SINK"; "ONESIDED"]%string.

(** A sentiment provider that finds every stock strongly positive. *)
Definition keen_provider (_ : string) (_ : list string) : option Sentiment :=
  Some {| s_score := 3;
          s_summary := SummaryText "Strong quarter ahead";
          s_confidence := "high" |}.

(** The dates of the week that starts on day 0. *)
Definition week_strftime (d : Z) : string :=
  match d with
  | 0%Z => "2026-01-02"
  | 1%Z => "2026-01-03"
  | 2%Z => "2026-01-04"
  | 3%Z => "2026-01-05"
  | 4%Z => "2026-01-06"
  | 5%Z => "2026-01-07"
  | 6%Z => "2026-01-08"
  | _ => "2026-01-09"
  end.

Definition busy_fetch :=
  get_stock_data 0 example_strptime sqrt_approx first_listed busy_market.

(** The futures of a batch complete in reverse order of submission. *)
Definition busy_scan :=
  scan 0 example_strptime sqrt_approx first_listed busy_market
    (fun _ => None) (fun batch => rev batch).

Definition busy_run :=
  run_research 0 example_strptime sqrt_approx first_listed busy_market
    (fun _ => None) (fun batch => rev batch) true keen_provider
    week_strftime "2026-01-02T19:00:00".

(** The sentiment stage limited to the best result. *)
Definition top_one_config : Config :=
  {| max_stock_price := Some 50;
     max_option_premium := Some 2;
     min_score := Some 2;
     use_ai_sentiment := Some true;
     ai_top_n := Some 1%Z;
     force_ai_all := None |}.

(** ** Option rows *)

(** The order of [sort_values('strike', ascending=ascending)]. *)
Definition strike_le (ascending : bool) (a b : OptionRow) : Prop :=
  if ascending then strike a <= strike b else strike b <= strike a.

(** A row a suggestion is drawn from: its last price is within the maximum
    premium and its strike is at or beyond the price, above it for a call
    and below it for a put. *)
Definition affordable_otm (is_call : bool) (cap price : Q) (r : OptionRow)
  : Prop :=
  lastPrice r <= cap
  /\ (if is_call then price <= strike r else strike r <= price).

(** [sg] suggests the affordable row of [rows] whose strike is closest to
    the price, or nothing when no row is affordable. *)
Definition closest_affordable (is_call : bool) (cap price : Q)
    (rows : list OptionRow) (sg : option Suggestion) : Prop :=
  match sg with
  | Some s =>
      exists best,
        In best rows /\ affordable_otm is_call cap price best
        /\ s = make_suggestion is_call best
        /\ forall r, In r rows -> affordable_otm is_call cap price r ->
                     strike_le is_call best r
  | None => forall r, In r rows -> ~ affordable_otm is_call cap price r
  end.

(** ** Ticker universe ([get_universe], lines 129-143, and
    [update_universe_from_alpaca], lines 146-199) *)

(** [ROBINHOOD_POPULAR] (lines 70-110). *)
Definition ROBINHOOD_POPULAR : list string :=
  ["AAPL"; "MSFT"; "GOOGL"; "GOOG"; "AMZN"; "META"; "NVDA"; "TSLA";
   "AMD"; "INTC"; "MU"; "QCOM"; "AVGO"; "TSM"; "MRVL"; "ON";
   "RIVN"; "LCID"; "NIO"; "XPEV"; "LI"; "FSR"; "PLUG"; "FCEL"; "BE";
   "SOFI"; "HOOD"; "COIN"; "PYPL"; "SQ"; "AFRM"; "UPST";
   "GME"; "AMC"; "BBBY"; "COST"; "WMT"; "TGT"; "HD"; "LOW";
   "MRNA"; "BNTX"; "PFE"; "JNJ"; "ABBV"; "BMY"; "LLY"; "NVO";
   "CRM"; "SNOW"; "PLTR"; "NET"; "DDOG"; "ZS"; "CRWD"; "PANW";
   "NFLX"; "DIS"; "ROKU"; "SPOT"; "SNAP"; "PINS"; "RBLX";
   "ABNB"; "UBER"; "LYFT"; "DAL"; "UAL"; "AAL"; "LUV"; "CCL"; "RCL"; "NCLH";
   "XOM"; "CVX"; "OXY"; "SLB"; "DVN"; "FANG"; "MRO";
   "JPM"; "BAC"; "GS"; "MS"; "C"; "WFC"; "SCHW"; "V"; "MA"; "AXP";
   "BA"; "CAT"; "DE"; "UPS"; "FDX";
   "T"; "VZ"; "TMUS"; "CMCSA";
   "O"; "SPG"; "AMT"; "PLD";
   "GOLD"; "NEM"; "FCX"; "CLF"; "X";
   "TLRY"; "CGC"; "ACB";
   "BBIG"; "MULN"; "SNDL"; "WISH"; "CLOV"; "SPCE";
   "BABA"; "JD"; "PDD"; "BIDU";
   "SPY"; "QQQ"; "IWM"; "DIA"; "XLF"; "XLE"; "XLK"]%string.

(** [t in tickers] on strings. *)
Definition ticker_in (t : string) (tickers : list string) : bool :=
  existsb (String.eqb t) tickers.

(** Lines 137-139: a custom ticker is appended unless already listed. *)
Definition append_custom (tickers custom : list string) : list string :=
  fold_left
    (fun tickers t => if ticker_in t tickers then tickers else tickers ++ [t])
    custom tickers.

(** [universe_file] is what [UNIVERSE_FILE] holds: [None] when it does not
    exist, otherwise the outcome of [json.load(f)] then
    [data.get("tickers", [])], a list of tickers or the exception raised;
    [max_tickers] is the key of that name of the configuration. *)
Definition get_universe (universe_file : option (result (list string)))
    (max_tickers : option Z) : result (list string) :=
  let tickers := ROBINHOOD_POPULAR in
  tickers <-
    match universe_file with
    | Some content => custom <- content ;; OK (append_custom tickers custom)
    | None => OK tickers
    end ;;
  (* Limit for Pi performance *)
  OK (slice_to tickers (get max_tickers 100%Z)).

(** An element of the answer of Alpaca's [/v2/assets]; a missing
    ["symbol"] is [None]. *)
Record Asset : Type := mkAsset {
  a_symbol : option string;
  a_tradable : bool;
  a_fractionable : bool
}.

(** [s.endswith(suffix)]. *)
Definition endswith (s suffix : string) : bool :=
  (String.length suffix <=? String.length s)%nat
  && String.eqb
       (substring (String.length s - String.length suffix)
          (String.length suffix) s)
       suffix.

(** The comprehension of lines 173-179; [None] where [a["symbol"]] raises
    [KeyError]. *)
Fixpoint tradeable_symbols (assets : list Asset) : option (list string) :=
  match assets with
  | [] => Some []
  | a :: rest =>
      let symbol := get (a_symbol a) EmptyString in
      if a_tradable a && a_fractionable a
         && negb (endswith symbol "W")
         && (String.length symbol <=? 5)%nat
      then
        match a_symbol a, tradeable_symbols rest with
        | Some s, Some l => Some (s :: l)
        | _, _ => None
        end
      else tradeable_symbols rest
  end.

(** From the universe file before the call to the one after it.  [keys]
    tells whether both Alpaca keys are configured, [response] is the
    answer of the request ([None] when it fails) and [set_to_list] is
    [list(set(...))], whose order the language leaves open.  The file is
    left as it was when the keys are missing and when the [try] block
    raises. *)
Definition update_universe_from_alpaca (keys : bool)
    (response : option (list Asset))
    (set_to_list : list string -> list string)
    (universe_file : option (result (list string)))
  : option (result (list string)) :=
  if negb keys then universe_file
  else
    match response with
    | Some assets =>
        match tradeable_symbols assets with
        | Some tradeable =>
            (* Merge with existing *)
            let existing := set_to_list ROBINHOOD_POPULAR in
            let new_tickers :=
              filter (fun t => negb (ticker_in t ROBINHOOD_POPULAR)) tradeable in
            Some (OK (existing ++ firstn 200 new_tickers))
        | None => universe_file
        end
    | None => universe_file
    end.

(** An answer of the assets request: a new symbol, a warrant, a popular
    ticker, a long symbol and an asset that is not fractionable. *)
Definition example_assets : list Asset :=
  [ mkAsset (Some "ZZZ"%string) true true;
    mkAsset (Some "ABCW"%string) true true;
    mkAsset (Some "AAPL"%string) true true;
    mkAsset (Some "TOOLONG"%string) true true;
    mkAsset (Some "NOFR"%string) true false ].

(** ** Trade ideas *)

(** The trade idea held by [r] agrees with the signals, the reasons and the
    options snapshot that [r] holds. *)
Definition idea_agrees (r : Data) : Prop :=
  exists idea,
    trade_idea r = Some idea
    /\ (ti_direction idea, ti_bias idea) = direction_of_votes (count_votes r)
    /\ ti_reasons idea = reasons_of r
    /\ ti_suggested_option idea
       = match options r with
         | Some o =>
             match ti_direction idea with
             | CALL => call_suggestion o
             | _ => put_suggestion o
             end
         | None => None
         end
    /\ ((exists e, ti_expiry idea = ThroughEarnings e)
        <-> exists d, days_to_earnings r = Some d /\ (1 <= d <= 7)%Z).

(** ** The Responses request and its retries ([get_ai_sentiment], lines
    262-306; the same loop, without the temperature step, is at lines
    458-495 of [_openai_generate_json]) *)

Inductive Effort : Type := low | medium.

(** The keys of [body] that the retries touch: whether ["temperature"] is
    present, and the effort under ["reasoning"], [None] once the key is
    popped. *)
Record Body : Type := mkBody {
  b_temperature : bool;
  b_reasoning : option Effort
}.

(** [resp.status_code] and [resp.text or ""]. *)
Record Response : Type := mkResponse {
  r_status_code : Z;
  r_text : string
}.

(** [needle in text]. *)
Definition contains (needle text : string) : bool :=
  match index 0 needle text with
  | Some _ => true
  | None => false
  end.

(** Lines 284-303: the changes made to [body] after a 400, and whether
    there was one. *)
Definition adjust (txt : string) (body : Body) : Body * bool :=
  let changed := false in
  let '(body, changed) :=
    if contains "Unsupported parameter: 'temperature'" txt && b_temperature body
    then (mkBody false (b_reasoning body), true)
    else (body, changed) in
  let '(body, changed) :=
    if contains "reasoning.effort" txt || contains "reasoning" txt then
      match b_reasoning body with
      | Some low => (mkBody (b_temperature body) (Some medium), true)
      | Some medium => (mkBody (b_temperature body) None, true)
      | None => (body, changed)
      end
    else (body, changed) in
  let '(body, changed) :=
    if (contains "Unsupported parameter: 'reasoning'" txt
        || contains "Unknown parameter: 'reasoning'" txt)
       && match b_reasoning body with Some _ => true | None => false end
    then (mkBody (b_temperature body) None, true)
    else (body, changed) in
  (body, changed).

(** The loop [for _ in range(rounds)] of lines 272-306.  [post] is
    [requests.post] on the Responses endpoint: it answers a body given the
    bodies sent before it, or raises ([None]).  The loop yields the bodies
    sent, in order, and the response it ends with, [None] when [post]
    raised; [last] is the response of the round before. *)
Fixpoint retry_loop (rounds : nat)
    (post : list Body -> Body -> option Response)
    (sent : list Body) (body : Body) (last : option Response)
  : list Body * option Response :=
  match rounds with
  | O => (sent, last)
  | S rounds =>
      match post sent body with
      | None => (sent ++ [body], None)
      | Some resp =>
          let sent := sent ++ [body] in
          if negb (r_status_code resp =? 400)%Z then (sent, Some resp)
          else
            (* Retry common incompatibilities across models/endpoints. *)
            let '(body, changed) := adjust (r_text resp) body in
            if negb changed then (sent, Some resp)
            else retry_loop rounds post sent body (Some resp)
      end
  end.

(** The request as [get_ai_sentiment] starts it: no temperature, a low
    reasoning effort, three rounds. *)
Definition responses_request (post : list Body -> Body -> option Response)
  : list Body * option Response :=
  retry_loop 3 post [] (mkBody false (Some low)) None.

(** A server that rejects every body with a reasoning effort. *)
Definition strict_server (_ : list Body) (body : Body) : option Response :=
  match b_reasoning body with
  | Some _ => Some (mkResponse 400 "Unsupported value: reasoning.effort")
  | None => Some (mkResponse 200 "{}")
  end.

(** * Properties *)

(** ** Comparisons and rounding *)

Lemma Qgtb_true x y : Qgtb x y = true <-> y < x.
Proof.
  unfold Qgtb. rewrite negb_true_iff, <- not_true_iff_false, Qle_bool_iff.
  split; [apply Qnot_le_lt | apply Qlt_not_le].
Qed.

Lemma Qltb_true x y : Qltb x y = true <-> x < y.
Proof.
  unfold Qltb. rewrite negb_true_iff, <- not_true_iff_false, Qle_bool_iff.
  split; [apply Qnot_le_lt | apply Qlt_not_le].
Qed.

Lemma Qgeb_true x y : Qgeb x y = true <-> y <= x.
Proof. unfold Qgeb. apply Qle_bool_iff. Qed.

(** ** Scorer *)


Lemma follows_add cs st id p r :
  follows cs st -> rule_of_reason r = id ->
  follows (cs ++ [(id, p)]) (add st p r).
Proof.
  intros [Hs Hr] Hid. split.
  - unfold add, total, Py.sum in *. simpl.
    rewrite map_app, fold_left_app. simpl. now rewrite Hs.
  - unfold add. simpl. rewrite !map_app, Hr. simpl. now rewrite Hid.
Qed.

Lemma follows_skip cs st : follows cs st -> follows (cs ++ []) st.
Proof. now rewrite app_nil_r. Qed.

Lemma earnings_catalyst_follows cs st data :
  follows cs st ->
  follows (cs ++ one EarningsProximity (Spec.earnings_proximity data))
          (earnings_catalyst data st).
Proof.
  intros H. unfold earnings_catalyst, Spec.earnings_proximity, one.
  destruct (days_to_earnings data) as [d|]; simpl.
  - destruct ((1 <=? d)%Z && (d <=? 3)%Z); simpl.
    { now apply follows_add. }
    destruct ((4 <=? d)%Z && (d <=? 7)%Z); simpl.
    { now apply follows_add. }
    destruct (d =? 0)%Z; simpl.
    { now apply follows_add. }
    now apply follows_skip.
  - now apply follows_skip.
Qed.

Lemma volume_surge_follows cs st data :
  follows cs st ->
  follows (cs ++ one VolumeSurge (Spec.volume_surge data)) (volume_surge data st).
Proof.
  intros H. unfold volume_surge, Spec.volume_surge, one.
  destruct (Qgeb (vol_surge data) 2); simpl.
  { now apply follows_add. }
  destruct (Qgeb (vol_surge data) 1.5); simpl.
  { now apply follows_add. }
  now apply follows_skip.
Qed.

Lemma momentum_rule_follows cs st data :
  follows cs st ->
  follows (cs ++ one Momentum (Spec.momentum data)) (momentum_rule data st).
Proof.
  intros H. unfold momentum_rule, Spec.momentum, one.
  destruct (Qgeb (Qabs (momentum_5d data)) 10); simpl.
  { apply follows_add; [assumption | now destruct (Qgtb (momentum_5d data) 0)]. }
  destruct (Qgeb (Qabs (momentum_5d data)) 5); simpl.
  { apply follows_add; [assumption | now destruct (Qgtb (momentum_5d data) 0)]. }
  now apply follows_skip.
Qed.

Lemma rsi_extremes_follows cs st data :
  follows cs st ->
  follows (cs ++ one RsiExtreme (rsi_extreme_nonzero data)) (rsi_extremes data st).
Proof.
  intros H. unfold rsi_extremes, rsi_extreme_nonzero, Spec.rsi_extreme, one.
  destruct (rsi data) as [r|]; simpl; [| now apply follows_skip].
  destruct (negb (Qeq_bool r 0)); simpl; [| now apply follows_skip].
  destruct (Qgeb r 70); simpl.
  { now apply follows_add. }
  destruct (Qle_bool r 30); simpl.
  { now apply follows_add. }
  now apply follows_skip.
Qed.

Lemma options_iv_follows cs st data :
  follows cs st ->
  follows ((cs ++ one ImpliedVolatility (Spec.implied_volatility data))
             ++ one AffordableSuggestion (Spec.affordable_suggestion data))
          (options_iv data st).
Proof.
  intros H.
  unfold options_iv, Spec.implied_volatility, Spec.affordable_suggestion, one.
  destruct (options data) as [o|]; simpl;
    [| now apply follows_skip, follows_skip].
  set (st1 := if Qgeb (iv_avg o) 80 then add st 1 (HighIV (iv_avg o))
              else if Qle_bool (iv_avg o) 30 && Qgtb (iv_avg o) 0
                   then add st 1.5 (LowIV (iv_avg o)) else st).
  assert (H1 : follows
                 (cs ++ triggered
                    [(ImpliedVolatility,
                      if Qgeb (iv_avg o) 80 then Some 1
                      else if Qgtb (iv_avg o) 0 && Qle_bool (iv_avg o) 30
                           then Some 1.5 else None)]) st1).
  { subst st1. destruct (Qgeb (iv_avg o) 80); simpl.
    { now apply follows_add. }
    rewrite (andb_comm (Qgtb (iv_avg o) 0)).
    destruct (Qle_bool (iv_avg o) 30 && Qgtb (iv_avg o) 0); simpl.
    { now apply follows_add. }
    now apply follows_skip. }
  destruct (call_suggestion o), (put_suggestion o); simpl;
    try (now apply follows_add); now apply follows_skip.
Qed.

Lemma ai_sentiment_rule_follows cs st data :
  (Qgeb (Qabs (s_score (ai_sentiment data))) 3 = true ->
   s_summary (ai_sentiment data) <> SummaryNull) ->
  follows cs st ->
  exists st',
    ai_sentiment_rule data st = OK st'
    /\ follows (cs ++ one SentimentRule (Spec.sentiment data)) st'.
Proof.
  intros Hsum H. unfold ai_sentiment_rule, Spec.sentiment, one.
  destruct (Qgeb (Qabs (s_score (ai_sentiment data))) 3); simpl.
  { unfold summary_text.
    destruct (s_summary (ai_sentiment data)) eqn:E; simpl.
    - eexists; split; [reflexivity | now apply follows_add].
    - now destruct Hsum.
    - eexists; split; [reflexivity | now apply follows_add]. }
  destruct (Qgeb (Qabs (s_score (ai_sentiment data))) 2); simpl.
  { eexists; split; [reflexivity | now apply follows_add]. }
  eexists; split; [reflexivity | now apply follows_skip].
Qed.

Lemma follows_start : follows [] (0, []).
Proof. split; reflexivity. Qed.

Lemma triggered_cons id c rest :
  triggered ((id, c) :: rest) = one id c ++ triggered rest.
Proof. unfold one. simpl. now destruct c. Qed.

(** C2 (as amended): [score_opportunity] is a function of the signal fields
    whose score is the sum of the triggered rule contributions of section
    4.2, the RSI rule applying only to an RSI that is not 0, and whose
    reasons list has one entry per triggered rule in evaluation order; it
    returns whenever the sentiment summary is not null or the sentiment
    score is below 3 in absolute value. *)
Theorem score_opportunity_sums_rules data config :
  (Qgeb (Qabs (s_score (ai_sentiment data))) 3 = true ->
   s_summary (ai_sentiment data) <> SummaryNull) ->
  exists reasons,
    score_opportunity data config
      = OK (total (triggered (rules_nonzero_rsi data)), reasons)
    /\ map rule_of_reason reasons = map fst (triggered (rules_nonzero_rsi data)).
Proof.
  intros Hsum. unfold score_opportunity.
  pose proof follows_start as H.
  apply (earnings_catalyst_follows _ _ data) in H.
  apply (volume_surge_follows _ _ data) in H.
  apply (momentum_rule_follows _ _ data) in H.
  apply (rsi_extremes_follows _ _ data) in H.
  apply (options_iv_follows _ _ data) in H.
  destruct (ai_sentiment_rule_follows _ _ data Hsum H) as [st' [E H']].
  assert (Hcs : (((((([] ++ one EarningsProximity (Spec.earnings_proximity data))
             ++ one VolumeSurge (Spec.volume_surge data))
             ++ one Momentum (Spec.momentum data))
             ++ one RsiExtreme (rsi_extreme_nonzero data))
             ++ one ImpliedVolatility (Spec.implied_volatility data))
             ++ one AffordableSuggestion (Spec.affordable_suggestion data))
             ++ one SentimentRule (Spec.sentiment data)
          = triggered (rules_nonzero_rsi data)).
  { unfold rules_nonzero_rsi. rewrite !triggered_cons. simpl triggered.
    rewrite app_nil_r, <- !app_assoc. reflexivity. }
  rewrite Hcs in H'. destruct st' as [s rs], H' as [Hs Hr]. simpl in Hs, Hr.
  exists rs. rewrite E, Hs. split; [reflexivity | exact Hr].
Qed.

Lemma score_opportunity_null_summary data config :
  Qgeb (Qabs (s_score (ai_sentiment data))) 3 = true ->
  s_summary (ai_sentiment data) = SummaryNull ->
  score_opportunity data config = Raise TypeError.
Proof.
  intros H3 Hn. unfold score_opportunity, ai_sentiment_rule, summary_text.
  rewrite H3, Hn. reflexivity.
Qed.

Lemma score_opportunity_sums_rules_witness :
  exists reasons,
    score_opportunity (signal "X" 20 2.5 12 (Some 28) neutral None) default_config
      = OK (total (triggered (rules_nonzero_rsi
                                (signal "X" 20 2.5 12 (Some 28) neutral None))),
            reasons)
    /\ map rule_of_reason reasons
       = map fst (triggered (rules_nonzero_rsi
                               (signal "X" 20 2.5 12 (Some 28) neutral None))).
Proof.
  apply (score_opportunity_sums_rules
           (signal "X" 20 2.5 12 (Some 28) neutral None) default_config).
  simpl. discriminate.
Defined.

Lemma score_opportunity_rsi_zero :
  ~ exists reasons,
      score_opportunity (signal "X" 20 1 0 (Some 0) neutral None) default_config
        = OK (total (triggered (Spec.rules
                                  (signal "X" 20 1 0 (Some 0) neutral None))),
              reasons)
      /\ map rule_of_reason reasons
         = map fst (triggered (Spec.rules
                                 (signal "X" 20 1 0 (Some 0) neutral None))).
Proof.
  intros [reasons [E H]]. vm_compute in E. now inversion E.
Qed.

(** ** Trade-idea generator *)

Lemma direction_of_votes_tally data :
  fst (direction_of_votes (count_votes data))
  = direction_of (votes_nonzero_rsi data).
Proof.
  unfold count_votes, votes_nonzero_rsi, rsi_vote_nonzero, direction_of,
    Spec.momentum_vote, Spec.trend_vote, Spec.sentiment_vote, Spec.rsi_vote.
  destruct (Qgtb (momentum_5d data) 3), (Qltb (momentum_5d data) (- 3)),
    (trend data), (Qgtb (s_score (ai_sentiment data)) 0),
    (Qltb (s_score (ai_sentiment data)) 0), (rsi data) as [r|];
    simpl; try reflexivity;
    destruct (negb (Qeq_bool r 0)), (Qltb r 35), (Qgtb r 65); reflexivity.
Qed.

Lemma calculate_entry_exit_returns data opts r :
  rsi data = Some r -> exists ee, calculate_entry_exit data opts = OK ee.
Proof.
  intros Hr. unfold calculate_entry_exit. rewrite Hr.
  destruct (trade_idea data) as [idea|]; [destruct (ti_direction idea)|];
    simpl; eexists; reflexivity.
Qed.

(** Before ["trade_idea"] is set the levels are those of a CALL, whatever
    the votes say. *)
Lemma calculate_entry_exit_first_pass data opts r :
  trade_idea data = None -> rsi data = Some r ->
  exists ee,
    calculate_entry_exit data opts = OK ee
    /\ ee_direction ee = CALL
    /\ stock_entry ee
       = round (price data * (1 + (if Qgtb r 50 then - 1.5 else - 0.5) / 100)) 2.
Proof.
  intros Hi Hr. unfold calculate_entry_exit. rewrite Hi, Hr. simpl.
  eexists. split; [reflexivity |]. split; reflexivity.
Qed.

Lemma calculate_entry_exit_null_rsi data opts :
  trade_idea data = None -> rsi data = None ->
  calculate_entry_exit data opts = Raise TypeError.
Proof.
  intros Hi Hr. unfold calculate_entry_exit. now rewrite Hi, Hr.
Qed.

Lemma generate_trade_idea_null_rsi data score reasons :
  trade_idea data = None -> rsi data = None ->
  generate_trade_idea data score reasons = Raise TypeError.
Proof.
  intros Hi Hr. unfold generate_trade_idea.
  destruct (direction_of_votes (count_votes data)).
  now rewrite calculate_entry_exit_null_rsi.
Qed.

(** C4 (as amended): for every signal with a non-null RSI,
    [generate_trade_idea] returns a trade idea whose direction is CALL if
    the bullish votes exceed the bearish ones, PUT if the bearish exceed the
    bullish, and STRADDLE on a tie, with one vote each from momentum, trend,
    sentiment sign and RSI extremes, the RSI voting only when it is not 0. *)
Theorem generate_trade_idea_direction data score reasons r :
  rsi data = Some r ->
  exists idea,
    generate_trade_idea data score reasons = OK idea
    /\ ti_direction idea = direction_of (votes_nonzero_rsi data).
Proof.
  intros Hr. unfold generate_trade_idea.
  pose proof (direction_of_votes_tally data) as Hd.
  destruct (direction_of_votes (count_votes data)) as [direction bias].
  destruct (calculate_entry_exit_returns data (options data) r Hr) as [ee Hee].
  rewrite Hee. simpl. eexists. split; [reflexivity | exact Hd].
Qed.

Lemma generate_trade_idea_direction_witness :
  exists idea,
    generate_trade_idea falling_signal 0 [] = OK idea
    /\ ti_direction idea = direction_of (votes_nonzero_rsi falling_signal).
Proof.
  apply (generate_trade_idea_direction falling_signal 0 [] 60). reflexivity.
Defined.

Lemma generate_trade_idea_rsi_zero_no_vote :
  ~ exists idea,
      generate_trade_idea (signal "X" 20 1 0 (Some 0) neutral None) 0 []
      = OK idea
      /\ ti_direction idea
         = direction_of (Spec.votes (signal "X" 20 1 0 (Some 0) neutral None)).
Proof.
  intros [idea [E D]]. vm_compute in E. injection E as <-.
  vm_compute in D. discriminate D.
Qed.

(** C5: on the first pass the levels of a falling stock, whose votes give
    PUT, are those of a CALL (entry 19.70, target 20.70, stop 19.50) and not
    the ones the specification gives for a PUT (20.10, 19.30, 20.50). *)
Theorem generate_trade_idea_levels_of_call :
  exists idea,
    generate_trade_idea falling_signal 0 [] = OK idea
    /\ ti_direction idea = PUT
    /\ ee_direction (ti_entry_exit idea) = CALL
    /\ stock_entry (ti_entry_exit idea) == 19.7
    /\ stock_target (ti_entry_exit idea) == 20.7
    /\ stock_stop (ti_entry_exit idea) == 19.5
    /\ Spec.levels PUT 20 5 60 = (20 * (1 + 0.5 / 100),
                                  20 * (1 - 0.7 * 5 / 100),
                                  20 * (1 + 0.5 * 5 / 100))
    /\ ~ stock_entry (ti_entry_exit idea) == fst (fst (Spec.levels PUT 20 5 60))
    /\ ~ stock_target (ti_entry_exit idea) == snd (fst (Spec.levels PUT 20 5 60))
    /\ ~ stock_stop (ti_entry_exit idea) == snd (Spec.levels PUT 20 5 60).
Proof.
  eexists. split; [vm_compute; reflexivity |].
  repeat split; try reflexivity; intros H; vm_compute in H; discriminate H.
Qed.

(** ** Scan orchestrator *)

Ltac break_match_hyp H :=
  repeat match type of H with
         | context [match ?x with _ => _ end] =>
             let E := fresh "E" in destruct x eqn:E; simpl in H; try discriminate H
         | context [if ?b then _ else _] =>
             let E := fresh "E" in destruct b eqn:E; simpl in H; try discriminate H
         end.

(** From [OK x = OK y] to [y := x], leaving [x] as it is written. *)
Ltac ok_inj H :=
  match type of H with
  | OK ?x = OK ?y =>
      let E := fresh "E" in
      assert (E : y = x) by (symmetry; congruence);
      clear H; subst y
  end.

Ltac ok_inj_some H :=
  match type of H with
  | OK (Some ?x) = OK (Some ?y) =>
      let E := fresh "E" in
      assert (E : y = x) by (symmetry; congruence);
      clear H; subst y
  | Some ?x = Some ?y =>
      let E := fresh "E" in
      assert (E : y = x) by (symmetry; congruence);
      clear H; subst y
  end.

Section PipelineFacts.

Variable today : Z.
Variable strptime : string -> option Z.
Variable np_sqrt : Q -> Q.
Variable argsort_tie : list Q -> nat.
Variable yf_Ticker : string -> Stock.
Variable get_discovered_info : string -> option string.
Variable completion : list string -> list string.
Variable openai_key : bool.
Variable ai_provider : string -> list string -> option Sentiment.
Variable strftime : Z -> string.
Variable now : string.

Local Abbreviation get_stock_data :=
  (get_stock_data today strptime np_sqrt argsort_tie yf_Ticker).
Local Abbreviation process_future :=
  (process_future today strptime np_sqrt argsort_tie yf_Ticker get_discovered_info).
Local Abbreviation scan :=
  (scan today strptime np_sqrt argsort_tie yf_Ticker get_discovered_info completion).
Local Abbreviation run_research :=
  (run_research today strptime np_sqrt argsort_tie yf_Ticker get_discovered_info
     completion openai_key ai_provider strftime now).

(** What [get_stock_data] returns carries the ticker it was asked for and
    no trade idea yet. *)
Lemma get_stock_data_fresh ticker0 config data :
  get_stock_data ticker0 config = Some data ->
  ticker data = ticker0 /\ trade_idea data = None.
Proof.
  unfold get_stock_data, stock_data_body. intros H.
  destruct (history (yf_Ticker ticker0)) as [hist|]; simpl in H; [| discriminate H].
  destruct (List.length hist <? 5)%nat; [discriminate H |].
  destruct (iloc_from_end hist 0) as [current|]; simpl in H; [| discriminate H].
  destruct (if (1 <? List.length hist)%nat then iloc_from_end hist 1 else OK current)
    as [prev|]; simpl in H; [| discriminate H].
  destruct (Qgtb (Close current) (get (max_stock_price config) 50));
    [discriminate H |].
  destruct (if (5 <=? List.length hist)%nat then _ else _) as [m|];
    simpl in H; [| discriminate H].
  destruct (calendar_earnings (yf_Ticker ticker0)) as [ed dte0].
  injection H as <-. split; reflexivity.
Qed.

Lemma set_fields_keep data info s rs idea :
  ticker (set_discovery data info) = ticker data
  /\ ticker (set_score data s rs) = ticker data
  /\ ticker (set_trade_idea data idea) = ticker data
  /\ rsi (set_discovery data info) = rsi data
  /\ rsi (set_score data s rs) = rsi data
  /\ trade_idea (set_discovery data info) = trade_idea data
  /\ trade_idea (set_score data s rs) = trade_idea data.
Proof. repeat split. Qed.

(** A completed future adds at most the dict of its own ticker. *)
Lemma process_future_app config results ticker0 :
  process_future config results ticker0
  = results ++ process_future config [] ticker0.
Proof.
  unfold process_future.
  destruct (get_stock_data ticker0 config) as [data|];
    [| now rewrite app_nil_r].
  destruct (score_opportunity _ config) as [[s rs]|]; simpl;
    [| now rewrite app_nil_r].
  destruct (Qgeb s (get (min_score config) 0)); [| now rewrite app_nil_r].
  destruct (generate_trade_idea _ s rs); simpl; [reflexivity |].
  now rewrite app_nil_r.
Qed.

Lemma process_future_ticker config ticker0 r :
  In r (process_future config [] ticker0) -> ticker r = ticker0.
Proof.
  unfold process_future.
  destruct (get_stock_data ticker0 config) as [data|] eqn:E; [| intros []].
  apply get_stock_data_fresh in E. destruct E as [Et _].
  set (data' := match get_discovered_info ticker0 with
                | Some info => if nonempty info then set_discovery data info else data
                | None => data
                end).
  assert (Et' : ticker data' = ticker0).
  { subst data'. destruct (get_discovered_info ticker0) as [info|]; [| exact Et].
    now destruct (nonempty info). }
  destruct (score_opportunity data' config) as [[s rs]|]; simpl; [| intros []].
  destruct (Qgeb s (get (min_score config) 0)); [| intros []].
  destruct (generate_trade_idea _ s rs); simpl; [| intros []].
  intros [<- | []]. exact Et'.
Qed.

Lemma fold_process_future_In config tickers results r :
  In r (fold_left (process_future config) tickers results) ->
  In r results \/ In r (process_future config [] (ticker r)).
Proof.
  revert results. induction tickers as [|t rest IH]; intros results H.
  - now left.
  - simpl in H. apply IH in H. destruct H as [H | H]; [| now right].
    rewrite process_future_app in H. apply in_app_or in H.
    destruct H as [H | H]; [now left | right].
    now rewrite (process_future_ticker _ _ _ H).
Qed.

(** Every result of the scan was produced by the future of its own
    ticker, whatever the completion order. *)
Lemma scan_In config universe r :
  In r (scan config universe) ->
  In r (process_future config [] (ticker r)).
Proof.
  unfold scan.
  assert (G : forall bs results,
             In r (fold_left
                     (fun results batch =>
                        fold_left (process_future config) (completion batch) results)
                     bs results) ->
             In r results \/ In r (process_future config [] (ticker r))).
  { induction bs as [|b bs IH]; intros results H.
    - now left.
    - simpl in H. apply IH in H. destruct H as [H | H]; [| now right].
      now apply fold_process_future_In in H. }
  intros H. apply G in H. destruct H as [[] | H]. exact H.
Qed.

Lemma process_future_no_data config ticker0 :
  get_stock_data ticker0 config = None ->
  process_future config [] ticker0 = [].
Proof. intros E. unfold process_future. now rewrite E. Qed.

Lemma process_future_null_rsi config results ticker0 data :
  get_stock_data ticker0 config = Some data -> rsi data = None ->
  process_future config results ticker0 = results.
Proof.
  intros E Hr. unfold process_future. rewrite E.
  apply get_stock_data_fresh in E. destruct E as [_ Ei].
  set (data' := match get_discovered_info ticker0 with
                | Some info => if nonempty info then set_discovery data info else data
                | None => data
                end).
  assert (H' : rsi data' = None /\ trade_idea data' = None).
  { subst data'. destruct (get_discovered_info ticker0) as [info|]; [| now split].
    destruct (nonempty info); now split. }
  destruct H' as [Hr' Hi'].
  destruct (score_opportunity data' config) as [[s rs]|]; simpl; [| reflexivity].
  destruct (Qgeb s (get (min_score config) 0)); [| reflexivity].
  now rewrite generate_trade_idea_null_rsi.
Qed.

(** ** From the scan to the report lists *)

Lemma insert_by_score_In x l r :
  In r (insert_by_score x l) <-> r = x \/ In r l.
Proof.
  induction l as [|y l IH]; simpl.
  - intuition.
  - destruct (Qltb (score_of y) (score_of x)); simpl; [intuition |].
    rewrite IH. intuition.
Qed.

Lemma sort_by_score_In l r : In r (sort_by_score l) <-> In r l.
Proof.
  unfold sort_by_score.
  assert (G : forall acc,
             In r (fold_left (fun sorted x => insert_by_score x sorted) l acc)
             <-> In r l \/ In r acc).
  { induction l as [|x l IH]; intros acc; simpl.
    - intuition.
    - rewrite IH, insert_by_score_In. intuition. }
  rewrite G. simpl. intuition.
Qed.

Lemma firstn_In {A} n (l : list A) x : In x (firstn n l) -> In x l.
Proof.
  intros H. rewrite <- (firstn_skipn n l). apply in_or_app. now left.
Qed.

Lemma slice_to_In {A} (l : list A) n x : In x (slice_to l n) -> In x l.
Proof. unfold slice_to. destruct (0 <=? n)%Z; apply firstn_In. Qed.

Lemma skipn_In {A} n (l : list A) x : In x (skipn n l) -> In x l.
Proof.
  intros H. rewrite <- (firstn_skipn n l). apply in_or_app. now right.
Qed.

Lemma enrich_ticker config r r' :
  enrich openai_key ai_provider config r = OK r' -> ticker r' = ticker r.
Proof.
  unfold enrich. intros H.
  destruct (map n_title _); [now injection H as <- |].
  match type of H with
  | bind ?c _ = _ => destruct c as [r1|] eqn:E1; simpl in H; [| discriminate H]
  end.
  assert (Hr1 : ticker r1 = ticker r).
  { destruct (Qgeb _ 3).
    - destruct (summary_text _); simpl in E1; [| discriminate E1].
      now injection E1 as <-.
    - destruct (Qgeb _ 2); now injection E1 as <-. }
  destruct (generate_trade_idea r1 _ _); simpl in H; [| discriminate H].
  injection H as <-. exact Hr1.
Qed.

Lemma map_result_In {A B} (f : A -> result B) l l' y :
  map_result f l = OK l' -> In y l' -> exists x, In x l /\ f x = OK y.
Proof.
  revert l'. induction l as [|x l IH]; intros l' H Hy; simpl in H.
  - injection H as <-. destruct Hy.
  - destruct (f x) as [y0|] eqn:Ex; simpl in H; [| discriminate H].
    destruct (map_result f l) as [ys|]; simpl in H; [| discriminate H].
    injection H as <-. destruct Hy as [<- | Hy].
    + exists x. split; [now left | exact Ex].
    + destruct (IH ys eq_refl Hy) as [x' [Hx' Ex']].
      exists x'. split; [now right | exact Ex'].
Qed.

Lemma enrich_top_ticker config results results' r' :
  enrich_top openai_key ai_provider config results = OK results' ->
  In r' results' ->
  exists r, In r results /\ ticker r' = ticker r.
Proof.
  unfold enrich_top. intros H Hr'.
  destruct (map_result _ _) as [enriched|] eqn:E; simpl in H; [| discriminate H].
  injection H as <-. apply in_app_or in Hr'. destruct Hr' as [Hr' | Hr'].
  - destruct (map_result_In _ _ _ _ E Hr') as [r [Hr Er]].
    exists r. split; [now apply slice_to_In in Hr | now apply enrich_ticker in Er].
  - exists r'. split; [now apply skipn_In in Hr' | reflexivity].
Qed.

(** Every element of [all_results] carries the ticker of a result of the
    scan. *)
Lemma all_results_from_scan config universe out r :
  run_research config universe = OK out ->
  In r (all_results out) ->
  exists r0, In r0 (scan config universe) /\ ticker r = ticker r0.
Proof.
  unfold run_research. intros H Hr.
  match type of H with
  | bind ?c _ = _ => destruct c as [results|] eqn:E; simpl in H; [| discriminate H]
  end.
  injection H as <-. simpl in Hr.
  destruct (openai_key && get (use_ai_sentiment config) true).
  - destruct (enrich_top _ _ _ _) as [enriched|] eqn:Ee; simpl in E;
      [| discriminate E].
    injection E as <-. apply (proj1 (sort_by_score_In _ _)) in Hr.
    destruct (enrich_top_ticker _ _ _ _ Ee Hr) as [r0 [Hr0 Et]].
    exists r0. split; [exact (proj1 (sort_by_score_In _ _) Hr0) | exact Et].
  - injection E as <-. exists r.
    split; [exact (proj1 (sort_by_score_In _ _) Hr) | reflexivity].
Qed.

Lemma calendar_from_results universe results day e :
  In day (build_earnings_calendar today strftime
            (calendar_inputs universe results)) ->
  In e (cd_earnings day) ->
  In (ce_ticker e) (map ticker results).
Proof.
  unfold build_earnings_calendar. intros Hday He.
  apply in_map_iff in Hday. destruct Hday as [i [<- _]]. simpl in He.
  apply in_map_iff in He. destruct He as [ci [<- Hci]]. simpl.
  apply filter_In in Hci. destruct Hci as [Hci Hdate].
  unfold calendar_inputs in Hci. apply in_app_or in Hci.
  destruct Hci as [Hci | Hci].
  - apply in_map_iff in Hci. destruct Hci as [r [<- Hr]]. simpl.
    apply filter_In in Hr. apply in_map. exact (proj1 Hr).
  - apply in_map_iff in Hci. destruct Hci as [t [<- _]]. discriminate Hdate.
Qed.

(** Every list of the report is drawn from [all_results]. *)
Lemma report_lists_from_results config universe out :
  run_research config universe = OK out ->
  incl (top_picks out) (all_results out)
  /\ incl (cat_earnings_plays (categories out)) (all_results out)
  /\ incl (cat_momentum_plays (categories out)) (all_results out)
  /\ incl (cat_oversold_plays (categories out)) (all_results out)
  /\ (forall day e,
        In day (earnings_calendar out) -> In e (cd_earnings day) ->
        In (ce_ticker e) (map ticker (all_results out))).
Proof.
  unfold run_research. intros H.
  match type of H with
  | bind ?c _ = _ => destruct c as [results|]; cbn [bind] in H; [| discriminate H]
  end.
  ok_inj H.
  cbn [top_picks categories cat_earnings_plays cat_momentum_plays
       cat_oversold_plays earnings_calendar all_results].
  split; [| split; [| split; [| split]]].
  - intros r. apply firstn_In.
  - intros r Hr. apply firstn_In in Hr. apply filter_In in Hr. exact (proj1 Hr).
  - intros r Hr. apply firstn_In in Hr. apply filter_In in Hr. exact (proj1 Hr).
  - intros r Hr. apply firstn_In in Hr. apply filter_In in Hr. exact (proj1 Hr).
  - intros day e. apply calendar_from_results.
Qed.

(** A ticker whose future adds nothing appears in no list of the
    report. *)
Lemma absent_from_report config universe out ticker0 :
  process_future config [] ticker0 = [] ->
  run_research config universe = OK out ->
  ~ In ticker0 (map ticker (all_results out))
  /\ ~ In ticker0 (map ticker (top_picks out))
  /\ ~ In ticker0 (map ticker (cat_earnings_plays (categories out)))
  /\ ~ In ticker0 (map ticker (cat_momentum_plays (categories out)))
  /\ ~ In ticker0 (map ticker (cat_oversold_plays (categories out)))
  /\ (forall day, In day (earnings_calendar out) ->
                  ~ In ticker0 (map ce_ticker (cd_earnings day))).
Proof.
  intros Hnone Hrun.
  assert (Hall : ~ In ticker0 (map ticker (all_results out))).
  { intros Hin. apply in_map_iff in Hin. destruct Hin as [r [Et Hr]].
    destruct (all_results_from_scan _ _ _ _ Hrun Hr) as [r0 [Hr0 Et0]].
    apply scan_In in Hr0. rewrite <- Et0, Et, Hnone in Hr0. exact Hr0. }
  destruct (report_lists_from_results _ _ _ Hrun) as [Ht [He [Hm [Ho Hc]]]].
  assert (Hsub : forall l, incl l (all_results out) ->
                           ~ In ticker0 (map ticker l)).
  { intros l Hl Hin. apply Hall. apply in_map_iff in Hin.
    destruct Hin as [r [Et Hr]]. apply in_map_iff. exists r.
    split; [exact Et | now apply Hl]. }
  repeat split; try (now apply Hsub); try exact Hall.
  intros day Hday Hin. apply Hall. apply in_map_iff in Hin.
  destruct Hin as [e [<- He']]. exact (Hc day e Hday He').
Qed.

(** C1: if the latest close of a ticker exceeds [max_stock_price],
    [get_stock_data] returns no signal for it, and the ticker appears
    neither in the results of the run nor in any list of the report. *)
Theorem price_filter_excludes config ticker0 hist current :
  history (yf_Ticker ticker0) = OK hist ->
  iloc_from_end hist 0 = OK current ->
  get (max_stock_price config) 50 < Close current ->
  get_stock_data ticker0 config = None
  /\ (forall universe, ~ In ticker0 (map ticker (scan config universe)))
  /\ forall universe out,
       run_research config universe = OK out ->
       ~ In ticker0 (map ticker (all_results out))
       /\ ~ In ticker0 (map ticker (top_picks out))
       /\ ~ In ticker0 (map ticker (cat_earnings_plays (categories out)))
       /\ ~ In ticker0 (map ticker (cat_momentum_plays (categories out)))
       /\ ~ In ticker0 (map ticker (cat_oversold_plays (categories out)))
       /\ (forall day, In day (earnings_calendar out) ->
                       ~ In ticker0 (map ce_ticker (cd_earnings day))).
Proof.
  intros Hhist Hcur Hprice.
  assert (Hnone : get_stock_data ticker0 config = None).
  { unfold get_stock_data, stock_data_body. rewrite Hhist. cbn [bind].
    destruct (List.length hist <? 5)%nat; [reflexivity |].
    rewrite Hcur. cbn [bind].
    destruct (if (1 <? List.length hist)%nat then iloc_from_end hist 1
              else OK current) as [prev|]; cbn [bind]; [| reflexivity].
    apply Qgtb_true in Hprice. now rewrite Hprice. }
  pose proof (process_future_no_data config ticker0 Hnone) as Hfut.
  split; [exact Hnone |]. split.
  - intros universe Hin. apply in_map_iff in Hin. destruct Hin as [r [Et Hr]].
    apply scan_In in Hr. rewrite Et, Hfut in Hr. exact Hr.
  - intros universe out. now apply absent_from_report.
Qed.

(** With fewer than 15 bars there is no RSI. *)
Lemma short_history_null_rsi ticker0 config hist data :
  history (yf_Ticker ticker0) = OK hist ->
  (List.length hist < 15)%nat ->
  get_stock_data ticker0 config = Some data ->
  rsi data = None.
Proof.
  intros Hhist Hlen. unfold get_stock_data, stock_data_body.
  rewrite Hhist. cbn [bind]. intros H.
  destruct (List.length hist <? 5)%nat; [discriminate H |].
  destruct (iloc_from_end hist 0) as [current|]; cbn [bind] in H;
    [| discriminate H].
  destruct (if (1 <? List.length hist)%nat then iloc_from_end hist 1 else OK current)
    as [prev|]; cbn [bind] in H; [| discriminate H].
  destruct (Qgtb (Close current) (get (max_stock_price config) 50));
    [discriminate H |].
  destruct (if (5 <=? List.length hist)%nat then _ else _) as [m|];
    cbn [bind] in H; [| discriminate H].
  destruct (calendar_earnings (yf_Ticker ticker0)) as [ed dte0].
  ok_inj_some H. cbn [rsi].
  unfold calculate_rsi. rewrite length_map.
  replace (List.length hist <? 14 + 1)%nat with true; [reflexivity |].
  symmetry. apply Nat.ltb_lt. lia.
Qed.

(** C10: for every signal whose RSI is null, [calculate_entry_exit], and
    hence [generate_trade_idea], raises a type error when it compares the
    RSI with 50, so the orchestrator's exception handler leaves the ticker
    out of the results of the run. *)
Theorem null_rsi_excluded config ticker0 data :
  get_stock_data ticker0 config = Some data ->
  rsi data = None ->
  (forall opts, calculate_entry_exit data opts = Raise TypeError)
  /\ (forall score reasons,
        generate_trade_idea data score reasons = Raise TypeError)
  /\ (forall results, process_future config results ticker0 = results)
  /\ (forall universe, ~ In ticker0 (map ticker (scan config universe)))
  /\ (forall universe out,
        run_research config universe = OK out ->
        ~ In ticker0 (map ticker (all_results out))).
Proof.
  intros Hdata Hrsi.
  destruct (get_stock_data_fresh _ _ _ Hdata) as [_ Hidea].
  pose proof (process_future_null_rsi config [] ticker0 data Hdata Hrsi) as Hfut.
  split; [| split; [| split; [| split]]].
  - intros opts. now apply calculate_entry_exit_null_rsi.
  - intros s rs. now apply generate_trade_idea_null_rsi.
  - intros results. now apply (process_future_null_rsi config results ticker0 data).
  - intros universe Hin. apply in_map_iff in Hin. destruct Hin as [r [Et Hr]].
    apply scan_In in Hr. rewrite Et, Hfut in Hr. exact Hr.
  - intros universe out Hrun.
    exact (proj1 (absent_from_report config universe out ticker0 Hfut Hrun)).
Qed.

End PipelineFacts.

(** ** Options snapshot *)

Lemma round_compat x y n : x == y -> round x n = round y n.
Proof.
  intros E. unfold round, round_half_even.
  set (s := inject_Z (10 ^ Z.of_nat n)).
  assert (Es : x * s == y * s) by now rewrite E.
  assert (Ef : Qfloor (x * s) = Qfloor (y * s)) by now rewrite Es.
  rewrite Ef.
  assert (Er : x * s - inject_Z (Qfloor (y * s))
               == y * s - inject_Z (Qfloor (y * s))) by now rewrite Es.
  assert (H1 : Qle_bool (1 # 2) (x * s - inject_Z (Qfloor (y * s)))
               = Qle_bool (1 # 2) (y * s - inject_Z (Qfloor (y * s))))
    by (apply Qleb_comp; [reflexivity | exact Er]).
  assert (H2 : Qle_bool (x * s - inject_Z (Qfloor (y * s))) (1 # 2)
               = Qle_bool (y * s - inject_Z (Qfloor (y * s))) (1 # 2))
    by (apply Qleb_comp; [exact Er | reflexivity]).
  unfold Qltb. rewrite H1, H2. reflexivity.
Qed.

(** [round] gives a neighbouring whole number of units. *)
Lemma round_half_even_near y :
  y - 1 < inject_Z (round_half_even y) /\ inject_Z (round_half_even y) < y + 1.
Proof.
  pose proof (Qfloor_le y) as Hle. pose proof (Qlt_floor y) as Hlt.
  rewrite inject_Z_plus in Hlt. change (inject_Z 1) with 1 in Hlt.
  unfold round_half_even. cbv zeta.
  destruct (Qltb (y - inject_Z (Qfloor y)) (1 # 2)) eqn:E1.
  - split; lra.
  - assert (Hhalf : ~ y - inject_Z (Qfloor y) < 1 # 2).
    { intros C. apply Qltb_true in C. rewrite C in E1. discriminate E1. }
    assert (Hup : y - 1 < inject_Z (Qfloor y + 1)
                  /\ inject_Z (Qfloor y + 1) < y + 1).
    { rewrite inject_Z_plus. change (inject_Z 1) with 1. split; lra. }
    destruct (Qltb (1 # 2) (y - inject_Z (Qfloor y))); [exact Hup |].
    destruct (Z.even (Qfloor y)); [split; lra | exact Hup].
Qed.

Lemma rounded_to_compat n x x' y :
  x == x' -> rounded_to n x y -> rounded_to n x' y.
Proof.
  intros E [Hk Hd]. split; [exact Hk |]. now rewrite <- E.
Qed.

Lemma round_rounded_to x n : rounded_to n x (round x n).
Proof.
  unfold rounded_to, round. cbv zeta.
  set (p := (10 ^ Z.of_nat n)%Z).
  assert (Hp : (0 < p)%Z) by (apply Z.pow_pos_nonneg; lia).
  assert (Hs : 0 < inject_Z p) by (unfold Qlt; simpl; lia).
  split; [eexists; reflexivity |].
  destruct (round_half_even_near (x * inject_Z p)) as [H1 H2].
  set (q := inject_Z (round_half_even (x * inject_Z p))) in *.
  assert (A : q / inject_Z p < x + 1 / inject_Z p).
  { apply Qlt_shift_div_r; [exact Hs |].
    setoid_replace ((x + 1 / inject_Z p) * inject_Z p)
      with (x * inject_Z p + 1) by (field; lra).
    exact H2. }
  assert (B : x - 1 / inject_Z p < q / inject_Z p).
  { apply Qlt_shift_div_l; [exact Hs |].
    setoid_replace ((x - 1 / inject_Z p) * inject_Z p)
      with (x * inject_Z p - 1) by (field; lra).
    exact H1. }
  apply Qabs_Qlt_condition. split; lra.
Qed.

(** The smallest of a column is one of its values and bounds them all. *)
Lemma fold_Qmin_In l a :
  fold_left Qmin l a = a \/ In (fold_left Qmin l a) l.
Proof.
  revert a. induction l as [|x l IH]; intros a; simpl; [now left |].
  destruct (IH (Qmin a x)) as [E | H]; [| right; now right].
  rewrite E. unfold Qmin, GenericMinMax.gmin.
  destruct (a ?= x); [now left | now left | right; now left].
Qed.

Lemma fold_Qmin_le l a :
  fold_left Qmin l a <= a /\ forall x, In x l -> fold_left Qmin l a <= x.
Proof.
  revert a. induction l as [|x l IH]; intros a; simpl.
  - split; [apply Qle_refl | intros x []].
  - destruct (IH (Qmin a x)) as [H1 H2]. split.
    + apply Qle_trans with (Qmin a x); [exact H1 | apply Q.le_min_l].
    + intros y [<- | Hy]; [| now apply H2].
      apply Qle_trans with (Qmin a x); [exact H1 | apply Q.le_min_r].
Qed.

Lemma minimum_In x l : In (minimum (x :: l)) (x :: l).
Proof.
  simpl. destruct (fold_Qmin_In l x) as [-> | H]; [now left | now right].
Qed.

Lemma minimum_le l x : In x l -> minimum l <= x.
Proof.
  destruct l as [|a l]; [intros [] |]. simpl.
  destruct (fold_Qmin_le l a) as [H1 H2].
  intros [<- | Hx]; [exact H1 | now apply H2].
Qed.

(** A non-empty table has a nearest row, whatever the order among equally
    near ones. *)
Lemma nearest_rows_nonempty atm r rows : nearest_rows atm (r :: rows) <> [].
Proof.
  pose proof (minimum_In (Qabs (strike r - atm)) (distances atm rows)) as H.
  change (In (minimum (distances atm (r :: rows))) (distances atm (r :: rows)))
    in H.
  unfold distances in H at 2. apply in_map_iff in H.
  destruct H as [r0 [E Hr0]].
  assert (Hin : In r0 (nearest_rows atm (r :: rows))).
  { unfold nearest_rows. apply filter_In. split; [exact Hr0 |].
    apply Qle_bool_iff. rewrite E. apply Qle_refl. }
  intros C. rewrite C in Hin. exact Hin.
Qed.

Lemma nearest_strike_nonempty tie atm r rows :
  exists best, nearest_strike tie atm (r :: rows) = Some best.
Proof.
  unfold nearest_strike. cbv zeta.
  destruct (nth_error _ _) as [best|]; [now exists best |].
  pose proof (nearest_rows_nonempty atm r rows) as H.
  destruct (nearest_rows atm (r :: rows)) as [|best l]; [now destruct H |].
  now exists best.
Qed.

Lemma nearest_strike_nearest tie atm rows best :
  nearest_strike tie atm rows = Some best -> nearest_to atm rows best.
Proof.
  unfold nearest_strike. cbv zeta. intros H.
  assert (Hin : In best (nearest_rows atm rows)).
  { destruct (nth_error _ _) as [r|] eqn:E.
    - injection H as <-. exact (nth_error_In _ _ E).
    - destruct (nearest_rows atm rows) as [|r l]; [discriminate H |].
      injection H as <-. now left. }
  unfold nearest_rows in Hin. apply filter_In in Hin.
  destruct Hin as [Hb Hle]. apply Qle_bool_iff in Hle.
  split; [exact Hb |]. intros r' Hr'.
  apply Qle_trans with (minimum (distances atm rows)); [exact Hle |].
  apply minimum_le. unfold distances. apply in_map_iff. now exists r'.
Qed.

(** Of two strikes equally near, either may be taken. *)
Lemma nearest_strike_tie :
  nearest_strike (fun _ => 0%nat) 10 [quote 9 1.2 0.12; quote 11 1.5 0.15]
  = Some (quote 9 1.2 0.12)
  /\ nearest_strike (fun _ => 1%nat) 10 [quote 9 1.2 0.12; quote 11 1.5 0.15]
     = Some (quote 11 1.5 0.15).
Proof. split; vm_compute; reflexivity. Qed.

Section OptionsFacts.

Variable today : Z.
Variable strptime : string -> option Z.
Variable np_sqrt : Q -> Q.
Variable argsort_tie : list Q -> nat.

Local Abbreviation scan_expirations := (scan_expirations today strptime).
Local Abbreviation options_data_body :=
  (options_data_body today strptime np_sqrt argsort_tie).
Local Abbreviation get_options_data :=
  (get_options_data today strptime np_sqrt argsort_tie).
Local Abbreviation chosen_expiration := (chosen_expiration today strptime).
Local Abbreviation is_future := (is_future today strptime).
Local Abbreviation is_weekly := (is_weekly today strptime).

(** The loop finds the first future date and the first 5-10-day-out
    date. *)
Lemma scan_expirations_finds dates nearest weekly :
  Forall (fun s => strptime s <> None) dates ->
  scan_expirations dates (nearest, weekly)
  = OK (or_else nearest (find is_future dates),
        or_else weekly (find is_weekly dates)).
Proof.
  intros Hall. revert nearest weekly.
  induction Hall as [|s rest Hs _ IH]; intros nearest weekly.
  - simpl. now destruct nearest, weekly.
  - simpl. unfold parse_date, is_future, is_weekly, days_out.
    destruct (strptime s) as [d|]; [| now destruct Hs]. cbn [bind option_map].
    destruct (1 <=? d - today)%Z; cbn [andb].
    + destruct nearest, weekly; rewrite IH; cbn [or_else];
        destruct ((5 <=? d - today)%Z && (d - today <=? 10)%Z);
        reflexivity.
    + rewrite IH. reflexivity.
Qed.

(** What a populated snapshot was computed from. *)
Lemma get_options_data_populated stock price config snap :
  get_options_data stock price config = Some snap ->
  exists dates target chain call_atm put_atm exp_date,
    option_dates stock = OK dates
    /\ option_chain stock target = OK chain
    /\ calls chain <> [] /\ puts chain <> []
    /\ nearest_strike argsort_tie (inject_Z (round_half_even price))
         (calls chain)
       = Some call_atm
    /\ nearest_strike argsort_tie (inject_Z (round_half_even price))
         (puts chain)
       = Some put_atm
    /\ strptime target = Some exp_date
    /\ expiration snap = target
    /\ dte snap = (exp_date - today)%Z
    /\ expected_move_pct snap
       = round ((impliedVolatility call_atm + impliedVolatility put_atm) / 2
                * np_sqrt (inject_Z (exp_date - today) / 365) * 100) 1
    /\ expected_move_dollars snap
       = round (price
                * ((impliedVolatility call_atm + impliedVolatility put_atm) / 2
                   * np_sqrt (inject_Z (exp_date - today) / 365) * 100 / 100)) 2.
Proof.
  unfold get_options_data, options_data_body. intros H.
  destruct (option_dates stock) as [dates|]; cbn [bind] in H; [| discriminate H].
  destruct dates as [|d0 ds]; [discriminate H |].
  destruct (scan_expirations _ _) as [[nearest weekly]|]; cbn [bind] in H;
    [| discriminate H].
  destruct (if truthy_str weekly then weekly else nearest) as [target|];
    [| discriminate H].
  destruct (nonempty target); cbn [negb] in H; [| discriminate H].
  destruct (option_chain stock target) as [chain|] eqn:Echain; cbn [bind] in H;
    [| discriminate H].
  destruct (calls chain) as [|c cs] eqn:Ec; [discriminate H |].
  destruct (puts chain) as [|p ps] eqn:Ep; [discriminate H |].
  destruct (nearest_strike_nonempty argsort_tie
              (inject_Z (round_half_even price)) c cs)
    as [call_atm Hc].
  destruct (nearest_strike_nonempty argsort_tie
              (inject_Z (round_half_even price)) p ps)
    as [put_atm Hp].
  rewrite Hc, Hp in H. unfold parse_date in H.
  destruct (strptime target) as [exp_date|] eqn:Es; cbn [bind] in H;
    [| discriminate H].
  ok_inj_some H.
  exists (d0 :: ds), target, chain, call_atm, put_atm, exp_date.
  rewrite Ec, Ep.
  repeat split; try reflexivity; try assumption; discriminate.
Qed.

(** C8 (as amended): for every populated snapshot, the expected-move
    dollar value is price x avg IV x sqrt(DTE / 365) rounded to two
    decimals, and the expected-move percentage is avg IV x sqrt(DTE / 365)
    x 100 rounded to one decimal, where avg IV is the mean of the implied
    volatilities of a call and of a put of the chosen expiration whose
    strikes are nearest to the price rounded to a whole number, and DTE is
    the number of days to the chosen expiration. *)
Theorem expected_move_rounded stock price config snap :
  get_options_data stock price config = Some snap ->
  exists chain exp_date call_atm put_atm,
    option_chain stock (expiration snap) = OK chain
    /\ strptime (expiration snap) = Some exp_date
    /\ dte snap = (exp_date - today)%Z
    /\ nearest_to (inject_Z (round_half_even price)) (calls chain) call_atm
    /\ nearest_to (inject_Z (round_half_even price)) (puts chain) put_atm
    /\ rounded_to 2
         (expected_move np_sqrt price
            ((impliedVolatility call_atm + impliedVolatility put_atm) / 2)
            (dte snap))
         (expected_move_dollars snap)
    /\ rounded_to 1
         (expected_move_percent np_sqrt
            ((impliedVolatility call_atm + impliedVolatility put_atm) / 2)
            (dte snap))
         (expected_move_pct snap).
Proof.
  intros H. apply get_options_data_populated in H.
  destruct H as (dates & target & chain & call_atm & put_atm & exp_date
                 & _ & Hchain & _ & _ & Hc & Hp & Hs & He & Hd & Hpct & Hdol).
  exists chain, exp_date, call_atm, put_atm. rewrite He, Hd.
  split; [exact Hchain |]. split; [exact Hs |]. split; [reflexivity |].
  split; [exact (nearest_strike_nearest _ _ _ _ Hc) |].
  split; [exact (nearest_strike_nearest _ _ _ _ Hp) |].
  split.
  - rewrite Hdol. eapply rounded_to_compat; [| apply round_rounded_to].
    unfold expected_move. field.
  - rewrite Hpct. apply round_rounded_to.
Qed.

Lemma chosen_expiration_In dates target :
  chosen_expiration dates = Some target -> In target (firstn 5 dates).
Proof.
  unfold chosen_expiration.
  destruct (find is_weekly (firstn 5 dates)) as [w|] eqn:Ew.
  - intros [= <-]. now apply find_some in Ew.
  - intros Ef. now apply find_some in Ef.
Qed.

(** [weekly_exp or nearest_exp] is the chosen expiration: a date that
    parses is not the empty string. *)
Lemma target_is_chosen dates :
  strptime EmptyString = None ->
  Forall (fun s => strptime s <> None) (firstn 5 dates) ->
  (if truthy_str (find is_weekly (firstn 5 dates))
   then find is_weekly (firstn 5 dates)
   else find is_future (firstn 5 dates))
  = chosen_expiration dates.
Proof.
  intros Hempty Hall. unfold chosen_expiration.
  destruct (find is_weekly (firstn 5 dates)) as [w|] eqn:Ew; [| reflexivity].
  apply find_some in Ew. destruct Ew as [Hin _].
  rewrite Forall_forall in Hall. specialize (Hall w Hin).
  destruct w; [now destruct Hall | reflexivity].
Qed.

(** C7 (as amended): when the provider lists the expirations, the first
    five dates are well formed and the chain of the chosen expiration is
    fetched, [get_options_data] returns a null snapshot if and only if the
    chain is empty (no expirations, or no future expiration among the
    first 5) or the call table or the put table of the chosen expiration
    is empty; with both tables non-empty the snapshot is populated. *)
Theorem get_options_data_null_iff stock price config dates :
  strptime EmptyString = None ->
  option_dates stock = OK dates ->
  Forall (fun s => strptime s <> None) (firstn 5 dates) ->
  (forall target, chosen_expiration dates = Some target ->
                  exists chain, option_chain stock target = OK chain) ->
  get_options_data stock price config = None
  <-> chain_rejected today strptime either_empty stock dates.
Proof.
  intros Hempty Hdates Hall Hfetch.
  unfold get_options_data, options_data_body, chain_rejected.
  rewrite Hdates. cbn [bind].
  destruct dates as [|d0 ds]; [split; [now left | reflexivity] |].
  rewrite scan_expirations_finds by exact Hall. cbn [bind or_else].
  rewrite (target_is_chosen _ Hempty Hall).
  destruct (chosen_expiration (d0 :: ds)) as [target|] eqn:Et;
    [| split; [right; now left | reflexivity]].
  pose proof (chosen_expiration_In _ _ Et) as Hin.
  rewrite Forall_forall in Hall. specialize (Hall target Hin).
  assert (Hne : nonempty target = true).
  { destruct target; [now destruct Hall | reflexivity]. }
  rewrite Hne. cbn [negb].
  destruct (Hfetch target eq_refl) as [chain Hchain].
  rewrite Hchain. cbn [bind].
  destruct (calls chain) as [|c cs] eqn:Ec.
  { split; [| reflexivity]. intros _. right. right.
    exists target, chain. repeat split; try assumption. now left. }
  destruct (puts chain) as [|p ps] eqn:Ep.
  { split; [| reflexivity]. intros _. right. right.
    exists target, chain. repeat split; try assumption. now right. }
  unfold parse_date. destruct (strptime target) as [exp_date|];
    [| now destruct Hall].
  cbn [bind]. split; [discriminate |].
  intros [Hnil | [Hnone | (t & ch & Ht & Hch & Hside)]].
  - discriminate Hnil.
  - discriminate Hnone.
  - injection Ht as <-. rewrite Hchain in Hch. injection Hch as <-.
    destruct Hside as [Hside | Hside]; [rewrite Ec in Hside | rewrite Ep in Hside];
      discriminate Hside.
Qed.

End OptionsFacts.

(** ** Report categories *)

Lemma option_eqb_refl {A} (eqb : A -> A -> bool) x :
  (forall a, eqb a a = true) -> option_eqb eqb x x = true.
Proof. intros H. destruct x; simpl; auto. Qed.

Lemma list_eqb_refl {A} (eqb : A -> A -> bool) l :
  (forall a, eqb a a = true) -> list_eqb eqb l l = true.
Proof. intros H. induction l; simpl; [reflexivity | now rewrite H, IHl]. Qed.

Lemma suggestion_eqb_refl a : suggestion_eqb a a = true.
Proof. unfold suggestion_eqb. now rewrite !Qeq_bool_refl, !Z.eqb_refl. Qed.

Lemma options_eqb_refl a : options_eqb a a = true.
Proof.
  unfold options_eqb.
  rewrite String.eqb_refl, Z.eqb_refl, !Qeq_bool_refl.
  rewrite !(option_eqb_refl suggestion_eqb) by apply suggestion_eqb_refl.
  now rewrite !(option_eqb_refl Qeq_bool) by apply Qeq_bool_refl.
Qed.

Lemma sentiment_eqb_refl a : sentiment_eqb a a = true.
Proof.
  unfold sentiment_eqb, summary_eqb. rewrite Qeq_bool_refl, String.eqb_refl.
  destruct (s_summary a); simpl; [reflexivity | reflexivity |].
  now rewrite String.eqb_refl.
Qed.

Lemma news_eqb_refl a : news_eqb a a = true.
Proof. unfold news_eqb. now rewrite !String.eqb_refl. Qed.

Lemma reason_eqb_refl a : reason_eqb a a = true.
Proof.
  destruct a; simpl;
    rewrite ?Z.eqb_refl, ?Qeq_bool_refl, ?Bool.eqb_reflx, ?String.eqb_refl;
    reflexivity.
Qed.

Lemma trade_idea_eqb_refl a : trade_idea_eqb a a = true.
Proof.
  unfold trade_idea_eqb, entry_exit_eqb.
  rewrite (list_eqb_refl reason_eqb) by apply reason_eqb_refl.
  rewrite (option_eqb_refl suggestion_eqb) by apply suggestion_eqb_refl.
  rewrite !Qeq_bool_refl, !String.eqb_refl.
  assert (He : expiry_eqb (ti_expiry a) (ti_expiry a) = true).
  { destruct (ti_expiry a) as [d | s n |]; simpl; [| | reflexivity].
    - apply option_eqb_refl, String.eqb_refl.
    - now rewrite String.eqb_refl, Z.eqb_refl. }
  rewrite He.
  destruct (ti_direction a), (ti_bias a), (ee_direction (ti_entry_exit a));
    reflexivity.
Qed.

(** A dict is equal to itself. *)
Lemma data_eqb_refl a : data_eqb a a = true.
Proof.
  unfold data_eqb.
  rewrite !String.eqb_refl, !Qeq_bool_refl, !Z.eqb_refl.
  rewrite !(option_eqb_refl Qeq_bool) by apply Qeq_bool_refl.
  rewrite !(option_eqb_refl String.eqb) by apply String.eqb_refl.
  rewrite (option_eqb_refl Z.eqb) by apply Z.eqb_refl.
  rewrite (option_eqb_refl options_eqb) by apply options_eqb_refl.
  rewrite (list_eqb_refl news_eqb) by apply news_eqb_refl.
  rewrite sentiment_eqb_refl.
  rewrite (option_eqb_refl (list_eqb reason_eqb))
    by (intros l; apply list_eqb_refl, reason_eqb_refl).
  rewrite (option_eqb_refl trade_idea_eqb) by apply trade_idea_eqb_refl.
  now destruct (trend a).
Qed.

(** Equal dicts report the same days to earnings. *)
Lemma data_eqb_days a b :
  data_eqb a b = true -> days_to_earnings a = days_to_earnings b.
Proof.
  unfold data_eqb. rewrite !andb_true_iff.
  intros H. decompose [and] H.
  match goal with
  | E : option_eqb Z.eqb _ _ = true |- _ =>
      destruct (days_to_earnings a), (days_to_earnings b);
      simpl in E; try discriminate E; try reflexivity;
      apply Z.eqb_eq in E; now subst
  end.
Qed.

Lemma soon_iff r :
  soon r = true
  <-> exists d, days_to_earnings r = Some d /\ (1 <= d <= 7)%Z.
Proof.
  unfold soon, truthy_int, get. destruct (days_to_earnings r) as [d|].
  - rewrite !andb_true_iff, negb_true_iff, Z.eqb_neq, !Z.leb_le. split.
    + intros [[H0 H1] H2]. exists d. split; [reflexivity | lia].
    + intros [d' [[= <-] H]]. lia.
  - simpl. split; [discriminate | intros [d [H _]]; discriminate H].
Qed.

(** [r not in earnings_plays], for a result [r], is the negation of that
    test. *)
Lemma py_in_earnings_plays results r :
  In r results -> py_in r (earnings_plays results) = soon r.
Proof.
  intros Hin. unfold py_in, earnings_plays. fold soon.
  destruct (soon r) eqn:Er.
  - apply existsb_exists. exists r. split; [| apply data_eqb_refl].
    apply filter_In. now split.
  - apply not_true_iff_false. intros H. apply existsb_exists in H.
    destruct H as [x [Hx Heq]]. apply filter_In in Hx. destruct Hx as [_ Hs].
    apply data_eqb_days in Heq. unfold soon in Er, Hs.
    rewrite Heq, Hs in Er. discriminate Er.
Qed.

(** What the three comprehensions select. *)
Lemma categories_select results :
  earnings_plays results = filter soon results
  /\ momentum_plays results
     = filter (fun r => Qgeb (Qabs (momentum_5d r)) 5 && negb (soon r)) results
  /\ oversold_plays results
     = filter (fun r => truthy_num (rsi r) && Qle_bool (get (rsi r) 0) 35
                        && negb (soon r)) results.
Proof.
  split; [reflexivity |]. split.
  - unfold momentum_plays. apply filter_ext_in. intros r Hr.
    now rewrite (py_in_earnings_plays _ _ Hr).
  - unfold oversold_plays. apply filter_ext_in. intros r Hr.
    now rewrite (py_in_earnings_plays _ _ Hr).
Qed.

(** C6: a result whose earnings are today (0 days out) is left out of
    [earnings_plays], which the specification has it in, and is therefore
    kept in [momentum_plays] and [oversold_plays], which the specification
    has it out of. *)
Theorem earnings_today_not_an_earnings_play :
  Spec.in_earnings_plays earnings_today_result = true
  /\ Spec.in_momentum_plays earnings_today_result = false
  /\ Spec.in_oversold_plays earnings_today_result = false
  /\ earnings_plays [earnings_today_result] = []
  /\ momentum_plays [earnings_today_result] = [earnings_today_result]
  /\ oversold_plays [earnings_today_result] = [earnings_today_result].
Proof. repeat split; vm_compute; reflexivity. Qed.

(** ** Journal persister *)

Lemma firstn_Sorted {A} (R : A -> A -> Prop) n l :
  Sorted R l -> Sorted R (firstn n l).
Proof.
  revert l. induction n as [|n IH]; intros l H; [constructor |].
  destruct l as [|x l]; [constructor |]. simpl.
  inversion H as [|? ? Hs Hh]; subst. constructor; [now apply IH |].
  destruct l as [|y l]; [destruct n; constructor |].
  inversion Hh; subst. destruct n; constructor. assumption.
Qed.

Lemma slice_to_Sorted {A} (R : A -> A -> Prop) (l : list A) n :
  Sorted R l -> Sorted R (slice_to l n).
Proof. unfold slice_to. destruct (0 <=? n)%Z; apply firstn_Sorted. Qed.

Lemma slice_to_length {A} (l : list A) n :
  (0 <= n)%Z -> (List.length (slice_to l n) <= Z.to_nat n)%nat.
Proof.
  intros H. unfold slice_to. apply Z.leb_le in H. rewrite H.
  rewrite length_firstn. apply Nat.le_min_l.
Qed.

Lemma slice_to_cons {A} (x : A) l n :
  (1 <= n)%Z -> slice_to (x :: l) n = x :: firstn (Z.to_nat n - 1) l.
Proof.
  intros H. unfold slice_to.
  replace (0 <=? n)%Z with true by (symmetry; apply Z.leb_le; lia).
  destruct (Z.to_nat n) as [|k] eqn:E; [lia |].
  simpl. now rewrite Nat.sub_0_r.
Qed.

Lemma stamp_count_none t l l' :
  incl l' l -> stamp_count t l = 0%nat -> stamp_count t l' = 0%nat.
Proof.
  unfold stamp_count. intros Hincl H.
  apply length_zero_iff_nil in H. apply length_zero_iff_nil.
  destruct (filter _ l') as [|e rest] eqn:E; [reflexivity |].
  assert (Hin : In e (filter (fun e => option_eqb String.eqb (je_created_at e) (Some t)) l')).
  { rewrite E. now left. }
  apply filter_In in Hin. destruct Hin as [Hin Hp].
  assert (Hin' : In e (filter (fun e => option_eqb String.eqb (je_created_at e) (Some t)) l)).
  { apply filter_In. split; [now apply Hincl | exact Hp]. }
  rewrite H in Hin'. destruct Hin'.
Qed.

Section JournalFacts.

Variable openai_key : bool.
Variable now : string.
Variable journal_provider : Output -> result (option string).
Variable OPENAI_MODEL : string.
Variable RESEARCH_JOURNAL_MAX_ENTRIES : option Z.

Local Abbreviation append_research_journal :=
  (append_research_journal openai_key now journal_provider OPENAI_MODEL
     RESEARCH_JOURNAL_MAX_ENTRIES).
Local Abbreviation new_entry :=
  (new_entry openai_key now journal_provider OPENAI_MODEL).
Local Abbreviation stamp_of := (stamp_of now).
Local Abbreviation max_entries := (max_entries RESEARCH_JOURNAL_MAX_ENTRIES).
Local Abbreviation persist_runs :=
  (persist_runs openai_key now journal_provider OPENAI_MODEL
     RESEARCH_JOURNAL_MAX_ENTRIES).
Local Abbreviation clock_monotone := (clock_monotone now).

Lemma new_entry_stamp output config :
  je_created_at (new_entry output config) = Some (stamp_of output).
Proof.
  unfold new_entry, add_ai_journal, stamp_of.
  destruct (openai_key && get (use_ai_sentiment config) true); [| reflexivity].
  destruct (journal_provider output) as [[note|]|]; reflexivity.
Qed.

Lemma append_research_journal_unfold entries output config :
  append_research_journal entries output config
  = slice_to (dedupe entries (new_entry output config)) max_entries.
Proof. reflexivity. Qed.

Lemma dedupe_kept entries entry t :
  je_created_at entry = Some t ->
  dedupe entries entry = entry :: kept entries t.
Proof.
  intros E. unfold dedupe, kept. rewrite E.
  destruct entries as [|first rest]; [reflexivity |].
  now destruct (option_eqb String.eqb (je_created_at first) (Some t)).
Qed.

Lemma kept_incl entries t : incl (kept entries t) entries.
Proof.
  unfold kept. destruct entries as [|first rest]; [easy |].
  destruct (option_eqb _ _ _); [| easy]. intros x Hx. now right.
Qed.

Lemma option_eqb_string_true x t :
  option_eqb String.eqb x (Some t) = true <-> x = Some t.
Proof.
  destruct x as [s|]; simpl; [| split; discriminate].
  rewrite String.eqb_eq. split; [now intros -> | now intros [= ->]].
Qed.

Lemma stamp_of_same output1 output2 :
  generated_at output1 = generated_at output2 ->
  stamp_of output1 = stamp_of output2.
Proof. unfold stamp_of. now intros ->. Qed.

Lemma append_research_journal_cons entries output config :
  (1 <= max_entries)%Z ->
  append_research_journal entries output config
  = new_entry output config
    :: firstn (Z.to_nat max_entries - 1) (kept entries (stamp_of output)).
Proof.
  intros H. rewrite append_research_journal_unfold.
  rewrite (dedupe_kept _ _ _ (new_entry_stamp output config)).
  now apply slice_to_cons.
Qed.

Lemma kept_behind_head e l t :
  je_created_at e = Some t -> kept (e :: l) t = l.
Proof.
  intros E. unfold kept.
  now rewrite (proj2 (option_eqb_string_true _ _) E).
Qed.

Lemma kept_other entries t :
  head_stamp entries <> Some t -> kept entries t = entries.
Proof.
  unfold kept, head_stamp. destruct entries as [|first rest]; [reflexivity |].
  intros H. destruct (option_eqb _ _ _) eqn:E; [| reflexivity].
  apply option_eqb_string_true in E. now destruct H.
Qed.

Lemma stamp_count_cons e l t :
  je_created_at e = Some t -> stamp_count t (e :: l) = S (stamp_count t l).
Proof.
  intros E. unfold stamp_count. simpl.
  now rewrite (proj2 (option_eqb_string_true _ _) E).
Qed.

(** C3 (as amended): with a maximum entry count of at least 1, for every
    journal state an entry whose created_at equals that of the newest
    entry replaces it in place and any other entry is prepended (older
    entries are not looked at); hence a second run with the same
    generated_at leaves the journal as the first run alone with the second
    report would, and the journal holds exactly one entry for that
    timestamp if it held none before. *)
Theorem journal_rerun_replaces entries output1 config1 output2 config2 :
  (1 <= max_entries)%Z ->
  generated_at output1 = generated_at output2 ->
  (forall first rest,
      entries = first :: rest ->
      je_created_at first = Some (stamp_of output2) ->
      append_research_journal entries output2 config2
      = slice_to (new_entry output2 config2 :: rest) max_entries)
  /\ (head_stamp entries <> Some (stamp_of output2) ->
      append_research_journal entries output2 config2
      = slice_to (new_entry output2 config2 :: entries) max_entries)
  /\ append_research_journal
       (append_research_journal entries output1 config1) output2 config2
     = append_research_journal entries output2 config2
  /\ (stamp_count (stamp_of output2) entries = 0%nat ->
      stamp_count (stamp_of output2)
        (append_research_journal
           (append_research_journal entries output1 config1) output2 config2)
      = 1%nat).
Proof.
  intros Hmax Hgen. pose proof (stamp_of_same _ _ Hgen) as Hst.
  assert (Htwice :
            append_research_journal
              (append_research_journal entries output1 config1) output2 config2
            = append_research_journal entries output2 config2).
  { rewrite (append_research_journal_cons entries output1 config1 Hmax).
    rewrite !(append_research_journal_cons _ output2 config2 Hmax).
    rewrite kept_behind_head
      by (rewrite new_entry_stamp; now rewrite Hst).
    rewrite Hst, firstn_firstn, Nat.min_id. reflexivity. }
  split; [| split; [| split]].
  - intros first rest -> Hfirst. rewrite append_research_journal_unfold.
    rewrite (dedupe_kept _ _ _ (new_entry_stamp output2 config2)).
    now rewrite kept_behind_head.
  - intros Hhead. rewrite append_research_journal_unfold.
    rewrite (dedupe_kept _ _ _ (new_entry_stamp output2 config2)).
    now rewrite kept_other.
  - exact Htwice.
  - intros Hfresh. rewrite Htwice.
    rewrite (append_research_journal_cons entries output2 config2 Hmax).
    rewrite stamp_count_cons by apply new_entry_stamp.
    f_equal. apply (stamp_count_none _ entries); [| exact Hfresh].
    intros x Hx. apply firstn_In in Hx. now apply kept_incl in Hx.
Qed.

Lemma newer_or_same_stamp a b c :
  je_created_at a = je_created_at b ->
  newer_or_same a c -> newer_or_same b c.
Proof. unfold newer_or_same. now intros ->. Qed.

Lemma slice_to_head {A} (x : A) l n :
  slice_to (x :: l) n = [] \/ exists l', slice_to (x :: l) n = x :: l'.
Proof.
  unfold slice_to. destruct (0 <=? n)%Z.
  - destruct (Z.to_nat n); [now left | right; eexists; reflexivity].
  - destruct (List.length (x :: l) - Z.to_nat (- n))%nat;
      [now left | right; eexists; reflexivity].
Qed.

(** One run keeps a newest-first journal newest-first, if its timestamp
    is not earlier than that of the head. *)
Lemma append_research_journal_newest_first entries output config :
  newest_first entries ->
  match head_stamp entries with
  | Some t => String.leb t (stamp_of output) = true
  | None => True
  end ->
  newest_first (append_research_journal entries output config)
  /\ (append_research_journal entries output config = []
      \/ head_stamp (append_research_journal entries output config)
         = Some (stamp_of output)).
Proof.
  intros Hsorted Hclock. rewrite append_research_journal_unfold.
  pose proof (new_entry_stamp output config) as He.
  rewrite (dedupe_kept _ _ _ He). split.
  - apply slice_to_Sorted. unfold kept.
    destruct entries as [|first rest]; [repeat constructor |].
    destruct (option_eqb _ _ _) eqn:E.
    + apply option_eqb_string_true in E.
      inversion Hsorted as [|? ? Hrest Hhd]; subst.
      constructor; [exact Hrest |].
      destruct rest as [|y rest]; constructor.
      inversion Hhd; subst.
      apply (newer_or_same_stamp first); [now rewrite E, He | assumption].
    + constructor; [exact Hsorted |]. constructor.
      unfold newer_or_same. rewrite He. simpl in Hclock.
      now destruct (je_created_at first).
  - destruct (slice_to_head (new_entry output config)
                (kept entries (stamp_of output)) max_entries)
      as [Hnil | [l' Hl']]; [now left | right].
    rewrite Hl'. exact He.
Qed.

Lemma clock_monotone_weaken t runs :
  clock_monotone (Some t) runs -> clock_monotone None runs.
Proof. destruct runs as [|run rest]; simpl; [easy | now intros [_ H]]. Qed.

Lemma persist_runs_newest_first runs : forall entries,
  newest_first entries ->
  clock_monotone (head_stamp entries) runs ->
  newest_first (persist_runs entries runs).
Proof.
  induction runs as [|[output config] rest IH]; intros entries Hs Hc.
  - exact Hs.
  - destruct Hc as [Hfirst Hrest]. cbn [fst] in Hfirst, Hrest.
    destruct (append_research_journal_newest_first entries output config
                Hs Hfirst) as [Hs' Hhead].
    change (persist_runs entries ((output, config) :: rest))
      with (persist_runs (append_research_journal entries output config) rest).
    apply IH; [exact Hs' |].
    destruct Hhead as [-> | ->]; [| exact Hrest].
    now apply clock_monotone_weaken in Hrest.
Qed.

Lemma persist_runs_bounded runs : forall entries,
  (0 <= max_entries)%Z ->
  runs <> [] ->
  (List.length (persist_runs entries runs) <= Z.to_nat max_entries)%nat.
Proof.
  induction runs as [|[output config] rest IH]; intros entries Hmax Hne.
  - now destruct Hne.
  - change (persist_runs entries ((output, config) :: rest))
      with (persist_runs (append_research_journal entries output config) rest).
    destruct rest as [|run rest'].
    + apply slice_to_length. exact Hmax.
    + apply IH; [exact Hmax | discriminate].
Qed.

(** C9 (as amended): with a non-negative maximum entry count, the journal
    stored by an invocation of the persister has at most that many
    entries, from any starting state and after any number of runs; and
    the entries stay ordered newest-first after any number of runs,
    provided the starting journal was newest-first and no run is stamped
    earlier than the one before it. *)
Theorem journal_bounded_newest_first :
  (0 <= max_entries)%Z ->
  (forall entries output config,
      (List.length (append_research_journal entries output config)
       <= Z.to_nat max_entries)%nat)
  /\ (forall entries runs,
        runs <> [] ->
        (List.length (persist_runs entries runs) <= Z.to_nat max_entries)%nat)
  /\ (forall entries runs,
        newest_first entries ->
        clock_monotone (head_stamp entries) runs ->
        newest_first (persist_runs entries runs)).
Proof.
  intros Hmax. split; [| split].
  - intros entries output config. apply slice_to_length. exact Hmax.
  - intros entries runs. now apply persist_runs_bounded.
  - intros entries runs. apply persist_runs_newest_first.
Qed.

End JournalFacts.

(** ** The theorems at concrete inputs *)

Lemma price_filter_excludes_witness :
  example_fetch "PRICEY" default_config = None
  /\ (forall universe,
        ~ In "PRICEY"%string (map ticker (example_scan default_config universe)))
  /\ forall universe out,
       example_run default_config universe = OK out ->
       ~ In "PRICEY"%string (map ticker (all_results out))
       /\ ~ In "PRICEY"%string (map ticker (top_picks out))
       /\ ~ In "PRICEY"%string
              (map ticker (cat_earnings_plays (categories out)))
       /\ ~ In "PRICEY"%string
              (map ticker (cat_momentum_plays (categories out)))
       /\ ~ In "PRICEY"%string
              (map ticker (cat_oversold_plays (categories out)))
       /\ (forall day, In day (earnings_calendar out) ->
                       ~ In "PRICEY"%string (map ce_ticker (cd_earnings day))).
Proof.
  apply (price_filter_excludes 0 example_strptime sqrt_approx first_listed example_market
           (fun _ => None) (fun batch => batch) false (fun _ _ => None)
           example_strftime "2026-01-02T19:00:00" default_config "PRICEY"
           (map flat_bar [58; 59; 60; 61; 60]) (flat_bar 60));
    reflexivity.
Defined.

Lemma null_rsi_excluded_witness :
  exists data,
    example_fetch "LIQUID" default_config = Some data
    /\ rsi data = None
    /\ (forall opts, calculate_entry_exit data opts = Raise TypeError)
    /\ (forall score reasons,
          generate_trade_idea data score reasons = Raise TypeError)
    /\ (forall universe,
          ~ In "LIQUID"%string (map ticker (example_scan default_config universe))).
Proof.
  eexists. split; [vm_compute; reflexivity |]. split; [reflexivity |].
  destruct (null_rsi_excluded 0 example_strptime sqrt_approx first_listed example_market
              (fun _ => None) (fun batch => batch) false (fun _ _ => None)
              example_strftime "2026-01-02T19:00:00" default_config "LIQUID" _
              ltac:(vm_compute; reflexivity) eq_refl)
    as (H1 & H2 & _ & H4 & _).
  split; [exact H1 |]. split; [exact H2 | exact H4].
Defined.

Lemma get_options_data_null_iff_witness :
  example_options liquid_stock 10 default_config = None
  <-> chain_rejected 0 example_strptime either_empty liquid_stock
        ["2026-01-09"%string; "2026-02-20"%string].
Proof.
  apply (get_options_data_null_iff 0 example_strptime sqrt_approx first_listed
           liquid_stock 10 default_config
           ["2026-01-09"%string; "2026-02-20"%string]).
  - reflexivity.
  - reflexivity.
  - repeat constructor; discriminate.
  - intros target _. eexists. reflexivity.
Defined.

Lemma get_options_data_one_sided :
  ~ (example_options one_sided_stock 10 default_config = None
     <-> chain_rejected 0 example_strptime both_empty one_sided_stock
           ["2026-01-09"%string; "2026-02-20"%string]).
Proof.
  intros [H _]. specialize (H eq_refl).
  destruct H as [H | [H | (target & chain & _ & Hchain & Hcalls & Hputs)]].
  - discriminate H.
  - discriminate H.
  - injection Hchain as <-. discriminate Hputs.
Qed.

Lemma expected_move_rounded_witness :
  exists snap chain exp_date call_atm put_atm,
    example_options liquid_stock 10 default_config = Some snap
    /\ option_chain liquid_stock (expiration snap) = OK chain
    /\ example_strptime (expiration snap) = Some exp_date
    /\ dte snap = (exp_date - 0)%Z
    /\ nearest_to (inject_Z (round_half_even 10)) (calls chain) call_atm
    /\ nearest_to (inject_Z (round_half_even 10)) (puts chain) put_atm
    /\ rounded_to 2
         (expected_move sqrt_approx 10
            ((impliedVolatility call_atm + impliedVolatility put_atm) / 2)
            (dte snap))
         (expected_move_dollars snap)
    /\ rounded_to 1
         (expected_move_percent sqrt_approx
            ((impliedVolatility call_atm + impliedVolatility put_atm) / 2)
            (dte snap))
         (expected_move_pct snap).
Proof.
  eexists.
  destruct (expected_move_rounded 0 example_strptime sqrt_approx first_listed
              liquid_stock 10 default_config _
              ltac:(vm_compute; reflexivity))
    as (chain & exp_date & call_atm & put_atm & H).
  exists chain, exp_date, call_atm, put_atm.
  split; [vm_compute; reflexivity | exact H].
Defined.

Lemma expected_move_not_exact :
  exists snap,
    example_options liquid_stock 10 default_config = Some snap
    /\ forall chain call_atm put_atm,
         option_chain liquid_stock (expiration snap) = OK chain ->
         In call_atm (calls chain) -> In put_atm (puts chain) ->
         ~ expected_move_dollars snap
           == expected_move sqrt_approx 10
                ((impliedVolatility call_atm + impliedVolatility put_atm) / 2)
                (dte snap).
Proof.
  eexists. split; [vm_compute; reflexivity |].
  intros chain call_atm put_atm Hchain Hc Hp.
  injection Hchain as <-.
  destruct Hc as [<- | []]. destruct Hp as [<- | []].
  intros H. vm_compute in H. discriminate H.
Qed.

Lemma journal_rerun_replaces_witness :
  example_append
    (example_append [blank_entry "2026-01-01T19:00:00"]
       (report_at "2026-01-05T19:00:00") default_config)
    (report_at "2026-01-05T19:00:00") default_config
  = example_append [blank_entry "2026-01-01T19:00:00"]
      (report_at "2026-01-05T19:00:00") default_config
  /\ stamp_count "2026-01-05T19:00:00"
       (example_append
          (example_append [blank_entry "2026-01-01T19:00:00"]
             (report_at "2026-01-05T19:00:00") default_config)
          (report_at "2026-01-05T19:00:00") default_config)
     = 1%nat.
Proof.
  destruct (journal_rerun_replaces false "2026-01-09T19:00:00"
              (fun _ => Raise ProviderError) "gpt-4o-mini" None
              [blank_entry "2026-01-01T19:00:00"]
              (report_at "2026-01-05T19:00:00") default_config
              (report_at "2026-01-05T19:00:00") default_config
              ltac:(discriminate) eq_refl)
    as (_ & _ & Hsame & Hone).
  split; [exact Hsame | apply Hone; reflexivity].
Defined.

Lemma journal_rerun_older_duplicate :
  stamp_count "2026-01-01T19:00:00"
    (example_append
       (example_append
          [blank_entry "2026-01-05T19:00:00"; blank_entry "2026-01-01T19:00:00"]
          (report_at "2026-01-01T19:00:00") default_config)
       (report_at "2026-01-01T19:00:00") default_config)
  <> 1%nat.
Proof. vm_compute. discriminate. Qed.

Lemma journal_bounded_newest_first_witness :
  (List.length
     (example_persist_runs [blank_entry "2026-01-01T19:00:00"]
        [(report_at "2026-01-05T19:00:00", default_config);
         (report_at "2026-01-09T19:00:00", default_config)])
   <= 30)%nat
  /\ newest_first
       (example_persist_runs [blank_entry "2026-01-01T19:00:00"]
          [(report_at "2026-01-05T19:00:00", default_config);
           (report_at "2026-01-09T19:00:00", default_config)]).
Proof.
  destruct (journal_bounded_newest_first false "2026-01-09T19:00:00"
              (fun _ => Raise ProviderError) "gpt-4o-mini" None
              ltac:(discriminate))
    as (_ & Hlen & Hsorted).
  split.
  - apply Hlen. discriminate.
  - apply Hsorted; [repeat constructor | repeat split].
Defined.

Lemma journal_unsorted_start :
  ~ newest_first
      (example_append
         [blank_entry "2026-01-01T19:00:00"; blank_entry "2026-01-05T19:00:00"]
         (report_at "2026-01-09T19:00:00") default_config).
Proof.
  intros H. vm_compute in H.
  inversion H as [|? ? Hrest _]; subst.
  inversion Hrest as [|? ? _ Hhd]; subst.
  inversion Hhd as [|? ? Hrel]; subst.
  vm_compute in Hrel. discriminate Hrel.
Qed.

(** * Further properties of the pipeline *)

(** ** Bounds of the score *)

Lemma earnings_catalyst_within hi n data (st : tally) :
  0 <= fst st <= hi -> (List.length (snd st) <= n)%nat ->
  0 <= fst (earnings_catalyst data st) <= hi + 3
  /\ (List.length (snd (earnings_catalyst data st)) <= S n)%nat.
Proof.
  intros H Hn. unfold earnings_catalyst, add.
  destruct (days_to_earnings data) as [d|];
    [destruct ((1 <=? d)%Z && (d <=? 3)%Z);
     [| destruct ((4 <=? d)%Z && (d <=? 7)%Z); [| destruct (d =? 0)%Z]] |];
    simpl; rewrite ?length_app; simpl; (split; [lra | lia]).
Qed.

Lemma volume_surge_within hi n data (st : tally) :
  0 <= fst st <= hi -> (List.length (snd st) <= n)%nat ->
  0 <= fst (volume_surge data st) <= hi + 2
  /\ (List.length (snd (volume_surge data st)) <= S n)%nat.
Proof.
  intros H Hn. unfold volume_surge, add.
  destruct (Qgeb (vol_surge data) 2); [| destruct (Qgeb (vol_surge data) 1.5)];
    simpl; rewrite ?length_app; simpl; (split; [lra | lia]).
Qed.

Lemma momentum_rule_within hi n data (st : tally) :
  0 <= fst st <= hi -> (List.length (snd st) <= n)%nat ->
  0 <= fst (momentum_rule data st) <= hi + 2
  /\ (List.length (snd (momentum_rule data st)) <= S n)%nat.
Proof.
  intros H Hn. unfold momentum_rule, add.
  destruct (Qgeb (Qabs (momentum_5d data)) 10);
    [| destruct (Qgeb (Qabs (momentum_5d data)) 5)];
    simpl; rewrite ?length_app; simpl; (split; [lra | lia]).
Qed.

Lemma rsi_extremes_within hi n data (st : tally) :
  0 <= fst st <= hi -> (List.length (snd st) <= n)%nat ->
  0 <= fst (rsi_extremes data st) <= hi + 1.5
  /\ (List.length (snd (rsi_extremes data st)) <= S n)%nat.
Proof.
  intros H Hn. unfold rsi_extremes, add.
  destruct (truthy_num (rsi data));
    [destruct (Qgeb (get (rsi data) 0) 70);
     [| destruct (Qle_bool (get (rsi data) 0) 30)] |];
    simpl; rewrite ?length_app; simpl; (split; [lra | lia]).
Qed.

Lemma options_iv_within hi n data (st : tally) :
  0 <= fst st <= hi -> (List.length (snd st) <= n)%nat ->
  0 <= fst (options_iv data st) <= hi + 2
  /\ (List.length (snd (options_iv data st)) <= S (S n))%nat.
Proof.
  intros H Hn. unfold options_iv, add.
  destruct (options data) as [o|]; [| simpl; split; [lra | lia]].
  destruct (Qgeb (iv_avg o) 80);
    [| destruct (Qle_bool (iv_avg o) 30 && Qgtb (iv_avg o) 0)];
    destruct (call_suggestion o), (put_suggestion o);
    simpl; rewrite ?length_app; simpl; rewrite ?length_app; simpl;
    (split; [lra | lia]).
Qed.

Lemma ai_sentiment_rule_within hi n data (st st' : tally) :
  0 <= fst st <= hi -> (List.length (snd st) <= n)%nat ->
  ai_sentiment_rule data st = OK st' ->
  0 <= fst st' <= hi + 1.5 /\ (List.length (snd st') <= S n)%nat.
Proof.
  intros H Hn. unfold ai_sentiment_rule, add.
  destruct (Qgeb (Qabs (s_score (ai_sentiment data))) 3).
  - destruct (summary_text (ai_sentiment data)); simpl; [| discriminate].
    intros [= <-]. simpl. rewrite length_app. simpl. split; [lra | lia].
  - destruct (Qgeb (Qabs (s_score (ai_sentiment data))) 2);
      intros [= <-]; simpl; rewrite ?length_app; simpl; (split; [lra | lia]).
Qed.

(** X1: whenever [score_opportunity] returns, the score lies between 0 and
    12 and there are at most seven reasons. *)
Theorem score_opportunity_bounds data config s reasons :
  score_opportunity data config = OK (s, reasons) ->
  0 <= s <= 12 /\ (List.length reasons <= 7)%nat.
Proof.
  unfold score_opportunity. intros H.
  assert (H0 : 0 <= fst ((0, []) : tally) <= 0) by (simpl; lra).
  assert (N0 : (List.length (snd ((0%Q, []) : tally)) <= 0)%nat) by (simpl; lia).
  destruct (earnings_catalyst_within _ _ data _ H0 N0) as [H1 N1].
  destruct (volume_surge_within _ _ data _ H1 N1) as [H2 N2].
  destruct (momentum_rule_within _ _ data _ H2 N2) as [H3 N3].
  destruct (rsi_extremes_within _ _ data _ H3 N3) as [H4 N4].
  destruct (options_iv_within _ _ data _ H4 N4) as [H5 N5].
  destruct (ai_sentiment_rule_within _ _ data _ _ H5 N5 H) as [H6 N6].
  simpl in H6, N6. split; [lra | lia].
Qed.

Lemma score_opportunity_bounds_witness :
  exists s reasons,
    score_opportunity (signal "X" 20 2.5 12 (Some 28) neutral None) default_config
    = OK (s, reasons)
    /\ 0 <= s <= 12 /\ (List.length reasons <= 7)%nat.
Proof.
  eexists. eexists. split; [vm_compute; reflexivity |].
  apply (score_opportunity_bounds
           (signal "X" 20 2.5 12 (Some 28) neutral None) default_config).
  vm_compute. reflexivity.
Defined.

(** ** The sort by score *)

Lemma insert_by_score_perm x l : Permutation (insert_by_score x l) (x :: l).
Proof.
  induction l as [|y l IH]; simpl; [reflexivity |].
  destruct (Qltb (score_of y) (score_of x)); [reflexivity |].
  rewrite IH. apply perm_swap.
Qed.

Lemma sort_by_score_perm l : Permutation (sort_by_score l) l.
Proof.
  unfold sort_by_score.
  assert (G : forall acc,
             Permutation
               (fold_left (fun sorted x => insert_by_score x sorted) l acc)
               (acc ++ l)).
  { induction l as [|x l IH]; intros acc; simpl.
    - now rewrite app_nil_r.
    - rewrite IH, insert_by_score_perm. apply Permutation_middle. }
  apply (G []).
Qed.

Lemma score_ge_trans a b c : score_ge a b -> score_ge b c -> score_ge a c.
Proof. unfold score_ge. intros H1 H2. now apply Qle_trans with (score_of b). Qed.

Lemma insert_by_score_sorted x l :
  StronglySorted score_ge l -> StronglySorted score_ge (insert_by_score x l).
Proof.
  induction l as [|y l IH]; intros H; simpl.
  - repeat constructor.
  - inversion H as [|? ? Hl Hy]; subst.
    destruct (Qltb (score_of y) (score_of x)) eqn:E.
    + apply Qltb_true in E. constructor; [exact H |].
      constructor; [unfold score_ge; now apply Qlt_le_weak |].
      eapply Forall_impl; [| exact Hy]. intros z Hz.
      apply score_ge_trans with y; [unfold score_ge; now apply Qlt_le_weak | exact Hz].
    + constructor; [now apply IH |].
      apply Forall_forall. intros z Hz.
      apply (Permutation_in _ (insert_by_score_perm x l)) in Hz.
      destruct Hz as [<- | Hz].
      * unfold score_ge. apply Qnot_lt_le. intros Hlt.
        apply Qltb_true in Hlt. rewrite Hlt in E. discriminate E.
      * rewrite Forall_forall in Hy. now apply Hy.
Qed.

Lemma sort_by_score_sorted l : StronglySorted score_ge (sort_by_score l).
Proof.
  unfold sort_by_score.
  assert (G : forall acc,
             StronglySorted score_ge acc ->
             StronglySorted score_ge
               (fold_left (fun sorted x => insert_by_score x sorted) l acc)).
  { induction l as [|x l IH]; intros acc Hacc; simpl; [exact Hacc |].
    apply IH. now apply insert_by_score_sorted. }
  apply G. constructor.
Qed.

Lemma StronglySorted_filter {A} (R : A -> A -> Prop) f l :
  StronglySorted R l -> StronglySorted R (filter f l).
Proof.
  induction 1 as [|x l Hl IH Hx]; simpl; [constructor |].
  destruct (f x); [| exact IH]. constructor; [exact IH |].
  apply Forall_forall. intros y Hy. apply filter_In in Hy.
  rewrite Forall_forall in Hx. now apply Hx.
Qed.

Lemma StronglySorted_firstn {A} (R : A -> A -> Prop) n l :
  StronglySorted R l -> StronglySorted R (firstn n l).
Proof.
  intros H. revert n. induction H as [|x l Hl IH Hx]; intros [|n]; simpl;
    try constructor; [apply IH |].
  apply Forall_forall. intros y Hy. apply firstn_In in Hy.
  rewrite Forall_forall in Hx. now apply Hx.
Qed.

Lemma StronglySorted_app_cross {A} (R : A -> A -> Prop) l1 l2 a b :
  StronglySorted R (l1 ++ l2) -> In a l1 -> In b l2 -> R a b.
Proof.
  induction l1 as [|x l1 IH]; intros H Ha Hb; [destruct Ha |].
  simpl in H. inversion H as [|? ? Hl Hx]; subst.
  destruct Ha as [<- | Ha]; [| now apply IH].
  rewrite Forall_forall in Hx. apply Hx. apply in_or_app. now right.
Qed.

(** ** Batches *)

Lemma batches_concat fuel size universe :
  (List.length universe <= fuel)%nat -> (1 <= size)%nat ->
  List.concat (batches fuel size universe) = universe
  /\ Forall (fun b => (1 <= List.length b <= size)%nat)
       (batches fuel size universe).
Proof.
  revert universe. induction fuel as [|fuel IH]; intros universe Hlen Hsize.
  - destruct universe; [now split | simpl in Hlen; lia].
  - destruct universe as [|x l]; [now split |].
    cbn [batches].
    destruct (IH (skipn size (x :: l))) as [Hc Hf].
    { rewrite length_skipn. cbn [List.length] in *. lia. }
    { exact Hsize. }
    split.
    + cbn [List.concat]. rewrite Hc. apply firstn_skipn.
    + constructor; [| exact Hf]. rewrite length_firstn. cbn [List.length]. lia.
Qed.

(** X5: the batches of a scan are consecutive slices of the universe: put
    end to end they give the universe back, and each holds between one and
    five tickers. *)
Theorem batches_partition universe :
  List.concat (batches (List.length universe) 5 universe) = universe
  /\ Forall (fun b => (1 <= List.length b <= 5)%nat)
       (batches (List.length universe) 5 universe).
Proof. apply batches_concat; lia. Qed.

(** ** The first pass over a ticker *)

Section FirstPassFacts.

Variable today : Z.
Variable strptime : string -> option Z.
Variable np_sqrt : Q -> Q.
Variable argsort_tie : list Q -> nat.
Variable yf_Ticker : string -> Stock.
Variable get_discovered_info : string -> option string.
Variable completion : list string -> list string.
Variable openai_key : bool.
Variable ai_provider : string -> list string -> option Sentiment.
Variable strftime : Z -> string.
Variable now : string.

Local Abbreviation get_stock_data :=
  (get_stock_data today strptime np_sqrt argsort_tie yf_Ticker).
Local Abbreviation process_future :=
  (process_future today strptime np_sqrt argsort_tie yf_Ticker get_discovered_info).
Local Abbreviation scan :=
  (scan today strptime np_sqrt argsort_tie yf_Ticker get_discovered_info completion).
Local Abbreviation run_research :=
  (run_research today strptime np_sqrt argsort_tie yf_Ticker get_discovered_info
     completion openai_key ai_provider strftime now).

(** What [get_stock_data] returns has the default sentiment, at most three
    news items, each with a title, and none of the keys added later. *)
Lemma get_stock_data_defaults ticker0 config data :
  get_stock_data ticker0 config = Some data ->
  ai_sentiment data = default_sentiment
  /\ discovery data = None /\ score data = None /\ reasons data = None
  /\ (List.length (news data) <= 3)%nat
  /\ Forall (fun n => nonempty (n_title n) = true) (news data).
Proof.
  unfold get_stock_data, stock_data_body. intros H.
  destruct (history (yf_Ticker ticker0)) as [hist|]; cbn [bind] in H; [| discriminate H].
  destruct (List.length hist <? 5)%nat; [discriminate H |].
  destruct (iloc_from_end hist 0) as [current|]; cbn [bind] in H; [| discriminate H].
  destruct (if (1 <? List.length hist)%nat then iloc_from_end hist 1 else OK current)
    as [prev|]; cbn [bind] in H; [| discriminate H].
  destruct (Qgtb (Close current) (get (max_stock_price config) 50));
    [discriminate H |].
  destruct (if (5 <=? List.length hist)%nat then _ else _) as [m|];
    cbn [bind] in H; [| discriminate H].
  destruct (calendar_earnings (yf_Ticker ticker0)) as [ed dte0].
  ok_inj_some H. cbn [ai_sentiment discovery score reasons news].
  split; [reflexivity |]. split; [reflexivity |]. split; [reflexivity |].
  split; [reflexivity |]. split.
  - rewrite length_firstn. apply Nat.le_min_l.
  - apply Forall_forall. intros n Hn. apply firstn_In in Hn.
    apply filter_In in Hn. exact (proj2 Hn).
Qed.

(** With the default sentiment no rule raises. *)
Lemma score_opportunity_default_sentiment data config :
  ai_sentiment data = default_sentiment ->
  exists s rs, score_opportunity data config = OK (s, rs).
Proof.
  intros E. unfold score_opportunity, ai_sentiment_rule. rewrite E. simpl.
  destruct (options_iv data _) as [s rs]. now exists s, rs.
Qed.

Lemma score_opportunity_discovery data info config :
  score_opportunity (set_discovery data info) config
  = score_opportunity data config.
Proof. reflexivity. Qed.

Lemma generate_trade_idea_returns data s rs r :
  rsi data = Some r -> exists idea, generate_trade_idea data s rs = OK idea.
Proof.
  intros Hr. unfold generate_trade_idea.
  destruct (direction_of_votes (count_votes data)) as [direction bias].
  destruct (calculate_entry_exit_returns data (options data) r Hr) as [ee Hee].
  rewrite Hee. simpl. eexists. reflexivity.
Qed.

(** The dict handed to the scorer: the fetched one, with the discovery
    info when there is some. *)
Lemma discovered_keeps ticker0 data :
  let data' :=
    match get_discovered_info ticker0 with
    | Some info => if nonempty info then set_discovery data info else data
    | None => data
    end in
  rsi data' = rsi data /\ trade_idea data' = trade_idea data
  /\ ticker data' = ticker data
  /\ forall config, score_opportunity data' config = score_opportunity data config.
Proof.
  destruct (get_discovered_info ticker0) as [info|]; simpl; [| now repeat split].
  destruct (nonempty info); now repeat split.
Qed.

Lemma process_future_cases config results ticker0 :
  ((exists r, process_future config results ticker0 = results ++ [r])
   <-> exists data s rs,
         get_stock_data ticker0 config = Some data
         /\ rsi data <> None
         /\ score_opportunity data config = OK (s, rs)
         /\ get (min_score config) 0 <= s)
  /\ (process_future config results ticker0 = results
      \/ exists r idea s rs,
           process_future config results ticker0 = results ++ [r]
           /\ ticker r = ticker0 /\ score r = Some s /\ reasons r = Some rs
           /\ trade_idea r = Some idea /\ ti_reasons idea = rs
           /\ get (min_score config) 0 <= s /\ rsi r <> None
           /\ exists data,
                get_stock_data ticker0 config = Some data
                /\ score_opportunity data config = OK (s, rs)
                /\ let data' :=
                     match get_discovered_info ticker0 with
                     | Some info =>
                         if nonempty info then set_discovery data info
                         else data
                     | None => data
                     end in
                   generate_trade_idea (set_score data' s rs) s rs = OK idea
                   /\ r = set_trade_idea (set_score data' s rs) idea).
Proof.
  unfold process_future.
  destruct (get_stock_data ticker0 config) as [data|] eqn:Ed.
  2:{ split; [| now left]. split.
      - intros [r Hr]. apply (f_equal (@List.length Data)) in Hr.
        rewrite length_app in Hr. simpl in Hr. lia.
      - intros (d & s & rs & Hd & _). discriminate Hd. }
  destruct (get_stock_data_fresh today strptime np_sqrt argsort_tie yf_Ticker
              _ _ _ Ed) as [Et Ei].
  destruct (get_stock_data_defaults _ _ _ Ed) as (Ea & _).
  pose proof (discovered_keeps ticker0 data) as Hk. cbv zeta in Hk.
  set (data' := match get_discovered_info ticker0 with
                | Some info => if nonempty info then set_discovery data info else data
                | None => data
                end) in *.
  destruct Hk as (Hr & Hi & Ht & Hs). rewrite Hs.
  destruct (score_opportunity_default_sentiment data config Ea) as (s & rs & Esc).
  rewrite Esc. cbn [bind].
  assert (Hnot : forall l : list Data, ~ exists r, l = l ++ [r]).
  { intros l [r Hl]. apply (f_equal (@List.length Data)) in Hl.
    rewrite length_app in Hl. simpl in Hl. lia. }
  destruct (Qgeb s (get (min_score config) 0)) eqn:Emin.
  2:{ split; [| now left]. split; [intros H; now apply Hnot in H |].
      intros (d & s' & rs' & Hd & _ & Hsc & Hmin).
      injection Hd as <-. rewrite Esc in Hsc. injection Hsc as <- <-.
      apply Qgeb_true in Hmin. rewrite Hmin in Emin. discriminate Emin. }
  apply Qgeb_true in Emin.
  destruct (rsi data) as [v|] eqn:Ev.
  - assert (Hv : rsi (set_score data' s rs) = Some v) by (cbn [rsi set_score]; congruence).
    destruct (generate_trade_idea_returns _ s rs v Hv) as [idea Hidea].
    pose proof Hidea as Hidea'. unfold generate_trade_idea in Hidea'.
    destruct (direction_of_votes _) as [direction bias].
    destruct (calculate_entry_exit _ _) as [ee|]; cbn [bind] in Hidea';
      [| discriminate Hidea'].
    rewrite Hidea. cbn [bind]. split.
    + split; [| intros _; eexists; reflexivity].
      intros _. exists data, s, rs. repeat split; try assumption. congruence.
    + right. eexists. exists idea, s, rs. split; [reflexivity |].
      cbn [ticker score reasons trade_idea rsi set_trade_idea set_score].
      split; [congruence |]. split; [reflexivity |]. split; [reflexivity |].
      split; [reflexivity |]. split; [now injection Hidea' as <- |].
      split; [assumption |]. split; [congruence |].
      exists data. split; [reflexivity |]. split; [exact Esc |].
      cbv zeta. fold data'. split; [exact Hidea | reflexivity].
  - rewrite generate_trade_idea_null_rsi
      by (cbn [rsi trade_idea set_score]; congruence).
    split; [| now left]. split; [intros H; now apply Hnot in H |].
    intros (d & s' & rs' & Hd & Hrsi & _). injection Hd as <-. now destruct Hrsi.
Qed.

(** X2: the future of a ticker adds a result exactly when the fetch returned
    a dict, its RSI is not null and its score reaches [min_score].  The
    result added is the fetched dict, with the discovery info when there is
    some, holding the score and the reasons that [score_opportunity]
    returned for it and the trade idea generated from them.  Otherwise
    [results] is left as it was. *)
Theorem process_future_adds_iff config results ticker0 :
  ((exists r, process_future config results ticker0 = results ++ [r])
   <-> exists data s rs,
         get_stock_data ticker0 config = Some data
         /\ rsi data <> None
         /\ score_opportunity data config = OK (s, rs)
         /\ get (min_score config) 0 <= s)
  /\ (process_future config results ticker0 = results
      \/ exists data s rs idea r,
           get_stock_data ticker0 config = Some data
           /\ score_opportunity data config = OK (s, rs)
           /\ (let data' :=
                 match get_discovered_info ticker0 with
                 | Some info =>
                     if nonempty info then set_discovery data info else data
                 | None => data
                 end in
               generate_trade_idea (set_score data' s rs) s rs = OK idea
               /\ r = set_trade_idea (set_score data' s rs) idea)
           /\ process_future config results ticker0 = results ++ [r]
           /\ ticker r = ticker0 /\ score r = Some s /\ reasons r = Some rs
           /\ trade_idea r = Some idea /\ ti_reasons idea = rs).
Proof.
  destruct (process_future_cases config results ticker0) as [Hiff Hcases].
  split; [exact Hiff |].
  destruct Hcases
    as [H | (r & idea & s & rs & H & Ht & Hs & Hr & Hi & Hti & _ & _
             & data & Hd & Hsc & Hgen)];
    [now left | right].
  exists data, s, rs, idea, r.
  split; [exact Hd |]. split; [exact Hsc |]. split; [exact Hgen |].
  repeat split; assumption.
Qed.

Lemma scan_scored config universe r :
  In r (scan config universe) -> scored (get (min_score config) 0) r.
Proof.
  intros H. apply scan_In in H.
  destruct (process_future_cases config [] (ticker r))
    as [_ [Hnil | (r' & idea & s & rs & E & _ & Hs & Hr & Hi & _ & Hmin & Hrsi
                   & _)]].
  - rewrite Hnil in H. destruct H.
  - rewrite E in H. simpl in H. destruct H as [<- | []].
    exists s, rs, idea. repeat split; assumption.
Qed.

(** Enrichment keeps the ticker, never lowers the score and keeps a scored
    result scored. *)
Lemma enrich_keeps config min r r' :
  enrich openai_key ai_provider config r = OK r' ->
  ticker r' = ticker r
  /\ score_of r <= score_of r'
  /\ (scored min r -> scored min r').
Proof.
  unfold enrich. intros H.
  destruct (map n_title _) as [|h hs].
  { ok_inj H. split; [reflexivity |]. split; [apply Qle_refl | easy]. }
  set (ai := get_ai_sentiment openai_key ai_provider (ticker r) _ config true) in H.
  match type of H with
  | bind ?c _ = _ => destruct c as [r1|] eqn:E1; cbn [bind] in H; [| discriminate H]
  end.
  assert (H1 : ticker r1 = ticker r /\ score_of r <= score_of r1
               /\ rsi r1 = rsi r
               /\ (forall sc, score r = Some sc ->
                              exists sc', score r1 = Some sc' /\ sc <= sc')
               /\ (forall rs, reasons r = Some rs ->
                               exists rs', reasons r1 = Some rs')).
  { destruct (Qgeb (Qabs (s_score ai)) 3).
    - destruct (summary_text ai); cbn [bind] in E1; [| discriminate E1].
      ok_inj E1. cbn [ticker rsi score reasons set_score set_ai_sentiment].
      unfold score_of. cbn [score set_score set_ai_sentiment get].
      split; [reflexivity |]. split; [lra |]. split; [reflexivity |]. split.
      + intros sc Hsc. rewrite Hsc. cbn [get]. eexists. split; [reflexivity | lra].
      + intros rs _. eexists. reflexivity.
    - destruct (Qgeb (Qabs (s_score ai)) 2).
      + ok_inj E1. cbn [ticker rsi score reasons set_score set_ai_sentiment].
        unfold score_of. cbn [score set_score set_ai_sentiment get].
        split; [reflexivity |]. split; [lra |]. split; [reflexivity |]. split.
        * intros sc Hsc. rewrite Hsc. cbn [get]. eexists. split; [reflexivity | lra].
        * intros rs _. eexists. reflexivity.
      + ok_inj E1. cbn [ticker rsi score reasons set_ai_sentiment].
        split; [reflexivity |]. split; [apply Qle_refl |].
        split; [reflexivity |]. split.
        * intros sc Hsc. exists sc. split; [exact Hsc | apply Qle_refl].
        * intros rs Hrs. now exists rs. }
  destruct H1 as (Ht & Hsc & Hrsi & Hs & Hrs).
  destruct (generate_trade_idea r1 _ _) as [idea|]; cbn [bind] in H;
    [| discriminate H].
  ok_inj H. cbn [ticker set_trade_idea]. split; [exact Ht |].
  split; [exact Hsc |].
  intros (sc & rs & idea0 & Es & Er & _ & Hmin & Hnn).
  destruct (Hs sc Es) as (s' & Es' & Hle). destruct (Hrs rs Er) as (rs' & Er').
  exists s', rs', idea. cbn [score reasons trade_idea rsi set_trade_idea].
  repeat split; try assumption; [lra | congruence].
Qed.

Lemma map_result_Forall2 {A B} (f : A -> result B) l l' :
  map_result f l = OK l' -> Forall2 (fun x y => f x = OK y) l l'.
Proof.
  revert l'. induction l as [|x l IH]; intros l' H; simpl in H.
  - ok_inj H. constructor.
  - destruct (f x) as [y|] eqn:Ex; cbn [bind] in H; [| discriminate H].
    destruct (map_result f l) as [ys|]; cbn [bind] in H; [| discriminate H].
    ok_inj H. constructor; [exact Ex | now apply IH].
Qed.

Lemma firstn_skipn_length {A} k (l : list A) :
  firstn k l ++ skipn (List.length (firstn k l)) l = l.
Proof.
  rewrite length_firstn. destruct (Nat.le_ge_cases k (List.length l)) as [H | H].
  - rewrite Nat.min_l by exact H. apply firstn_skipn.
  - rewrite Nat.min_r by exact H. rewrite firstn_all2 by exact H.
    rewrite skipn_all. apply app_nil_r.
Qed.

Lemma slice_to_skipn {A} (l : list A) n :
  slice_to l n ++ skipn (List.length (slice_to l n)) l = l.
Proof. unfold slice_to. destruct (0 <=? n)%Z; apply firstn_skipn_length. Qed.

Lemma Forall2_same {A} (R : A -> A -> Prop) l :
  (forall x, R x x) -> Forall2 R l l.
Proof. intros H. induction l; constructor; auto. Qed.

(** X3: the sentiment stage keeps the number and the order of the results;
    each result keeps its ticker and its score is not lowered, and the
    results after the first [ai_top_n] are left exactly as they were. *)
Theorem enrich_top_keeps config results results' :
  enrich_top openai_key ai_provider config results = OK results' ->
  Forall2 (fun r r' => ticker r' = ticker r /\ score_of r <= score_of r')
    results results'
  /\ ((0 <= get (ai_top_n config) 5%Z)%Z ->
      skipn (Z.to_nat (get (ai_top_n config) 5%Z)) results'
      = skipn (Z.to_nat (get (ai_top_n config) 5%Z)) results).
Proof.
  unfold enrich_top. intros H.
  destruct (map_result _ _) as [enriched|] eqn:E; cbn [bind] in H;
    [| discriminate H].
  ok_inj H. apply map_result_Forall2 in E.
  set (top := slice_to results (get (ai_top_n config) 5%Z)) in *.
  pose proof (slice_to_skipn results (get (ai_top_n config) 5%Z)) as Hsplit.
  fold top in Hsplit. split.
  - rewrite <- Hsplit at 1. apply Forall2_app.
    + eapply Forall2_impl; [| exact E]. intros r r' Hr.
      destruct (enrich_keeps config 0 r r' Hr) as (Ht & Hs & _). now split.
    + apply Forall2_same. intros r. split; [reflexivity | apply Qle_refl].
  - intros Hn. pose proof (Forall2_length E) as Hlen.
    assert (Htop : top = firstn (Z.to_nat (get (ai_top_n config) 5%Z)) results).
    { subst top. unfold slice_to. apply Z.leb_le in Hn. now rewrite Hn. }
    set (k := Z.to_nat (get (ai_top_n config) 5%Z)) in *.
    destruct (Nat.le_ge_cases k (List.length results)) as [Hk | Hk].
    + assert (Hl : List.length enriched = k).
      { rewrite <- Hlen, Htop, length_firstn. now apply Nat.min_l. }
      assert (Ht : List.length top = k).
      { rewrite Htop, length_firstn. now apply Nat.min_l. }
      rewrite skipn_app, (skipn_all2 enriched) by lia.
      rewrite Hl, Nat.sub_diag, Ht. reflexivity.
    + assert (R : skipn k results = []) by (apply skipn_all2; exact Hk).
      rewrite R. apply skipn_all2. rewrite length_app, length_skipn, <- Hlen, Htop.
      rewrite length_firstn, Nat.min_r by exact Hk. lia.
Qed.

Lemma enrich_top_origin config results results' r' :
  enrich_top openai_key ai_provider config results = OK results' ->
  In r' results' ->
  exists r, In r results
            /\ (r' = r \/ enrich openai_key ai_provider config r = OK r').
Proof.
  unfold enrich_top. intros H Hr'.
  destruct (map_result _ _) as [enriched|] eqn:E; cbn [bind] in H;
    [| discriminate H].
  ok_inj H. apply in_app_or in Hr'. destruct Hr' as [Hr' | Hr'].
  - destruct (map_result_In _ _ _ _ E Hr') as [r [Hr Er]].
    exists r. split; [now apply slice_to_In in Hr | now right].
  - exists r'. split; [now apply skipn_In in Hr' | now left].
Qed.

(** Where the elements of [all_results] come from. *)
Lemma all_results_origin config universe out r :
  run_research config universe = OK out ->
  In r (all_results out) ->
  exists r0, In r0 (scan config universe)
             /\ (r = r0 \/ enrich openai_key ai_provider config r0 = OK r).
Proof.
  unfold run_research. intros H Hr.
  match type of H with
  | bind ?c _ = _ => destruct c as [results|] eqn:E; cbn [bind] in H;
                     [| discriminate H]
  end.
  ok_inj H. cbn [all_results] in Hr.
  destruct (openai_key && get (use_ai_sentiment config) true).
  - destruct (enrich_top _ _ _ _) as [enriched|] eqn:Ee; cbn [bind] in E;
      [| discriminate E].
    ok_inj E. apply (Permutation_in _ (sort_by_score_perm _)) in Hr.
    destruct (enrich_top_origin _ _ _ _ Ee Hr) as (r0 & Hr0 & Hor).
    exists r0. split; [exact (Permutation_in _ (sort_by_score_perm _) Hr0) | exact Hor].
  - ok_inj E. exists r.
    split; [exact (Permutation_in _ (sort_by_score_perm _) Hr) | now left].
Qed.

(** X4: every element of the report's [all_results] has a score of at least
    [min_score], its reasons, a trade idea and a non-null RSI. *)
Theorem all_results_scored config universe out :
  run_research config universe = OK out ->
  Forall (scored (get (min_score config) 0)) (all_results out).
Proof.
  intros H. apply Forall_forall. intros r Hr.
  destruct (all_results_origin _ _ _ _ H Hr) as (r0 & Hr0 & [-> | He]).
  - now apply scan_scored in Hr0.
  - apply scan_scored in Hr0.
    now apply (enrich_keeps config (get (min_score config) 0) r0 r He).
Qed.

Lemma run_research_sorted config universe out :
  run_research config universe = OK out ->
  exists results, all_results out = sort_by_score results
                  /\ top_picks out = firstn 10 (all_results out)
                  /\ cat_earnings_plays (categories out)
                     = firstn 5 (earnings_plays (all_results out))
                  /\ cat_momentum_plays (categories out)
                     = firstn 5 (momentum_plays (all_results out))
                  /\ cat_oversold_plays (categories out)
                     = firstn 5 (oversold_plays (all_results out)).
Proof.
  unfold run_research. intros H.
  match type of H with
  | bind ?c _ = _ => destruct c as [results|] eqn:E; cbn [bind] in H;
                     [| discriminate H]
  end.
  ok_inj H.
  cbn [all_results top_picks categories cat_earnings_plays cat_momentum_plays
       cat_oversold_plays].
  destruct (openai_key && get (use_ai_sentiment config) true).
  - destruct (enrich_top _ _ _ _) as [enriched|]; cbn [bind] in E;
      [| discriminate E].
    ok_inj E. exists enriched. repeat split.
  - ok_inj E. eexists. repeat split.
Qed.

(** X6: the results of the report are ranked: [all_results] is in
    descending order of score, [top_picks] is its first ten, so no result
    left out of [top_picks] scores more than one in it, and each category
    list holds at most five results, also in descending order of score. *)
Theorem report_ranked config universe out :
  run_research config universe = OK out ->
  StronglySorted score_ge (all_results out)
  /\ top_picks out = firstn 10 (all_results out)
  /\ (forall a b, In a (top_picks out) -> In b (skipn 10 (all_results out)) ->
                  score_of b <= score_of a)
  /\ Forall (fun l => StronglySorted score_ge l /\ (List.length l <= 5)%nat)
       [cat_earnings_plays (categories out);
        cat_momentum_plays (categories out);
        cat_oversold_plays (categories out)].
Proof.
  intros H. destruct (run_research_sorted _ _ _ H) as (results & Ea & Et & Ee & Em & Eo).
  assert (Hs : StronglySorted score_ge (all_results out)).
  { rewrite Ea. apply sort_by_score_sorted. }
  split; [exact Hs |]. split; [exact Et |]. split.
  - intros a b Ha Hb. rewrite Et in Ha.
    rewrite <- (firstn_skipn 10 (all_results out)) in Hs.
    exact (StronglySorted_app_cross _ _ _ _ _ Hs Ha Hb).
  - rewrite Ee, Em, Eo.
    assert (Hcat : forall f,
               StronglySorted score_ge (firstn 5 (filter f (all_results out)))
               /\ (List.length (firstn 5 (filter f (all_results out))) <= 5)%nat).
    { intros f. split.
      - apply StronglySorted_firstn, StronglySorted_filter. exact Hs.
      - rewrite length_firstn. apply Nat.le_min_l. }
    constructor; [apply Hcat |]. constructor; [apply Hcat |].
    constructor; [apply Hcat | constructor].
Qed.

Lemma fold_process_future_length config tickers results :
  (List.length (fold_left (process_future config) tickers results)
   <= List.length results + List.length tickers)%nat.
Proof.
  revert results. induction tickers as [|t rest IH]; intros results; simpl;
    [lia |].
  specialize (IH (process_future config results t)).
  destruct (process_future_cases config results t) as [_ [E | (r & i & s & rs & E & _)]];
    rewrite E in IH |- *; [| rewrite length_app in IH; simpl in IH]; lia.
Qed.

Lemma fold_process_future_tickers config tickers results r :
  In r (fold_left (process_future config) tickers results) ->
  In r results \/ In (ticker r) tickers.
Proof.
  revert results. induction tickers as [|t rest IH]; intros results H.
  - now left.
  - simpl in H. apply IH in H. destruct H as [H | H]; [| right; now right].
    rewrite process_future_app in H. apply in_app_or in H.
    destruct H as [H | H]; [now left | right; left].
    symmetry.
    now apply (process_future_ticker today strptime np_sqrt argsort_tie yf_Ticker
                 get_discovered_info config).
Qed.

(** X7: when the futures of each batch complete in some order of the batch,
    the scan yields at most one result per ticker of the universe, and
    every result carries a ticker of the universe. *)
Theorem scan_within_universe config universe :
  (forall batch, Permutation (completion batch) batch) ->
  (List.length (scan config universe) <= List.length universe)%nat
  /\ forall r, In r (scan config universe) -> In (ticker r) universe.
Proof.
  intros Hperm. unfold scan.
  destruct (batches_concat (List.length universe) 5 universe) as [Hc _];
    [lia | lia |].
  set (bs := batches (List.length universe) 5 universe) in *.
  assert (G : forall bs results,
             let final :=
               fold_left
                 (fun results batch =>
                    fold_left (process_future config) (completion batch) results)
                 bs results in
             (List.length final
              <= List.length results + List.length (List.concat bs))%nat
             /\ forall r, In r final -> In r results \/ In (ticker r) (List.concat bs)).
  { clear bs Hc. induction bs as [|b bs IH]; intros results; simpl.
    - split; [lia | now left].
    - destruct (IH (fold_left (process_future config) (completion b) results))
        as [Hl Hi].
      pose proof (fold_process_future_length config (completion b) results) as Hb.
      rewrite (Permutation_length (Hperm b)) in Hb. split.
      + rewrite length_app. lia.
      + intros r Hr. apply Hi in Hr. destruct Hr as [Hr | Hr].
        * apply fold_process_future_tickers in Hr. destruct Hr as [Hr | Hr];
            [now left | right].
          apply in_or_app. left. exact (Permutation_in _ (Hperm b) Hr).
        * right. apply in_or_app. now right. }
  destruct (G bs []) as [Hl Hi]. rewrite Hc in Hl, Hi. split; [exact Hl |].
  intros r Hr. destruct (Hi r Hr) as [[] | H]. exact H.
Qed.

(** X8: the earnings calendar of the report has seven days, today first
    and then the six days after it in order; a ticker listed under a day is
    that of a result of the run whose earnings date is that day and whose
    days to earnings are known, listed with its price and score, so a
    ticker of the universe without a result is never listed; and every
    result with known days to earnings whose earnings date is one of the
    seven days is listed under that day. *)
Theorem earnings_calendar_week config universe out :
  run_research config universe = OK out ->
  map cd_date (earnings_calendar out)
  = map (fun i => strftime (today + Z.of_nat i)) (seq 0 7)
  /\ map cd_is_today (earnings_calendar out)
     = [true; false; false; false; false; false; false]
  /\ (forall day e,
       In day (earnings_calendar out) -> In e (cd_earnings day) ->
       exists r, In r (all_results out)
                 /\ ce_ticker e = ticker r
                 /\ ce_price e = Some (price r)
                 /\ ce_score e = score_of r
                 /\ earnings_date r = Some (cd_date day)
                 /\ days_to_earnings r <> None)
  /\ forall r i,
       In r (all_results out) -> days_to_earnings r <> None ->
       (i < 7)%nat -> earnings_date r = Some (strftime (today + Z.of_nat i)) ->
       exists day e,
         In day (earnings_calendar out) /\ In e (cd_earnings day)
         /\ cd_date day = strftime (today + Z.of_nat i)
         /\ ce_ticker e = ticker r.
Proof.
  unfold run_research. intros H.
  match type of H with
  | bind ?c _ = _ => destruct c as [results|]; cbn [bind] in H;
                     [| discriminate H]
  end.
  ok_inj H. cbn [earnings_calendar all_results]. unfold build_earnings_calendar.
  split; [now rewrite map_map |]. split; [reflexivity |].
  split.
  2: { intros r i Hr Hdays Hi Hdate.
       set (day_str := strftime (today + Z.of_nat i)) in *.
       set (keep := fun c : CalendarInput =>
                      option_eqb String.eqb (ci_earnings_date c) (Some day_str)).
       set (entry := fun c : CalendarInput =>
                       {| ce_ticker := ci_ticker c; ce_price := ci_price c;
                          ce_score := get (ci_score c) 0 |}).
       set (row := {| ci_ticker := ticker r; ci_price := Some (price r);
                      ci_score := score r;
                      ci_earnings_date := earnings_date r |}).
       exists {| cd_date := day_str; cd_is_today := (i =? 0)%nat;
                 cd_earnings :=
                   map entry (filter keep (calendar_inputs universe results)) |}.
       exists (entry row).
       split; [| split; [| split; reflexivity]].
       - apply in_map_iff. exists i. split; [reflexivity |].
         apply in_seq. lia.
       - cbn [cd_earnings]. apply in_map. apply filter_In. split.
         + unfold calendar_inputs. apply in_or_app. left.
           apply in_map_iff. exists r. split; [reflexivity |].
           apply filter_In. split; [exact Hr |].
           destruct (days_to_earnings r); [reflexivity | now destruct Hdays].
         + unfold keep, row. cbn [ci_earnings_date]. rewrite Hdate. simpl.
           apply String.eqb_refl. }
  intros day e Hday He.
  apply in_map_iff in Hday. destruct Hday as [i [<- _]]. cbn [cd_earnings cd_date] in *.
  apply in_map_iff in He. destruct He as [ci [<- Hci]].
  cbn [ce_ticker ce_price ce_score].
  apply filter_In in Hci. destruct Hci as [Hci Hdate].
  unfold calendar_inputs in Hci. apply in_app_or in Hci.
  destruct Hci as [Hci | Hci].
  - apply in_map_iff in Hci. destruct Hci as [r [<- Hr]].
    apply filter_In in Hr. destruct Hr as [Hr Hdays].
    cbn [ci_ticker ci_price ci_score ci_earnings_date] in *.
    exists r. split; [exact Hr |]. split; [reflexivity |].
    split; [reflexivity |]. split; [reflexivity |]. split.
    + destruct (earnings_date r) as [d|]; [| discriminate Hdate].
      simpl in Hdate. apply String.eqb_eq in Hdate. now subst.
    + destruct (days_to_earnings r); [discriminate | discriminate Hdays].
  - apply in_map_iff in Hci. destruct Hci as [t [<- _]]. discriminate Hdate.
Qed.

(** X9: a ticker whose history request fails or answers fewer than five
    bars gets no signal from [get_stock_data], whatever the rest of the
    provider's answers and the configuration, and appears in no scan and
    in no list of a report. *)
Theorem short_history_excluded ticker0 config :
  (forall hist, history (yf_Ticker ticker0) = OK hist ->
                (List.length hist < 5)%nat) ->
  get_stock_data ticker0 config = None
  /\ (forall universe, ~ In ticker0 (map ticker (scan config universe)))
  /\ forall universe out,
       run_research config universe = OK out ->
       ~ In ticker0 (map ticker (all_results out))
       /\ ~ In ticker0 (map ticker (top_picks out))
       /\ (forall day, In day (earnings_calendar out) ->
                       ~ In ticker0 (map ce_ticker (cd_earnings day))).
Proof.
  intros H.
  assert (Hnone : get_stock_data ticker0 config = None).
  { unfold get_stock_data, stock_data_body.
    destruct (history (yf_Ticker ticker0)) as [hist|]; cbn [bind];
      [| reflexivity].
    specialize (H hist eq_refl). apply Nat.ltb_lt in H. now rewrite H. }
  pose proof (process_future_no_data today strptime np_sqrt argsort_tie yf_Ticker
                get_discovered_info config ticker0 Hnone) as Hfut.
  split; [exact Hnone |]. split.
  - intros universe Hin. apply in_map_iff in Hin. destruct Hin as [r [Et Hr]].
    apply (scan_In today strptime np_sqrt argsort_tie yf_Ticker get_discovered_info
             completion) in Hr.
    rewrite Et, Hfut in Hr.
    exact Hr.
  - intros universe out Hrun.
    destruct (absent_from_report today strptime np_sqrt argsort_tie yf_Ticker
                get_discovered_info completion openai_key ai_provider
                strftime now config universe out ticker0 Hfut Hrun)
      as (H1 & H2 & _ & _ & _ & H6).
    split; [exact H1 |]. split; [exact H2 | exact H6].
Qed.

(** X10: a signal returned by [get_stock_data] comes from a history of at
    least five bars whose last close is not above the configured maximum;
    it carries the ticker asked for, a price that is that close rounded to
    cents, up or down, at most three news items, each with a title, the
    pending sentiment of score 0, and no RSI when the history has fewer
    than 15 bars. *)
Theorem get_stock_data_signal ticker0 config data :
  get_stock_data ticker0 config = Some data ->
  exists hist current,
    history (yf_Ticker ticker0) = OK hist
    /\ (5 <= List.length hist)%nat
    /\ iloc_from_end hist 0 = OK current
    /\ Close current <= get (max_stock_price config) 50
    /\ rounded_to 2 (Close current) (price data)
    /\ ticker data = ticker0
    /\ (List.length (news data) <= 3)%nat
    /\ Forall (fun n => nonempty (n_title n) = true) (news data)
    /\ ai_sentiment data = default_sentiment
    /\ ((List.length hist < 15)%nat -> rsi data = None).
Proof.
  intros H.
  destruct (get_stock_data_defaults _ _ _ H) as (Ea & _ & _ & _ & Hn & Ht).
  destruct (get_stock_data_fresh today strptime np_sqrt argsort_tie yf_Ticker _ _ _ H)
    as [Etk _].
  pose proof H as H0.
  unfold get_stock_data, stock_data_body in H.
  destruct (history (yf_Ticker ticker0)) as [hist|] eqn:Eh; cbn [bind] in H;
    [| discriminate H].
  destruct (List.length hist <? 5)%nat eqn:E5; [discriminate H |].
  destruct (iloc_from_end hist 0) as [current|] eqn:Ec; cbn [bind] in H;
    [| discriminate H].
  destruct (if (1 <? List.length hist)%nat then iloc_from_end hist 1 else OK current)
    as [prev|]; cbn [bind] in H; [| discriminate H].
  destruct (Qgtb (Close current) (get (max_stock_price config) 50)) eqn:Ep;
    [discriminate H |].
  destruct (if (5 <=? List.length hist)%nat then _ else _) as [m|];
    cbn [bind] in H; [| discriminate H].
  destruct (calendar_earnings (yf_Ticker ticker0)) as [ed dte0].
  exists hist, current. split; [reflexivity |].
  split; [apply Nat.ltb_ge in E5; exact E5 |]. split; [exact Ec |].
  split.
  { apply Qnot_lt_le. intros Hlt. apply (proj2 (Qgtb_true _ _)) in Hlt.
    rewrite Hlt in Ep. discriminate Ep. }
  split; [| split; [exact Etk | split; [exact Hn | split; [exact Ht |
            split; [exact Ea |]]]]].
  - ok_inj_some H. cbn [price]. apply round_rounded_to.
  - intros Hlen.
    exact (short_history_null_rsi today strptime np_sqrt argsort_tie yf_Ticker
             ticker0 config hist data Eh Hlen H0).
Qed.

End FirstPassFacts.

(** ** The RSI *)

Lemma fold_Qplus_nonneg l a :
  0 <= a -> Forall (fun x => 0 <= x) l -> 0 <= fold_left Qplus l a.
Proof.
  intros Ha Hl. revert a Ha. induction Hl as [|x l Hx _ IH]; intros a Ha.
  - exact Ha.
  - simpl. apply IH. lra.
Qed.

Lemma mean_nonneg l : Forall (fun x => 0 <= x) l -> 0 <= mean l.
Proof.
  intros Hl. unfold mean, sum, Qdiv. apply Qmult_le_0_compat.
  - apply fold_Qplus_nonneg; [lra | exact Hl].
  - apply Qinv_le_0_compat. unfold Qle. simpl. lia.
Qed.

Lemma fold_Qplus_zero l a :
  a == 0 -> Forall (fun x => x == 0) l -> fold_left Qplus l a == 0.
Proof.
  intros Ha Hl. revert a Ha. induction Hl as [|x l Hx _ IH]; intros a Ha.
  - exact Ha.
  - simpl. apply IH. rewrite Ha, Hx. reflexivity.
Qed.

Lemma mean_zero l : Forall (fun x => x == 0) l -> mean l == 0.
Proof.
  intros Hl. unfold mean, sum, Qdiv.
  rewrite (fold_Qplus_zero l 0 (Qeq_refl 0) Hl). apply Qmult_0_l.
Qed.

Lemma Forall_tail {A} (P : A -> Prop) n l : Forall P l -> Forall P (tail n l).
Proof.
  intros H. apply Forall_forall. intros x Hx.
  rewrite Forall_forall in H. apply H. exact (skipn_In _ _ _ Hx).
Qed.

Lemma tail_map {A B} (f : A -> B) n l : tail n (map f l) = map f (tail n l).
Proof. unfold tail. now rewrite length_map, skipn_map. Qed.

Lemma gains_nonneg delta :
  Forall (fun x => 0 <= x) (map (fun d => if Qgtb d 0 then d else 0) delta).
Proof.
  apply Forall_forall. intros x Hx. apply in_map_iff in Hx.
  destruct Hx as [d [<- _]]. destruct (Qgtb d 0) eqn:E; [| lra].
  apply Qgtb_true in E. lra.
Qed.

Lemma losses_nonneg delta :
  Forall (fun x => 0 <= x) (map (fun d => - (if Qltb d 0 then d else 0)) delta).
Proof.
  apply Forall_forall. intros x Hx. apply in_map_iff in Hx.
  destruct Hx as [d [<- _]]. destruct (Qltb d 0) eqn:E; [| lra].
  apply Qltb_true in E. lra.
Qed.

(** The value of the RSI formula lies between 0 and 100. *)
Lemma rsi_formula_range gain loss :
  0 <= gain -> 0 < loss -> 0 <= 100 - 100 / (1 + gain / loss) <= 100.
Proof.
  intros Hg Hl.
  assert (Hq : 0 <= gain / loss).
  { apply Qle_shift_div_l; [exact Hl | lra]. }
  assert (Hx : 0 < 1 + gain / loss) by lra.
  assert (H1 : 100 / (1 + gain / loss) <= 100).
  { apply Qle_shift_div_r; [exact Hx | lra]. }
  assert (H2 : 0 <= 100 / (1 + gain / loss)).
  { apply Qle_shift_div_l; [exact Hx | lra]. }
  lra.
Qed.

(** X11: an RSI is computed only from at least [period + 1] prices, and it
    lies between 0 and 100. *)
Theorem calculate_rsi_range prices period r :
  calculate_rsi prices period = Some r ->
  (period + 1 <= List.length prices)%nat /\ 0 <= r <= 100.
Proof.
  unfold calculate_rsi.
  destruct (List.length prices <? period + 1)%nat eqn:El; [discriminate |].
  apply Nat.ltb_ge in El. intros H. split; [exact El |].
  set (gain := mean (tail period (map (fun d => if Qgtb d 0 then d else 0)
                                    (diff prices)))) in *.
  set (loss := mean (tail period (map (fun d => - (if Qltb d 0 then d else 0))
                                    (diff prices)))) in *.
  assert (Hg : 0 <= gain) by apply mean_nonneg, Forall_tail, gains_nonneg.
  assert (Hl : 0 <= loss) by apply mean_nonneg, Forall_tail, losses_nonneg.
  destruct (Qeq_bool loss 0) eqn:E0.
  - destruct (Qeq_bool gain 0); [discriminate H |].
    injection H as <-. lra.
  - injection H as <-. apply rsi_formula_range; [exact Hg |].
    apply Qeq_bool_neq in E0. apply Qle_lteq in Hl.
    destruct Hl as [Hl | Hl]; [exact Hl |]. destruct E0. now symmetry.
Qed.

(** With no rise in the window the RSI is null or zero. *)
Lemma calculate_rsi_no_rise prices period :
  Forall (fun d => d <= 0) (tail period (diff prices)) ->
  truthy_num (calculate_rsi prices period) = false.
Proof.
  intros Hw. unfold calculate_rsi.
  destruct (List.length prices <? period + 1)%nat; [reflexivity |].
  set (gain := mean (tail period (map (fun d => if Qgtb d 0 then d else 0)
                                    (diff prices)))).
  set (loss := mean (tail period (map (fun d => - (if Qltb d 0 then d else 0))
                                    (diff prices)))).
  assert (Hg : gain == 0).
  { unfold gain. rewrite tail_map. apply mean_zero.
    apply Forall_forall. intros x Hx. apply in_map_iff in Hx.
    destruct Hx as [d [<- Hd]]. rewrite Forall_forall in Hw.
    specialize (Hw d Hd). destruct (Qgtb d 0) eqn:E; [| reflexivity].
    apply Qgtb_true in E. lra. }
  destruct (Qeq_bool loss 0) eqn:E0.
  - apply Qeq_bool_iff in Hg. now rewrite Hg.
  - simpl. apply negb_false_iff. apply Qeq_bool_iff.
    rewrite Hg. unfold Qdiv. rewrite Qmult_0_l, Qplus_0_r.
    setoid_replace (/ 1) with 1 by reflexivity. lra.
Qed.

(** Rounding stays within integer bounds. *)
Lemma round_half_even_bounds a b y :
  inject_Z a <= y -> y <= inject_Z b -> (a <= round_half_even y <= b)%Z.
Proof.
  intros Ha Hb.
  assert (Hfa : (a <= Qfloor y)%Z).
  { rewrite <- (Qfloor_Z a). now apply Qfloor_resp_le. }
  assert (Hfb : (Qfloor y <= b)%Z).
  { rewrite <- (Qfloor_Z b). now apply Qfloor_resp_le. }
  pose proof (Qfloor_le y) as Hfl.
  unfold round_half_even. cbv zeta.
  destruct (Qltb (y - inject_Z (Qfloor y)) (1 # 2)) eqn:E1; [lia |].
  assert (Hhalf : ~ y - inject_Z (Qfloor y) < 1 # 2).
  { intros C. apply Qltb_true in C. rewrite C in E1. discriminate E1. }
  assert (Hlt : (Qfloor y < b)%Z).
  { rewrite Zlt_Qlt. lra. }
  destruct (Qltb (1 # 2) (y - inject_Z (Qfloor y))); [lia |].
  destruct (Z.even (Qfloor y)); lia.
Qed.

Lemma round_bounds a b x n :
  inject_Z a <= x -> x <= inject_Z b ->
  inject_Z a <= round x n <= inject_Z b.
Proof.
  intros Ha Hb. unfold round. cbv zeta.
  set (p := (10 ^ Z.of_nat n)%Z).
  assert (Hp : (0 < p)%Z) by (apply Z.pow_pos_nonneg; lia).
  assert (Hs : 0 < inject_Z p) by (unfold Qlt; simpl; lia).
  destruct (round_half_even_bounds (a * p) (b * p) (x * inject_Z p)) as [H1 H2].
  - rewrite inject_Z_mult. apply Qmult_le_compat_r; [exact Ha | lra].
  - rewrite inject_Z_mult. apply Qmult_le_compat_r; [exact Hb | lra].
  - split.
    + apply Qle_shift_div_l; [exact Hs |].
      rewrite <- inject_Z_mult. now rewrite <- Zle_Qle.
    + apply Qle_shift_div_r; [exact Hs |].
      rewrite <- inject_Z_mult. now rewrite <- Zle_Qle.
Qed.

Lemma no_rise_or_rise l :
  Forall (fun d => d <= 0) l \/ Exists (fun d => 0 < d) l.
Proof.
  induction l as [|d l [IH | IH]].
  - left. constructor.
  - destruct (Qlt_le_dec 0 d) as [Hd | Hd].
    + right. now constructor.
    + left. now constructor.
  - right. now apply Exists_cons_tl.
Qed.

Section SignalFacts.

Variable today : Z.
Variable strptime : string -> option Z.
Variable np_sqrt : Q -> Q.
Variable argsort_tie : list Q -> nat.
Variable yf_Ticker : string -> Stock.
Variable get_discovered_info : string -> option string.
Variable completion : list string -> list string.
Variable openai_key : bool.
Variable ai_provider : string -> list string -> option Sentiment.
Variable strftime : Z -> string.
Variable now : string.

Local Abbreviation get_stock_data :=
  (get_stock_data today strptime np_sqrt argsort_tie yf_Ticker).
Local Abbreviation process_future :=
  (process_future today strptime np_sqrt argsort_tie yf_Ticker get_discovered_info).
Local Abbreviation scan :=
  (scan today strptime np_sqrt argsort_tie yf_Ticker get_discovered_info completion).
Local Abbreviation run_research :=
  (run_research today strptime np_sqrt argsort_tie yf_Ticker get_discovered_info
     completion openai_key ai_provider strftime now).

(** The RSI key of a signal, from the closes of its history. *)
Lemma get_stock_data_rsi ticker0 config data :
  get_stock_data ticker0 config = Some data ->
  exists hist,
    history (yf_Ticker ticker0) = OK hist
    /\ rsi data
       = if truthy_num (calculate_rsi (map Close hist) 14)
         then Some (round (get (calculate_rsi (map Close hist) 14) 0) 1)
         else None.
Proof.
  unfold get_stock_data, stock_data_body. intros H.
  destruct (history (yf_Ticker ticker0)) as [hist|]; cbn [bind] in H;
    [| discriminate H].
  destruct (List.length hist <? 5)%nat; [discriminate H |].
  destruct (iloc_from_end hist 0) as [current|]; cbn [bind] in H;
    [| discriminate H].
  destruct (if (1 <? List.length hist)%nat then iloc_from_end hist 1 else OK current)
    as [prev|]; cbn [bind] in H; [| discriminate H].
  destruct (Qgtb (Close current) (get (max_stock_price config) 50));
    [discriminate H |].
  destruct (if (5 <=? List.length hist)%nat then _ else _) as [m|];
    cbn [bind] in H; [| discriminate H].
  destruct (calendar_earnings (yf_Ticker ticker0)) as [ed dte0].
  exists hist. split; [reflexivity |]. ok_inj_some H. reflexivity.
Qed.

(** X12: the RSI of a signal, when it has one, lies between 0 and 100; the
    history then has at least 15 bars and the close rose on at least one
    of the last 14 days. *)
Theorem signal_rsi_range ticker0 config data r :
  get_stock_data ticker0 config = Some data ->
  rsi data = Some r ->
  0 <= r <= 100
  /\ exists hist,
       history (yf_Ticker ticker0) = OK hist
       /\ (15 <= List.length hist)%nat
       /\ Exists (fun d => 0 < d) (tail 14 (diff (map Close hist))).
Proof.
  intros H Hr. destruct (get_stock_data_rsi _ _ _ H) as (hist & Hh & E).
  rewrite Hr in E.
  destruct (truthy_num (calculate_rsi (map Close hist) 14)) eqn:Et;
    [| discriminate E].
  destruct (calculate_rsi (map Close hist) 14) as [raw|] eqn:Ec;
    [| discriminate Et].
  injection E as ->. cbn [get].
  destruct (calculate_rsi_range _ _ _ Ec) as [Hlen Hraw].
  split.
  - apply (round_bounds 0 100); [exact (proj1 Hraw) | exact (proj2 Hraw)].
  - exists hist. split; [exact Hh |]. split.
    + rewrite length_map in Hlen. exact Hlen.
    + destruct (no_rise_or_rise (tail 14 (diff (map Close hist))))
        as [Hall | Hex]; [| exact Hex].
      apply calculate_rsi_no_rise in Hall.
      rewrite Ec, Et in Hall. discriminate Hall.
Qed.

(** X13: a ticker whose close rose on none of the last 14 days of its
    history gets a null RSI, whether its closes fell or stayed flat, and
    appears in no scan and in no report. *)
Theorem no_rise_excluded ticker0 config hist :
  history (yf_Ticker ticker0) = OK hist ->
  Forall (fun d => d <= 0) (tail 14 (diff (map Close hist))) ->
  (forall data, get_stock_data ticker0 config = Some data -> rsi data = None)
  /\ (forall results, process_future config results ticker0 = results)
  /\ (forall universe, ~ In ticker0 (map ticker (scan config universe)))
  /\ forall universe out,
       run_research config universe = OK out ->
       ~ In ticker0 (map ticker (all_results out))
       /\ ~ In ticker0 (map ticker (top_picks out))
       /\ ~ In ticker0 (map ticker (cat_oversold_plays (categories out))).
Proof.
  intros Hh Hw.
  assert (Hnull : forall data, get_stock_data ticker0 config = Some data ->
                               rsi data = None).
  { intros data H. destruct (get_stock_data_rsi _ _ _ H) as (hist' & Hh' & E).
    rewrite Hh in Hh'. injection Hh' as <-.
    now rewrite (calculate_rsi_no_rise _ _ Hw) in E. }
  assert (Hfut : forall results, process_future config results ticker0 = results).
  { intros results.
    destruct (get_stock_data ticker0 config) as [data|] eqn:E.
    - exact (process_future_null_rsi today strptime np_sqrt argsort_tie yf_Ticker
               get_discovered_info config results ticker0 data E
               (Hnull data eq_refl)).
    - unfold process_future. now rewrite E. }
  split; [exact Hnull |]. split; [exact Hfut |]. split.
  - intros universe Hin. apply in_map_iff in Hin. destruct Hin as [r [Et Hr]].
    apply (scan_In today strptime np_sqrt argsort_tie yf_Ticker get_discovered_info
             completion) in Hr.
    rewrite Et, (Hfut []) in Hr. exact Hr.
  - intros universe out Hrun.
    destruct (absent_from_report today strptime np_sqrt argsort_tie yf_Ticker
                get_discovered_info completion openai_key ai_provider
                strftime now config universe out ticker0 (Hfut []) Hrun)
      as (H1 & H2 & _ & _ & H5 & _).
    split; [exact H1 |]. split; [exact H2 | exact H5].
Qed.

End SignalFacts.
(** ** Option suggestions *)

Lemma strike_le_trans asc a b c :
  strike_le asc a b -> strike_le asc b c -> strike_le asc a c.
Proof.
  unfold strike_le. destruct asc; intros H1 H2.
  - now apply Qle_trans with (strike b).
  - now apply Qle_trans with (strike b).
Qed.

Lemma insert_by_strike_perm asc r rows :
  Permutation (insert_by_strike asc r rows) (r :: rows).
Proof.
  induction rows as [|x rows IH]; simpl; [reflexivity |].
  destruct (if asc then Qltb (strike r) (strike x) else Qltb (strike x) (strike r));
    [reflexivity |].
  rewrite IH. apply perm_swap.
Qed.

Lemma sort_by_strike_perm asc rows : Permutation (sort_by_strike asc rows) rows.
Proof.
  unfold sort_by_strike.
  assert (G : forall acc,
             Permutation
               (fold_left (fun sorted r => insert_by_strike asc r sorted) rows acc)
               (rows ++ acc)).
  { induction rows as [|x rows IH]; intros acc; simpl; [reflexivity |].
    rewrite IH, insert_by_strike_perm. apply Permutation_sym, Permutation_middle. }
  rewrite G. now rewrite app_nil_r.
Qed.

Lemma insert_by_strike_sorted asc r rows :
  StronglySorted (strike_le asc) rows ->
  StronglySorted (strike_le asc) (insert_by_strike asc r rows).
Proof.
  induction rows as [|x rows IH]; intros H; simpl.
  - repeat constructor.
  - inversion H as [|? ? Hl Hx]; subst.
    destruct (if asc then Qltb (strike r) (strike x) else Qltb (strike x) (strike r))
      eqn:E.
    + assert (Hrx : strike_le asc r x).
      { unfold strike_le. destruct asc; apply Qltb_true in E;
          now apply Qlt_le_weak. }
      constructor; [exact H |]. constructor; [exact Hrx |].
      eapply Forall_impl; [| exact Hx]. intros z Hz.
      now apply strike_le_trans with x.
    + assert (Hxr : strike_le asc x r).
      { unfold strike_le. destruct asc; apply Qnot_lt_le; intros Hlt;
          apply Qltb_true in Hlt; rewrite Hlt in E; discriminate E. }
      constructor; [now apply IH |].
      apply Forall_forall. intros z Hz.
      apply (Permutation_in _ (insert_by_strike_perm asc r rows)) in Hz.
      destruct Hz as [<- | Hz]; [exact Hxr |].
      rewrite Forall_forall in Hx. now apply Hx.
Qed.

Lemma sort_by_strike_sorted asc rows :
  StronglySorted (strike_le asc) (sort_by_strike asc rows).
Proof.
  unfold sort_by_strike.
  assert (G : forall acc,
             StronglySorted (strike_le asc) acc ->
             StronglySorted (strike_le asc)
               (fold_left (fun sorted r => insert_by_strike asc r sorted) rows acc)).
  { induction rows as [|x rows IH]; intros acc Hacc; simpl; [exact Hacc |].
    apply IH. now apply insert_by_strike_sorted. }
  apply G. constructor.
Qed.

(** The first row of the sorted affordable rows beyond the price is the
    closest affordable one. *)
Lemma first_affordable asc cap price rows :
  closest_affordable asc cap price rows
    match
      filter (fun r => if asc then Qgeb (strike r) price
                       else Qle_bool (strike r) price)
        (sort_by_strike asc
           (filter (fun r => Qle_bool (lastPrice r) cap) rows))
    with
    | best :: _ => Some (make_suggestion asc best)
    | [] => None
    end.
Proof.
  set (otm := fun r => if asc then Qgeb (strike r) price
                       else Qle_bool (strike r) price).
  set (cheap := fun r => Qle_bool (lastPrice r) cap).
  assert (Hin : forall r,
             In r (filter otm (sort_by_strike asc (filter cheap rows)))
             <-> In r rows /\ affordable_otm asc cap price r).
  { intros r. rewrite filter_In. unfold affordable_otm, otm, cheap.
    split.
    - intros [Hr Ho].
      apply (Permutation_in _ (sort_by_strike_perm asc _)) in Hr.
      apply filter_In in Hr. destruct Hr as [Hr Hc].
      apply Qle_bool_iff in Hc. split; [exact Hr |]. split; [exact Hc |].
      destruct asc; [now apply Qgeb_true in Ho | now apply Qle_bool_iff in Ho].
    - intros [Hr [Hc Ho]]. split.
      + apply (Permutation_in _ (Permutation_sym (sort_by_strike_perm asc _))).
        apply filter_In. split; [exact Hr | now apply Qle_bool_iff].
      + destruct asc; [now apply Qgeb_true | now apply Qle_bool_iff]. }
  pose proof (StronglySorted_filter (strike_le asc) otm _
                (sort_by_strike_sorted asc (filter cheap rows))) as Hs.
  destruct (filter otm (sort_by_strike asc (filter cheap rows)))
    as [|best rest]; cbn [closest_affordable].
  - intros r Hr Ha. exact (proj2 (Hin r) (conj Hr Ha)).
  - destruct (proj1 (Hin best) (or_introl eq_refl)) as [Hb Hab].
    exists best. split; [exact Hb |]. split; [exact Hab |].
    split; [reflexivity |].
    intros r Hr Ha. destruct (proj2 (Hin r) (conj Hr Ha)) as [<- | Hrest].
    + unfold strike_le. destruct asc; apply Qle_refl.
    + inversion Hs as [|? ? _ Hall]; subst.
      rewrite Forall_forall in Hall. now apply Hall.
Qed.

Section SnapshotFacts.

Variable today : Z.
Variable strptime : string -> option Z.
Variable np_sqrt : Q -> Q.
Variable argsort_tie : list Q -> nat.

Local Abbreviation scan_expirations := (scan_expirations today strptime).
Local Abbreviation get_options_data :=
  (get_options_data today strptime np_sqrt argsort_tie).
Local Abbreviation chosen_expiration := (chosen_expiration today strptime).
Local Abbreviation is_future := (is_future today strptime).
Local Abbreviation is_weekly := (is_weekly today strptime).

(** The loop over the expirations ends normally only when every date
    parses. *)
Lemma scan_expirations_parsed dates found found' :
  scan_expirations dates found = OK found' ->
  Forall (fun s => strptime s <> None) dates.
Proof.
  revert found. induction dates as [|s rest IH]; intros found H.
  - constructor.
  - simpl in H. unfold parse_date in H.
    destruct (strptime s) as [d|] eqn:Es; cbn [bind] in H; [| discriminate H].
    destruct found as [nearest weekly].
    constructor; [rewrite Es; discriminate |].
    exact (IH _ H).
Qed.

(** What a populated snapshot was drawn from. *)
Lemma get_options_data_drawn stock price config snap :
  get_options_data stock price config = Some snap ->
  exists dates chain exp_date,
    option_dates stock = OK dates
    /\ Forall (fun s => strptime s <> None) (firstn 5 dates)
    /\ (if truthy_str (find is_weekly (firstn 5 dates))
        then find is_weekly (firstn 5 dates)
        else find is_future (firstn 5 dates)) = Some (expiration snap)
    /\ nonempty (expiration snap) = true
    /\ option_chain stock (expiration snap) = OK chain
    /\ strptime (expiration snap) = Some exp_date
    /\ dte snap = (exp_date - today)%Z
    /\ call_suggestion snap
       = match filter (fun r => Qgeb (strike r) price)
                 (sort_by_strike true
                    (filter (fun r => Qle_bool (lastPrice r)
                                        (get (max_option_premium config) 2))
                       (calls chain))) with
         | best_call :: _ => Some (make_suggestion true best_call)
         | [] => None
         end
    /\ put_suggestion snap
       = match filter (fun r => Qle_bool (strike r) price)
                 (sort_by_strike false
                    (filter (fun r => Qle_bool (lastPrice r)
                                        (get (max_option_premium config) 2))
                       (puts chain))) with
         | best_put :: _ => Some (make_suggestion false best_put)
         | [] => None
         end.
Proof.
  unfold get_options_data, options_data_body. intros H.
  destruct (option_dates stock) as [dates|]; cbn [bind] in H; [| discriminate H].
  destruct dates as [|d0 ds]; [discriminate H |].
  destruct (scan_expirations (firstn 5 (d0 :: ds)) (None, None))
    as [[nearest weekly]|] eqn:Escan; cbn [bind] in H; [| discriminate H].
  pose proof (scan_expirations_parsed _ _ _ Escan) as Hparsed.
  rewrite (scan_expirations_finds today strptime _ None None Hparsed) in Escan.
  cbn [or_else] in Escan. injection Escan as <- <-.
  destruct (if truthy_str _ then _ else _) as [target|] eqn:Et;
    [| discriminate H].
  destruct (nonempty target) eqn:En; cbn [negb] in H; [| discriminate H].
  destruct (option_chain stock target) as [chain|] eqn:Echain; cbn [bind] in H;
    [| discriminate H].
  destruct (calls chain) as [|c cs] eqn:Ec; [discriminate H |].
  destruct (puts chain) as [|p ps] eqn:Ep; [discriminate H |].
  unfold parse_date in H.
  destruct (strptime target) as [exp_date|] eqn:Es; cbn [bind] in H;
    [| discriminate H].
  ok_inj_some H. cbn [expiration dte call_suggestion put_suggestion].
  exists (d0 :: ds), chain, exp_date. rewrite Ec, Ep.
  repeat split; try reflexivity; assumption.
Qed.

(** X14: the expiration of a populated snapshot is one of the first five
    listed dates, the first of them that lies 5 to 10 days out or, when
    there is none, the first that lies in the future; its DTE counts the
    days to it and is at least 1, and lies between 5 and 10 whenever one of
    the first five dates does. *)
Theorem snapshot_expiration stock price config snap :
  strptime EmptyString = None ->
  get_options_data stock price config = Some snap ->
  exists dates,
    option_dates stock = OK dates
    /\ chosen_expiration dates = Some (expiration snap)
    /\ In (expiration snap) (firstn 5 dates)
    /\ strptime (expiration snap) = Some (today + dte snap)%Z
    /\ (1 <= dte snap)%Z
    /\ (Exists (fun d => is_weekly d = true) (firstn 5 dates) ->
        (5 <= dte snap <= 10)%Z).
Proof.
  intros Hempty H.
  destruct (get_options_data_drawn _ _ _ _ H)
    as (dates & chain & exp_date & Hd & Hp & Ht & _ & _ & Hs & Hdte & _).
  rewrite (target_is_chosen today strptime dates Hempty Hp) in Ht.
  exists dates. split; [exact Hd |]. split; [exact Ht |].
  split; [exact (chosen_expiration_In today strptime _ _ Ht) |].
  split; [rewrite Hs, Hdte; f_equal; lia |].
  unfold chosen_expiration in Ht.
  destruct (find is_weekly (firstn 5 dates)) as [w|] eqn:Ew.
  - injection Ht as ->. apply find_some in Ew. destruct Ew as [_ Ew].
    unfold is_weekly, days_out in Ew. rewrite Hs in Ew. cbn [option_map] in Ew.
    rewrite <- Hdte in Ew.
    apply andb_prop in Ew. destruct Ew as [Ew E10].
    apply andb_prop in Ew. destruct Ew as [E1 E5].
    apply Z.leb_le in E1, E5, E10. split; [exact E1 |]. intros _. lia.
  - split.
    + apply find_some in Ht. destruct Ht as [_ Ef].
      unfold is_future, days_out in Ef. rewrite Hs in Ef.
      cbn [option_map] in Ef. rewrite <- Hdte in Ef. now apply Z.leb_le in Ef.
    + intros Hex. apply Exists_exists in Hex. destruct Hex as [d [Hin Hw]].
      pose proof (find_none _ _ Ew d Hin) as Hn.
      rewrite Hw in Hn. discriminate Hn.
Qed.

(** X15: in a populated snapshot the call suggestion is drawn from the call
    of the chosen expiration with the lowest strike among those at or above
    the price whose last price is within [max_option_premium], and the put
    suggestion from the put with the highest strike among those at or below
    the price and within the premium; a suggestion is null exactly when no
    row qualifies. *)
Theorem suggestions_closest_affordable stock price config snap :
  get_options_data stock price config = Some snap ->
  exists chain,
    option_chain stock (expiration snap) = OK chain
    /\ closest_affordable true (get (max_option_premium config) 2) price
         (calls chain) (call_suggestion snap)
    /\ closest_affordable false (get (max_option_premium config) 2) price
         (puts chain) (put_suggestion snap).
Proof.
  intros H.
  destruct (get_options_data_drawn _ _ _ _ H)
    as (dates & chain & exp_date & _ & _ & _ & _ & Hc & _ & _ & Ecall & Eput).
  exists chain. split; [exact Hc |]. rewrite Ecall, Eput. split.
  - exact (first_affordable true _ price (calls chain)).
  - exact (first_affordable false _ price (puts chain)).
Qed.

End SnapshotFacts.
(** ** Ticker universe *)

Lemma ticker_in_In t l : ticker_in t l = true <-> In t l.
Proof.
  unfold ticker_in. rewrite existsb_exists. split.
  - intros [x [Hx E]]. apply String.eqb_eq in E. now subst.
  - intros H. exists t. split; [exact H | apply String.eqb_refl].
Qed.

Lemma ticker_in_not_In t l : ticker_in t l = false <-> ~ In t l.
Proof.
  rewrite <- ticker_in_In. destruct (ticker_in t l); split; intros H;
    try discriminate; try reflexivity.
  now destruct H.
Qed.

(** Appending the custom tickers keeps the list it starts from and adds,
    once each, the custom tickers it does not hold. *)
Lemma append_custom_fresh custom :
  forall base,
  exists fresh,
    append_custom base custom = base ++ fresh
    /\ (forall t, In t fresh <-> In t custom /\ ~ In t base)
    /\ (NoDup base -> NoDup (base ++ fresh)).
Proof.
  unfold append_custom.
  induction custom as [|t custom IH]; intros base; simpl.
  - exists []. rewrite app_nil_r. split; [reflexivity |]. split.
    + intros t. simpl. tauto.
    + intros H. exact H.
  - destruct (ticker_in t base) eqn:E.
    + apply ticker_in_In in E.
      destruct (IH base) as (fresh & Ha & Hf & Hn).
      exists fresh. split; [exact Ha |]. split; [| exact Hn].
      intros t'. rewrite Hf. split.
      * intros [H1 H2]. split; [now right | exact H2].
      * intros [[<- | H1] H2]; [now destruct H2 | now split].
    + apply ticker_in_not_In in E.
      destruct (IH (base ++ [t])) as (fresh & Ha & Hf & Hn).
      exists (t :: fresh). rewrite Ha, <- app_assoc. split; [reflexivity |].
      split.
      * intros t'. simpl. rewrite Hf. split.
        -- intros [<- | [H1 H2]]; [split; [now left | exact E] |].
           split; [now right |]. intros C. apply H2. apply in_or_app. now left.
        -- intros [[<- | H1] H2]; [now left |].
           destruct (string_dec t t') as [<- | Hne]; [now left | right].
           split; [exact H1 |]. intros C. apply in_app_or in C.
           destruct C as [C | [C | []]]; [now apply H2 | now apply Hne].
      * intros Hb. rewrite <- app_assoc in Hn. apply Hn.
        apply NoDup_app; [exact Hb | repeat constructor; intros [] |].
        intros x Hx [<- | []]. now apply E.
Qed.

(** Custom tickers that are all listed already add nothing. *)
Lemma append_custom_known base known :
  (forall t, In t known -> In t base) -> append_custom base known = base.
Proof.
  unfold append_custom. induction known as [|t known IH]; intros H; simpl.
  - reflexivity.
  - rewrite (proj2 (ticker_in_In t base) (H t (or_introl eq_refl))).
    apply IH. intros t' Ht'. apply H. now right.
Qed.

Lemma append_custom_app base l1 l2 :
  append_custom base (l1 ++ l2) = append_custom (append_custom base l1) l2.
Proof. unfold append_custom. apply fold_left_app. Qed.

Lemma ROBINHOOD_POPULAR_NoDup : NoDup ROBINHOOD_POPULAR.
Proof.
  assert (E : nodup string_dec ROBINHOOD_POPULAR = ROBINHOOD_POPULAR)
    by (vm_compute; reflexivity).
  rewrite <- E. apply NoDup_nodup.
Qed.

Lemma NoDup_firstn_of {A} n (l : list A) : NoDup l -> NoDup (firstn n l).
Proof.
  intros H. rewrite <- (firstn_skipn n l) in H.
  exact (NoDup_app_remove_r _ _ H).
Qed.

Lemma NoDup_slice_to {A} (l : list A) n : NoDup l -> NoDup (slice_to l n).
Proof. unfold slice_to. destruct (0 <=? n)%Z; apply NoDup_firstn_of. Qed.

(** The universe of a readable file. *)
Lemma get_universe_popular_first_aux custom max_tickers :
  exists fresh,
    get_universe (Some (OK custom)) max_tickers
    = OK (slice_to (ROBINHOOD_POPULAR ++ fresh) (get max_tickers 100%Z))
    /\ (forall t, In t fresh <-> In t custom /\ ~ In t ROBINHOOD_POPULAR).
Proof.
  destruct (append_custom_fresh custom ROBINHOOD_POPULAR) as (fresh & Ha & Hf & _).
  exists fresh. unfold get_universe. cbn [bind]. rewrite Ha.
  split; [reflexivity | exact Hf].
Qed.

(** X16: with a readable universe file the universe is a slice of the
    popular list followed by the custom tickers it does not hold, each
    once; it has no duplicates; and with [max_tickers] between 0 and the
    128 of the popular list, 100 by default, the file changes nothing: the
    universe is the first [max_tickers] popular tickers. *)
Theorem get_universe_popular_first custom max_tickers :
  exists fresh,
    get_universe (Some (OK custom)) max_tickers
    = OK (slice_to (ROBINHOOD_POPULAR ++ fresh) (get max_tickers 100%Z))
    /\ (forall t, In t fresh <-> In t custom /\ ~ In t ROBINHOOD_POPULAR)
    /\ NoDup (slice_to (ROBINHOOD_POPULAR ++ fresh) (get max_tickers 100%Z))
    /\ ((0 <= get max_tickers 100 <= 128)%Z ->
        get_universe (Some (OK custom)) max_tickers
        = OK (firstn (Z.to_nat (get max_tickers 100%Z)) ROBINHOOD_POPULAR)
        /\ get_universe None max_tickers
           = get_universe (Some (OK custom)) max_tickers).
Proof.
  destruct (append_custom_fresh custom ROBINHOOD_POPULAR) as (fresh & Ha & Hf & Hn).
  exists fresh. unfold get_universe. cbn [bind]. rewrite Ha.
  split; [reflexivity |]. split; [exact Hf |]. split.
  - apply NoDup_slice_to, Hn, ROBINHOOD_POPULAR_NoDup.
  - intros [H0 H128]. unfold slice_to.
    apply Z.leb_le in H0. rewrite H0. apply Z.leb_le in H0.
    assert (E : firstn (Z.to_nat (get max_tickers 100%Z))
                  (ROBINHOOD_POPULAR ++ fresh)
                = firstn (Z.to_nat (get max_tickers 100%Z)) ROBINHOOD_POPULAR).
    { rewrite firstn_app.
      replace (Z.to_nat (get max_tickers 100%Z) - List.length ROBINHOOD_POPULAR)%nat
        with 0%nat.
      - cbn [firstn]. apply app_nil_r.
      - change (List.length ROBINHOOD_POPULAR) with 128%nat. lia. }
    rewrite E. split; reflexivity.
Qed.

Lemma tradeable_symbols_In assets tradeable t :
  tradeable_symbols assets = Some tradeable -> In t tradeable ->
  exists a,
    In a assets /\ a_symbol a = Some t
    /\ a_tradable a = true /\ a_fractionable a = true
    /\ endswith t "W" = false /\ (String.length t <= 5)%nat.
Proof.
  revert tradeable. induction assets as [|a rest IH]; intros tradeable H Hin.
  - injection H as <-. destruct Hin.
  - simpl in H.
    destruct (a_tradable a && a_fractionable a
              && negb (endswith (get (a_symbol a) EmptyString) "W")
              && (String.length (get (a_symbol a) EmptyString) <=? 5)%nat) eqn:E.
    + destruct (a_symbol a) as [s|] eqn:Es; [| discriminate H].
      destruct (tradeable_symbols rest) as [l|]; [| discriminate H].
      injection H as <-. destruct Hin as [<- | Hin].
      * exists a. cbn [get] in E.
        apply andb_prop in E. destruct E as [E E5].
        apply andb_prop in E. destruct E as [E EW].
        apply andb_prop in E. destruct E as [Et Ef].
        apply negb_true_iff in EW. apply Nat.leb_le in E5.
        repeat split; try assumption. now left.
      * destruct (IH l eq_refl Hin) as (a' & Ha' & Hrest).
        exists a'. split; [now right | exact Hrest].
    + destruct (IH tradeable H Hin) as (a' & Ha' & Hrest).
      exists a'. split; [now right | exact Hrest].
Qed.

(** X17: after an update from an answered request the universe is the one
    of a file that lists just the first 200 tradeable symbols outside the
    popular list, whatever order the set of popular tickers was written
    in; so every ticker of the universe is a popular one or the symbol of a
    tradable, fractionable asset of at most five characters that does not
    end in W. *)
Theorem universe_after_update set_to_list universe_file assets tradeable
    max_tickers :
  Permutation (set_to_list ROBINHOOD_POPULAR) ROBINHOOD_POPULAR ->
  tradeable_symbols assets = Some tradeable ->
  get_universe
    (update_universe_from_alpaca true (Some assets) set_to_list universe_file)
    max_tickers
  = get_universe
      (Some (OK (firstn 200
                   (filter (fun t => negb (ticker_in t ROBINHOOD_POPULAR))
                      tradeable))))
      max_tickers
  /\ forall universe t,
       get_universe
         (update_universe_from_alpaca true (Some assets) set_to_list
            universe_file)
         max_tickers = OK universe ->
       In t universe ->
       In t ROBINHOOD_POPULAR
       \/ exists a,
            In a assets /\ a_symbol a = Some t
            /\ a_tradable a = true /\ a_fractionable a = true
            /\ endswith t "W" = false /\ (String.length t <= 5)%nat.
Proof.
  intros Hperm Ht.
  set (new_tickers :=
         filter (fun t => negb (ticker_in t ROBINHOOD_POPULAR)) tradeable).
  assert (E : get_universe
                (update_universe_from_alpaca true (Some assets) set_to_list
                   universe_file) max_tickers
              = get_universe (Some (OK (firstn 200 new_tickers))) max_tickers).
  { unfold update_universe_from_alpaca. cbn [negb]. rewrite Ht.
    fold new_tickers. unfold get_universe. cbn [bind].
    rewrite append_custom_app.
    rewrite (append_custom_known ROBINHOOD_POPULAR
               (set_to_list ROBINHOOD_POPULAR)); [reflexivity |].
    intros t. apply Permutation_in. exact Hperm. }
  split; [exact E |].
  intros universe t Hu Hin. rewrite E in Hu.
  destruct (get_universe_popular_first_aux (firstn 200 new_tickers) max_tickers)
    as (fresh & Hg & Hf).
  rewrite Hg in Hu. injection Hu as <-.
  assert (Hin' : In t (ROBINHOOD_POPULAR ++ fresh)).
  { unfold slice_to in Hin. destruct (0 <=? get max_tickers 100%Z)%Z;
      exact (firstn_In _ _ _ Hin). }
  apply in_app_or in Hin'. destruct Hin' as [Hp | Hfresh]; [now left | right].
  apply Hf in Hfresh. destruct Hfresh as [Hnew _].
  apply firstn_In in Hnew. apply filter_In in Hnew.
  exact (tradeable_symbols_In assets tradeable t Ht (proj1 Hnew)).
Qed.
(** ** Trade ideas of the report *)

(** A generated trade idea agrees with the dict it was generated from. *)
Lemma generate_trade_idea_agrees data s idea :
  generate_trade_idea data s (reasons_of data) = OK idea ->
  idea_agrees (set_trade_idea data idea).
Proof.
  unfold generate_trade_idea. intros H.
  destruct (direction_of_votes (count_votes data)) as [direction bias] eqn:Ed.
  destruct (calculate_entry_exit data (options data)) as [ee|];
    cbn [bind] in H; [| discriminate H].
  ok_inj H. eexists. split; [reflexivity |].
  cbn [ti_direction ti_bias ti_reasons ti_suggested_option ti_expiry].
  split; [symmetry; exact Ed |]. split; [reflexivity |]. split; [reflexivity |].
  cbn [days_to_earnings set_trade_idea].
  destruct (days_to_earnings data) as [d|].
  - destruct (truthy_int (Some d) && (1 <=? d) && (d <=? 7))%Z eqn:E.
    + split; [| intros _; eexists; reflexivity].
      intros _. exists d. split; [reflexivity |].
      apply andb_prop in E. destruct E as [E E7].
      apply andb_prop in E. destruct E as [_ E1].
      apply Z.leb_le in E1, E7. lia.
    + split.
      * intros [e He]. destruct (options data) as [o|];
          [destruct (nonempty (expiration o)) |]; discriminate He.
      * intros (d' & [= <-] & H1 & H7). exfalso.
        assert (Hd : truthy_int (Some d) = true).
        { unfold truthy_int. apply negb_true_iff. apply Z.eqb_neq. lia. }
        rewrite Hd in E. apply Z.leb_le in H1, H7. rewrite H1, H7 in E.
        discriminate E.
  - split.
    + intros [e He]. destruct (options data) as [o|];
        [destruct (nonempty (expiration o)) |]; discriminate He.
    + intros (d' & Hd & _). discriminate Hd.
Qed.

Section IdeaFacts.

Variable today : Z.
Variable strptime : string -> option Z.
Variable np_sqrt : Q -> Q.
Variable argsort_tie : list Q -> nat.
Variable yf_Ticker : string -> Stock.
Variable get_discovered_info : string -> option string.
Variable completion : list string -> list string.
Variable openai_key : bool.
Variable ai_provider : string -> list string -> option Sentiment.
Variable strftime : Z -> string.
Variable now : string.

Local Abbreviation get_stock_data :=
  (get_stock_data today strptime np_sqrt argsort_tie yf_Ticker).
Local Abbreviation process_future :=
  (process_future today strptime np_sqrt argsort_tie yf_Ticker get_discovered_info).
Local Abbreviation scan :=
  (scan today strptime np_sqrt argsort_tie yf_Ticker get_discovered_info completion).
Local Abbreviation run_research :=
  (run_research today strptime np_sqrt argsort_tie yf_Ticker get_discovered_info
     completion openai_key ai_provider strftime now).

Lemma process_future_agrees config ticker0 r :
  In r (process_future config [] ticker0) -> idea_agrees r.
Proof.
  unfold process_future. intros H.
  destruct (get_stock_data ticker0 config) as [data|]; [| destruct H].
  set (data' := match get_discovered_info ticker0 with
                | Some info => if nonempty info then set_discovery data info else data
                | None => data
                end) in *.
  destruct (score_opportunity data' config) as [[s rs]|]; cbn [bind] in H;
    [| destruct H].
  destruct (Qgeb s (get (min_score config) 0)); [| destruct H].
  destruct (generate_trade_idea (set_score data' s rs) s rs) as [idea|] eqn:E;
    cbn [bind] in H; [| destruct H].
  simpl in H. destruct H as [<- | []].
  exact (generate_trade_idea_agrees (set_score data' s rs) s idea E).
Qed.

Lemma enrich_agrees config r r' :
  enrich openai_key ai_provider config r = OK r' ->
  idea_agrees r -> idea_agrees r'.
Proof.
  unfold enrich. intros H Hr.
  destruct (map n_title _) as [|h hs]; [now ok_inj H |].
  match type of H with
  | bind ?c _ = _ => destruct c as [r1|]; cbn [bind] in H; [| discriminate H]
  end.
  destruct (generate_trade_idea r1 (score_of r1) (reasons_of r1)) as [idea|] eqn:E;
    cbn [bind] in H; [| discriminate H].
  ok_inj H. exact (generate_trade_idea_agrees r1 (score_of r1) idea E).
Qed.

(** X18: every result of a report holds a trade idea that agrees with the
    result as reported, sentiment included: direction and bias follow the
    votes of its momentum, trend, sentiment and RSI, the reasons are the
    result's reasons, the suggested option is the call suggestion of its
    options snapshot for a CALL and the put suggestion otherwise, for a
    STRADDLE too, and the expiry runs through earnings exactly when
    earnings are 1 to 7 days away. *)
Theorem report_ideas_agree config universe out :
  run_research config universe = OK out ->
  Forall idea_agrees (all_results out).
Proof.
  intros H. apply Forall_forall. intros r Hr.
  destruct (all_results_origin today strptime np_sqrt argsort_tie yf_Ticker
              get_discovered_info completion openai_key ai_provider
              strftime now config universe out r H Hr)
    as (r0 & Hr0 & Hor).
  apply (scan_In today strptime np_sqrt argsort_tie yf_Ticker get_discovered_info
           completion) in Hr0.
  apply process_future_agrees in Hr0.
  destruct Hor as [-> | He]; [exact Hr0 |].
  exact (enrich_agrees config r0 r He Hr0).
Qed.

End IdeaFacts.
(** ** What the journal records of a run *)

Section JournalOfRun.

Variable today : Z.
Variable strptime : string -> option Z.
Variable np_sqrt : Q -> Q.
Variable argsort_tie : list Q -> nat.
Variable yf_Ticker : string -> Stock.
Variable get_discovered_info : string -> option string.
Variable completion : list string -> list string.
Variable openai_key : bool.
Variable ai_provider : string -> list string -> option Sentiment.
Variable strftime : Z -> string.
Variable now : string.
Variable journal_provider : Output -> result (option string).
Variable OPENAI_MODEL : string.
Variable RESEARCH_JOURNAL_MAX_ENTRIES : option Z.

Local Abbreviation scan :=
  (scan today strptime np_sqrt argsort_tie yf_Ticker get_discovered_info completion).
Local Abbreviation run_research :=
  (run_research today strptime np_sqrt argsort_tie yf_Ticker get_discovered_info
     completion openai_key ai_provider strftime now).
Local Abbreviation append_research_journal :=
  (append_research_journal openai_key now journal_provider OPENAI_MODEL
     RESEARCH_JOURNAL_MAX_ENTRIES).
Local Abbreviation new_entry :=
  (new_entry openai_key now journal_provider OPENAI_MODEL).
Local Abbreviation max_entries := (max_entries RESEARCH_JOURNAL_MAX_ENTRIES).

(** The optional note leaves the basic entry as built. *)
Lemma new_entry_basic output config :
  je_created_at (new_entry output config)
  = je_created_at (_build_basic_research_journal_entry now output)
  /\ je_title (new_entry output config)
     = je_title (_build_basic_research_journal_entry now output)
  /\ je_summary (new_entry output config)
     = je_summary (_build_basic_research_journal_entry now output)
  /\ je_top_picks (new_entry output config)
     = je_top_picks (_build_basic_research_journal_entry now output).
Proof.
  unfold new_entry, add_ai_journal.
  destruct (openai_key && get (use_ai_sentiment config) true);
    [| now repeat split].
  destruct (journal_provider output) as [[note|]|]; now repeat split.
Qed.

(** The fields of the report the journal entry is built from. *)
Lemma run_research_summary config universe out :
  run_research config universe = OK out ->
  generated_at out = now
  /\ top_picks out = firstn 10 (all_results out)
  /\ summary out
     = {| total_scanned := List.length universe;
          passed_filters := List.length (all_results out);
          opportunities_found :=
            List.length (filter (fun r => Qgeb (score_of r) 4) (all_results out));
          earnings_upcoming := List.length (earnings_plays (all_results out));
          oversold_count := List.length (oversold_plays (all_results out)) |}.
Proof.
  unfold run_research. intros H.
  match type of H with
  | bind ?c _ = _ => destruct c as [results|]; cbn [bind] in H;
                     [| discriminate H]
  end.
  ok_inj H. cbn [generated_at top_picks summary all_results].
  repeat split.
Qed.

(** X19: with room for at least one entry, the journal written after a run
    starts with the entry of that run: it is stamped with the report's
    [generated_at], counts the tickers scanned and the results that passed,
    the results scoring 4 or more, the earnings plays and the oversold
    plays, and lists the five best results of the report in order, each
    with its ticker, its score rounded to one decimal, the direction of its
    trade idea and the summary of its sentiment. *)
Theorem journal_records_run config universe out entries :
  run_research config universe = OK out ->
  (1 <= max_entries)%Z ->
  exists entry rest,
    append_research_journal entries out config = entry :: rest
    /\ je_created_at entry = Some (generated_at out)
    /\ je_summary entry = (List.length universe, List.length (all_results out))
    /\ je_title entry
       = (List.length (filter (fun r => Qgeb (score_of r) 4) (all_results out)),
          List.length (earnings_plays (all_results out)),
          List.length (oversold_plays (all_results out)))
    /\ Forall2
         (fun r p =>
            pk_ticker p = ticker r
            /\ pk_score p = Some (round (score_of r) 1)
            /\ (exists idea, trade_idea r = Some idea
                             /\ pk_direction p = Some (ti_direction idea))
            /\ pk_ai_summary p = s_summary (ai_sentiment r))
         (firstn 5 (all_results out)) (je_top_picks entry).
Proof.
  intros H Hmax.
  destruct (run_research_summary _ _ _ H) as (Eg & Et & Es).
  rewrite (append_research_journal_cons openai_key now journal_provider
             OPENAI_MODEL RESEARCH_JOURNAL_MAX_ENTRIES entries out config Hmax).
  eexists. eexists. split; [reflexivity |].
  destruct (new_entry_basic out config) as (Ec & Eti & Esu & Ep).
  rewrite Ec, Eti, Esu, Ep. unfold _build_basic_research_journal_entry.
  cbn [je_created_at je_title je_summary je_top_picks]. rewrite Es, Et.
  cbn [total_scanned passed_filters opportunities_found earnings_upcoming
       oversold_count].
  split; [rewrite Eg; now destruct (nonempty now) |].
  split; [reflexivity |]. split; [reflexivity |].
  rewrite firstn_firstn. change (Nat.min 5 10) with 5%nat.
  assert (Hall : Forall (scored (get (min_score config) 0)) (firstn 5 (all_results out))).
  { apply Forall_forall. intros r Hr. apply firstn_In in Hr.
    destruct (all_results_origin today strptime np_sqrt argsort_tie yf_Ticker
                get_discovered_info completion openai_key ai_provider
                strftime now config universe out r H Hr)
      as (r0 & Hr0 & Hor).
    apply (scan_scored today strptime np_sqrt argsort_tie yf_Ticker get_discovered_info
             completion) in Hr0.
    destruct Hor as [-> | He]; [exact Hr0 |].
    exact (proj2 (proj2 (enrich_keeps openai_key ai_provider config _ r0 r He))
             Hr0). }
  induction Hall as [|r rs Hr _ IH]; cbn [map]; constructor; [| exact IH].
  destruct Hr as (s & reasons0 & idea & Hs & _ & Hi & _).
  cbn [pk_ticker pk_score pk_direction pk_ai_summary].
  split; [reflexivity |]. unfold score_of. rewrite Hs, Hi. cbn [option_map get].
  split; [reflexivity |]. split; [| reflexivity].
  exists idea. split; reflexivity.
Qed.

End JournalOfRun.
(** ** The retries of the Responses request *)

(** What a change to the body can be: the temperature stays absent and the
    reasoning effort steps down. *)
Lemma adjust_steps txt reasoning body' :
  adjust txt (mkBody false reasoning) = (body', true) ->
  b_temperature body' = false
  /\ match reasoning with
     | Some low => b_reasoning body' = Some medium \/ b_reasoning body' = None
     | Some medium => b_reasoning body' = None
     | None => False
     end.
Proof.
  unfold adjust. cbn [b_temperature b_reasoning]. rewrite andb_false_r.
  destruct (contains "reasoning.effort" txt || contains "reasoning" txt);
    destruct (contains "Unsupported parameter: 'reasoning'" txt
              || contains "Unknown parameter: 'reasoning'" txt);
    destruct reasoning as [[|]|]; cbn; intros [= <-]; cbn; auto; discriminate.
Qed.

(** X20: the Responses request posts at least once and at most three times;
    no body carries a temperature; the first body asks for a low reasoning
    effort and each later one for less, medium and then none, so no body is
    sent twice; and a round is followed by another only after a 400. *)
Theorem responses_request_bounded post :
  let '(sent, resp) := responses_request post in
  (1 <= List.length sent <= 3)%nat
  /\ Forall (fun b => b_temperature b = false) sent
  /\ In (map b_reasoning sent)
       [ [Some low]; [Some low; Some medium]; [Some low; None];
         [Some low; Some medium; None] ]
  /\ NoDup sent
  /\ forall earlier b later,
       sent = earlier ++ b :: later -> later <> [] ->
       exists r, post earlier b = Some r /\ r_status_code r = 400%Z.
Proof.
  unfold responses_request.
  assert (Hsplit1 : forall (a : Body) earlier b later,
             [a] = earlier ++ b :: later -> later <> [] -> False).
  { intros a [|x [|y earlier]] b later H Hl; injection H as _ H;
      [now subst later | destruct later; discriminate H ..]. }
  cbn [retry_loop app].
  destruct (post [] _) as [r1|] eqn:E1.
  2:{ split; [cbn; lia |]. split; [repeat constructor |].
      split; [cbn; auto |]. split; [repeat constructor; intros [] |].
      intros earlier b later H Hl. destruct (Hsplit1 _ _ _ _ H Hl). }
  destruct (r_status_code r1 =? 400)%Z eqn:S1; cbn [negb].
  2:{ split; [cbn; lia |]. split; [repeat constructor |].
      split; [cbn; auto |]. split; [repeat constructor; intros [] |].
      intros earlier b later H Hl. destruct (Hsplit1 _ _ _ _ H Hl). }
  apply Z.eqb_eq in S1.
  destruct (adjust (r_text r1) _) as [body2 [|]] eqn:A1; cbn [negb].
  2:{ split; [cbn; lia |]. split; [repeat constructor |].
      split; [cbn; auto |]. split; [repeat constructor; intros [] |].
      intros earlier b later H Hl. destruct (Hsplit1 _ _ _ _ H Hl). }
  destruct (adjust_steps _ _ _ A1) as [T2 R2].
  destruct body2 as [t2 reasoning2]. cbn [b_temperature b_reasoning] in T2, R2.
  subst t2.
  assert (Hsplit2 : forall (a c : Body) earlier b later,
             [a; c] = earlier ++ b :: later -> later <> [] ->
             earlier = [] /\ b = a).
  { intros a c [|x [|y [|z earlier]]] b later H Hl.
    - injection H as <- _. now split.
    - injection H as _ _ H. now subst later.
    - injection H as _ _ H. destruct later; discriminate H.
    - injection H as _ _ H. destruct later; discriminate H. }
  assert (Hfirst : forall earlier b,
             earlier = [] /\ b = mkBody false (Some low) ->
             exists r, post earlier b = Some r /\ r_status_code r = 400%Z).
  { intros earlier b [-> ->]. exists r1. now split. }
  destruct (post [_] _) as [r2|] eqn:E2.
  2:{ split; [cbn; lia |]. split; [repeat constructor |]. split.
      - destruct R2 as [-> | ->]; cbn; auto.
      - split.
        + constructor; [| repeat constructor; intros []].
          intros [C | []]. destruct R2 as [-> | ->]; discriminate C.
        + intros earlier b later H Hl. exact (Hfirst _ _ (Hsplit2 _ _ _ _ _ H Hl)). }
  destruct (r_status_code r2 =? 400)%Z eqn:S2; cbn [negb].
  2:{ split; [cbn; lia |]. split; [repeat constructor |]. split.
      - destruct R2 as [-> | ->]; cbn; auto.
      - split.
        + constructor; [| repeat constructor; intros []].
          intros [C | []]. destruct R2 as [-> | ->]; discriminate C.
        + intros earlier b later H Hl. exact (Hfirst _ _ (Hsplit2 _ _ _ _ _ H Hl)). }
  apply Z.eqb_eq in S2.
  destruct (adjust (r_text r2) _) as [body3 [|]] eqn:A2; cbn [negb].
  2:{ split; [cbn; lia |]. split; [repeat constructor |]. split.
      - destruct R2 as [-> | ->]; cbn; auto.
      - split.
        + constructor; [| repeat constructor; intros []].
          intros [C | []]. destruct R2 as [-> | ->]; discriminate C.
        + intros earlier b later H Hl. exact (Hfirst _ _ (Hsplit2 _ _ _ _ _ H Hl)). }
  destruct (adjust_steps _ _ _ A2) as [T3 R3].
  destruct body3 as [t3 reasoning3]. cbn [b_temperature b_reasoning] in T3, R3.
  subst t3.
  destruct R2 as [-> | ->]; [| destruct R3]. subst reasoning3.
  assert (Hsplit3 : forall earlier b later,
             [mkBody false (Some low); mkBody false (Some medium);
              mkBody false None] = earlier ++ b :: later ->
             later <> [] ->
             exists r, post earlier b = Some r /\ r_status_code r = 400%Z).
  { intros [|x [|y [|z [|w earlier]]]] b later H Hl.
    - injection H as <- _. exists r1. now split.
    - injection H as <- <- _. exists r2. now split.
    - injection H as _ _ _ H. now subst later.
    - injection H as _ _ _ H. destruct later; discriminate H.
    - injection H as _ _ _ H. destruct later; discriminate H. }
  assert (Hnd : NoDup [mkBody false (Some low); mkBody false (Some medium);
                       mkBody false None]).
  { repeat constructor; cbn; intros C;
      repeat (destruct C as [C | C]; [discriminate C |]); exact C. }
  destruct (post [_; _] _) as [r3|].
  - destruct (r_status_code r3 =? 400)%Z; cbn [negb].
    + destruct (adjust (r_text r3) _) as [body4 [|]]; cbn [negb retry_loop];
        (split; [cbn; lia |]); (split; [repeat constructor |]);
        (split; [cbn; auto |]); (split; [exact Hnd | exact Hsplit3]).
    + split; [cbn; lia |]. split; [repeat constructor |].
      split; [cbn; auto |]. split; [exact Hnd | exact Hsplit3].
  - split; [cbn; lia |]. split; [repeat constructor |].
    split; [cbn; auto |]. split; [exact Hnd | exact Hsplit3].
Qed.
(** ** The further properties at concrete inputs *)

Lemma enrich_top_keeps_witness :
  exists results',
    enrich_top true keen_provider top_one_config
      (sort_by_score (busy_scan top_one_config busy_universe)) = OK results'
    /\ Forall2 (fun r r' => ticker r' = ticker r /\ score_of r <= score_of r')
         (sort_by_score (busy_scan top_one_config busy_universe)) results'
    /\ skipn 1 results'
       = skipn 1 (sort_by_score (busy_scan top_one_config busy_universe)).
Proof.
  destruct (enrich_top true keen_provider top_one_config
              (sort_by_score (busy_scan top_one_config busy_universe)))
    as [results'|] eqn:E; [| vm_compute in E; discriminate E].
  exists results'. split; [reflexivity |].
  destruct (enrich_top_keeps true keen_provider top_one_config _ _ E)
    as [H1 H2].
  split; [exact H1 |]. apply H2. vm_compute. discriminate.
Defined.

Lemma all_results_scored_witness :
  exists out,
    busy_run top_one_config busy_universe = OK out
    /\ Forall (scored 2) (all_results out).
Proof.
  eexists. split; [vm_compute; reflexivity |].
  refine (all_results_scored 0%Z example_strptime sqrt_approx first_listed busy_market
            (fun _ => None) (fun batch => rev batch) true keen_provider
            week_strftime "2026-01-02T19:00:00" top_one_config busy_universe
            _ _).
  vm_compute. reflexivity.
Defined.

Lemma report_ranked_witness :
  exists out,
    busy_run top_one_config busy_universe = OK out
    /\ StronglySorted score_ge (all_results out)
    /\ top_picks out = firstn 10 (all_results out).
Proof.
  eexists. split; [vm_compute; reflexivity |].
  destruct (report_ranked 0%Z example_strptime sqrt_approx first_listed busy_market
              (fun _ => None) (fun batch => rev batch) true keen_provider
              week_strftime "2026-01-02T19:00:00" top_one_config busy_universe
              _ ltac:(vm_compute; reflexivity)) as (H1 & H2 & _).
  split; [exact H1 | exact H2].
Defined.

Lemma scan_within_universe_witness :
  (List.length (busy_scan top_one_config busy_universe)
   <= List.length busy_universe)%nat
  /\ forall r, In r (busy_scan top_one_config busy_universe) ->
               In (ticker r) busy_universe.
Proof.
  apply (scan_within_universe 0%Z example_strptime sqrt_approx first_listed busy_market
           (fun _ => None) (fun batch => rev batch) top_one_config
           busy_universe).
  intros batch. apply Permutation_sym, Permutation_rev.
Defined.

Lemma earnings_calendar_week_witness :
  exists out,
    busy_run top_one_config busy_universe = OK out
    /\ map cd_date (earnings_calendar out)
       = ["2026-01-02"; "2026-01-03"; "2026-01-04"; "2026-01-05";
          "2026-01-06"; "2026-01-07"; "2026-01-08"]%string
    /\ forall day e,
         In day (earnings_calendar out) -> In e (cd_earnings day) ->
         exists r, In r (all_results out) /\ ce_ticker e = ticker r.
Proof.
  eexists. split; [vm_compute; reflexivity |].
  destruct (earnings_calendar_week 0%Z example_strptime sqrt_approx first_listed
              busy_market (fun _ => None) (fun batch => rev batch) true
              keen_provider week_strftime "2026-01-02T19:00:00"
              top_one_config busy_universe _ ltac:(vm_compute; reflexivity))
    as (H1 & _ & H3 & _).
  split; [exact H1 |].
  intros day e Hday He. destruct (H3 day e Hday He) as (r & Hr & Et & _).
  exists r. split; [exact Hr | exact Et].
Defined.

Lemma short_history_excluded_witness :
  get_stock_data 0 example_strptime sqrt_approx first_listed
    (fun _ => mkStock (OK (map flat_bar [10; 11; 12; 13])) (None, None)
                (OK []) (fun _ => Raise ProviderError) [])
    "NEW" default_config = None.
Proof.
  apply (short_history_excluded 0%Z example_strptime sqrt_approx first_listed
           (fun _ => mkStock (OK (map flat_bar [10; 11; 12; 13])) (None, None)
                       (OK []) (fun _ => Raise ProviderError) [])
           (fun _ => None) (fun batch => batch) false (fun _ _ => None)
           example_strftime "2026-01-02T19:00:00" "NEW" default_config).
  intros hist [= <-]. vm_compute. lia.
Defined.

Lemma get_stock_data_signal_witness :
  exists data,
    busy_fetch "RALLY" default_config = Some data
    /\ rounded_to 2 13 (price data)
    /\ ticker data = "RALLY"%string
    /\ (List.length (news data) <= 3)%nat
    /\ ai_sentiment data = default_sentiment.
Proof.
  destruct (busy_fetch "RALLY" default_config) as [data|] eqn:E;
    [| vm_compute in E; discriminate E].
  exists data. split; [reflexivity |].
  destruct (get_stock_data_signal 0%Z example_strptime sqrt_approx
              first_listed busy_market "RALLY" default_config data E)
    as (hist & current & Hh & _ & Hc & _ & Hp & Ht & Hn & _ & Ha & _).
  injection Hh as <-. injection Hc as <-.
  split; [exact Hp |]. split; [exact Ht |]. split; [exact Hn | exact Ha].
Defined.

Lemma calculate_rsi_range_witness :
  exists r,
    calculate_rsi [10; 10; 10; 10; 10; 10; 10; 10; 10; 10; 10; 9; 10; 11; 12; 13]
      14 = Some r
    /\ 0 <= r <= 100.
Proof.
  eexists. split; [vm_compute; reflexivity |].
  refine (proj2 (calculate_rsi_range
                   [10; 10; 10; 10; 10; 10; 10; 10; 10; 10; 10; 9; 10; 11; 12; 13]
                   14 _ _)).
  vm_compute. reflexivity.
Defined.

Lemma signal_rsi_range_witness :
  exists data r,
    busy_fetch "RALLY" default_config = Some data
    /\ rsi data = Some r
    /\ 0 <= r <= 100.
Proof.
  eexists. eexists. split; [vm_compute; reflexivity |].
  split; [vm_compute; reflexivity |].
  refine (proj1 (signal_rsi_range 0%Z example_strptime sqrt_approx first_listed busy_market
                   "RALLY" default_config _ _ _ _));
    vm_compute; reflexivity.
Defined.

Lemma no_rise_excluded_witness :
  (forall data, busy_fetch "SINK" top_one_config = Some data -> rsi data = None)
  /\ forall universe,
       ~ In "SINK"%string (map ticker (busy_scan top_one_config universe)).
Proof.
  destruct (no_rise_excluded 0%Z example_strptime sqrt_approx first_listed busy_market
              (fun _ => None) (fun batch => rev batch) true keen_provider
              week_strftime "2026-01-02T19:00:00" "SINK" top_one_config
              (map flat_bar
                 [30; 29; 28; 27; 26; 25; 24; 23; 22; 21; 20; 19; 18; 17; 16; 15])
              eq_refl)
    as (H1 & _ & H3 & _).
  - apply Forall_forall. intros d Hd. vm_compute in Hd.
    repeat (destruct Hd as [<- | Hd]; [unfold Qle; simpl; lia |]).
    destruct Hd.
  - split; [exact H1 | exact H3].
Defined.

Lemma snapshot_expiration_witness :
  exists snap,
    example_options rallying_stock 13 default_config = Some snap
    /\ In (expiration snap) ["2026-01-09"; "2026-02-20"]%string
    /\ (5 <= dte snap <= 10)%Z.
Proof.
  eexists. split; [vm_compute; reflexivity |].
  destruct (snapshot_expiration 0%Z example_strptime sqrt_approx first_listed rallying_stock
              13 default_config _ eq_refl ltac:(vm_compute; reflexivity))
    as (dates & Hd & _ & Hin & _ & _ & Hw).
  injection Hd as <-. split; [exact Hin |]. apply Hw.
  constructor. reflexivity.
Defined.

Lemma suggestions_closest_affordable_witness :
  exists snap chain,
    example_options rallying_stock 13 default_config = Some snap
    /\ option_chain rallying_stock (expiration snap) = OK chain
    /\ closest_affordable true 2 13 (calls chain) (call_suggestion snap)
    /\ closest_affordable false 2 13 (puts chain) (put_suggestion snap).
Proof.
  eexists.
  destruct (suggestions_closest_affordable 0%Z example_strptime sqrt_approx first_listed
              rallying_stock 13 default_config _
              ltac:(vm_compute; reflexivity))
    as (chain & Hc & H1 & H2).
  exists chain. split; [vm_compute; reflexivity |].
  split; [exact Hc |]. split; [exact H1 | exact H2].
Defined.

Lemma universe_after_update_witness :
  get_universe
    (update_universe_from_alpaca true (Some example_assets) (@rev string) None)
    (Some 130%Z)
  = OK (ROBINHOOD_POPULAR ++ ["ZZZ"%string]).
Proof.
  rewrite (proj1 (universe_after_update (@rev string) None example_assets
                    ["ZZZ"; "AAPL"]%string (Some 130%Z)
                    (Permutation_sym (Permutation_rev ROBINHOOD_POPULAR))
                    eq_refl)).
  vm_compute. reflexivity.
Defined.

Lemma report_ideas_agree_witness :
  exists out,
    busy_run top_one_config busy_universe = OK out
    /\ Forall idea_agrees (all_results out).
Proof.
  eexists. split; [vm_compute; reflexivity |].
  refine (report_ideas_agree 0%Z example_strptime sqrt_approx first_listed busy_market
            (fun _ => None) (fun batch => rev batch) true keen_provider
            week_strftime "2026-01-02T19:00:00" top_one_config busy_universe
            _ _).
  vm_compute. reflexivity.
Defined.

Lemma journal_records_run_witness :
  exists out entry rest,
    busy_run top_one_config busy_universe = OK out
    /\ append_research_journal true "2026-01-02T19:00:00"
         (fun _ => Raise ProviderError) "gpt-4o-mini" None [] out
         top_one_config
       = entry :: rest
    /\ je_created_at entry = Some (generated_at out)
    /\ je_summary entry = (6, 2)%nat.
Proof.
  eexists.
  destruct (journal_records_run 0%Z example_strptime sqrt_approx first_listed busy_market
              (fun _ => None) (fun batch => rev batch) true keen_provider
              week_strftime "2026-01-02T19:00:00"
              (fun _ => Raise ProviderError) "gpt-4o-mini" None
              top_one_config busy_universe _ []
              ltac:(vm_compute; reflexivity)
              ltac:(unfold max_entries, get; lia))
    as (entry & rest & Ha & Hc & Hs & _).
  exists entry, rest. split; [vm_compute; reflexivity |].
  split; [exact Ha |]. split; [exact Hc |]. rewrite Hs. vm_compute. reflexivity.
Defined.

(** A server that rejects every reasoning effort is asked three times. *)
Lemma strict_server_three_posts :
  responses_request strict_server
  = ([mkBody false (Some low); mkBody false (Some medium); mkBody false None],
     Some (mkResponse 200 "{}")).
Proof. vm_compute. reflexivity. Qed.
